(** * nekoneko-space-travel: a shallow embedding of the tool functions

    The repository is a demonstration travel-booking application.  This
    development embeds the functions of [src/nekoneko] that carry logic of
    their own (price table, health check, space weather, training schedule,
    alert fan-out, payment wrapper, system monitor) and states the properties
    of the specification over them.

    Conventions of the embedding.
    - Python [int] is [Z].  The arithmetic of the code on floats (price,
      training score, route, fuel, float hours) is on binary64 floats
      ([SpecFloat], module [binary64]), with their rounding, infinities, NaN
      and [OverflowError].  Numbers that are only compared (blood pressure,
      thresholds of the monitor) are exact rationals ([Qc]), and so is the
      price in exact arithmetic, which the float of the code equals for every
      booking of up to 600 000 000 passenger-days and leaves beyond.
    - A [datetime] is the microseconds of its wall clock with its time zone;
      arithmetic that leaves the years 1 to 9999 raises [OverflowError].
    - Python [str] is [string] (a sequence of bytes, UTF-8 for the Japanese
      literals of the source).
    - A [dict] used as a map is a [gmap string _]; a [dict] that is iterated
      is an association list in insertion order.
    - Code that can raise returns a [result]; code that calls the outside
      world threads an explicit state through a small exception-and-state
      monad, the outside world being a parameter ([Network], [Stripe],
      [Psutil]).

    The first part holds the embedding, one module per source file, and the
    properties as the specification words them; the second part holds the
    proofs. *)

From Stdlib Require Import Ascii String QArith Qcanon Qpower SpecFloat.
From stdpp Require Import gmap strings list pretty.

Set Warnings "-register-all".
Open Scope string_scope.
Open Scope Z_scope.

(** ** Python values shared by the modules *)

Module Py.

(** The numbers that the code only compares, and products in exact
    arithmetic: exact rationals. *)
Definition float : Type := Qc.

Definition float_of_int (z : Z) : float := Qc_of_Z z.

(** [a > b] on numbers, as a boolean. *)
Definition float_gtb (a b : float) : bool := negb (Qle_bool a b).

(** [c.lower()] on one byte: the letters A..Z move to a..z. *)
Definition ascii_lower (c : ascii) : ascii :=
  let n := nat_of_ascii c in
  if ((65 <=? n) && (n <=? 90))%nat then ascii_of_nat (n + 32) else c.

(** [s.lower()].  Bytes outside A..Z are kept: a non-ASCII letter that
    Python would lower-case stays what it is here, which changes no
    comparison against the ASCII keys of the tables below (the only
    non-ASCII character whose lower case is ASCII is the Kelvin sign, and
    no key holds a k). *)
Fixpoint lower (s : string) : string :=
  match s with
  | EmptyString => EmptyString
  | String c s' => String (ascii_lower c) (lower s')
  end.

(** [d.get(key, default)]. *)
Definition dict_get {V : Type} (d : gmap string V) (key : string) (dflt : V) : V :=
  match d !! key with
  | Some v => v
  | None => dflt
  end.

(** *** Exceptions

    The exception classes the embedded code can meet.  Every one of them
    derives from [Exception]; the signals that derive from [BaseException]
    only ([KeyboardInterrupt], [SystemExit]) are not values of this type. *)
Inductive exc_class :=
  | KeyError | IndexError | TypeError | AttributeError | ValueError
  | ZeroDivisionError | OverflowError | OSError | SMTPException
  | RequestException | HTTPError | ConnectionError
  | StripeError | CardError | InvalidRequestError | AuthenticationError
  | APIConnectionError.

#[global] Instance exc_class_eq_dec : EqDecision exc_class.
Proof. solve_decision. Defined.

(** The direct base class, [None] standing for [Exception] itself. *)
Definition base_class (c : exc_class) : option exc_class :=
  match c with
  | SMTPException | RequestException => Some OSError
  | HTTPError | ConnectionError => Some RequestException
  | CardError | InvalidRequestError | AuthenticationError
  | APIConnectionError => Some StripeError
  | KeyError | IndexError | TypeError | AttributeError | ValueError
  | ZeroDivisionError | OverflowError | OSError | StripeError => None
  end.

(** [issubclass(c, d)]; the hierarchy above is three levels deep. *)
Fixpoint issubclass_fuel (fuel : nat) (c d : exc_class) : bool :=
  if decide (c = d) then true
  else match fuel, base_class c with
       | S fuel', Some b => issubclass_fuel fuel' b d
       | _, _ => false
       end.

Definition issubclass (c d : exc_class) : bool := issubclass_fuel 3 c d.

(** An exception instance: its class, [str(e)], and the [code] attribute
    that the payment SDK's errors carry ([None] when absent or unset). *)
Record exception := Exception {
  exc_type : exc_class;
  exc_str : string;
  exc_code : option string
}.

(** The outcome of running a piece of code: a value, or a raised exception. *)
Inductive result (A : Type) : Type :=
  | Return (a : A)
  | Raise (e : exception).
Arguments Return {A} a.
Arguments Raise {A} e.

Definition result_bind {A B : Type} (r : result A) (k : A -> result B) : result B :=
  match r with
  | Return a => k a
  | Raise e => Raise e
  end.

(** [d[key]] on a dict used as a map. *)
Definition dict_getitem {V : Type} (d : gmap string V) (key : string) : result V :=
  match d !! key with
  | Some v => Return v
  | None => Raise (Exception KeyError key None)
  end.

(** *** Values *)

Inductive pyval :=
  | PNone
  | PBool (b : bool)
  | PInt (z : Z)
  | PFloat (q : float)
  | PStr (s : string)
  | PDatetime (timestamp : Z)
  | PList (l : list pyval)
  | PDict (d : gmap string pyval).

(** The number a value stands for in a comparison, when it is one ([bool]
    is a subclass of [int]). *)
Definition as_number (v : pyval) : option float :=
  match v with
  | PBool b => Some (float_of_int (Z.b2z b))
  | PInt z => Some (float_of_int z)
  | PFloat q => Some q
  | _ => None
  end.

(** [v > q] against a number [q]: a [TypeError] unless [v] is a number. *)
Definition py_gt (v : pyval) (q : float) : result bool :=
  match as_number v with
  | Some x => Return (float_gtb x q)
  | None =>
      Raise (Exception TypeError
               "'>' not supported between instances of this type and a number" None)
  end.

(** [v[key]] for a string key: only a dict holding the key answers. *)
Definition getitem (v : pyval) (key : string) : result pyval :=
  match v with
  | PDict d =>
      match d !! key with
      | Some x => Return x
      | None => Raise (Exception KeyError key None)
      end
  | PStr _ | PList _ =>
      Raise (Exception TypeError "indices must be integers" None)
  | _ => Raise (Exception TypeError "object is not subscriptable" None)
  end.

End Py.

(** ** Effects: the process state and the monad of code that can raise *)

Module Eff.
Import Py.

Inductive log_level := INFO | WARNING | ERROR.

(** One call of a [logging.Logger] method: the level and the message. *)
Record log_record := LogRecord {
  log_level_of : log_level;
  log_message : string
}.

(** What a call of [SystemMonitor.alert] carries. *)
Inductive alert_details :=
  | ResourceDetails (metric : string) (value : pyval) (threshold : float)
  | NetworkDetails (network : list (string * pyval))
  | ServiceDetails (service : string) (status : bool).

Section WithWorld.
(** [W] is the state of everything outside the process: mail server,
    webhooks, payment service, operating system counters, clock. *)
Context {W : Type}.

(** The state a call can change: the outside world, the log written so far,
    the process-wide error counter of metrics.py (by label), and the trace of
    the alerts raised by the monitor. *)
Record state := State {
  outside : W;
  log : list log_record;
  errors_total : gmap string nat;
  alerts_raised : list (string * alert_details)
}.

Definition M (A : Type) : Type := state -> result A * state.

Definition ret {A : Type} (a : A) : M A := fun st => (Return a, st).

Definition raise {A : Type} (e : exception) : M A := fun st => (Raise e, st).

Definition bind {A B : Type} (m : M A) (k : A -> M B) : M B :=
  fun st =>
    match m st with
    | (Return a, st') => k a st'
    | (Raise e, st') => (Raise e, st')
    end.

(** A pure computation that can raise, run inside the monad. *)
Definition lift {A : Type} (r : result A) : M A := fun st => (r, st).

(** A call into the outside world. *)
Definition external {A : Type} (call : W -> result A * W) : M A :=
  fun st =>
    let '(r, w) := call (outside st) in
    (r, State w (log st) (errors_total st) (alerts_raised st)).

(** [try: body except <class> as e: handler e].  [None] is the clause
    [except Exception]. *)
Definition handles (clause : option exc_class) (e : exception) : bool :=
  match clause with
  | None => true
  | Some c => issubclass (exc_type e) c
  end.

Definition try_except {A : Type} (body : M A) (clause : option exc_class)
    (handler : exception -> M A) : M A :=
  fun st =>
    match body st with
    | (Return a, st') => (Return a, st')
    | (Raise e, st') => if handles clause e then handler e st' else (Raise e, st')
    end.

(** [logger.info], [logger.warning], [logger.error]. *)
Definition logger (level : log_level) (message : string) : M unit :=
  fun st =>
    (Return tt,
     State (outside st) (log st ++ [LogRecord level message])%list
           (errors_total st) (alerts_raised st)).

(** [for x in xs: body x], stopping at the first exception. *)
Fixpoint for_each {A : Type} (xs : list A) (body : A -> M unit) : M unit :=
  match xs with
  | [] => ret tt
  | x :: rest => bind (body x) (fun _ => for_each rest body)
  end.

End WithWorld.

Arguments state W : clear implicits.
Arguments M W A : clear implicits.

End Eff.

Declare Scope eff_scope.
Delimit Scope eff_scope with eff.
Notation "x <- m ;; k" := (Eff.bind m (fun x => k))
  (at level 100, m at next level, right associativity) : eff_scope.
Notation "m ;; k" := (Eff.bind m (fun _ => k))
  (at level 100, right associativity) : eff_scope.

Declare Scope result_scope.
Delimit Scope result_scope with result.
Notation "x <- r ;; k" := (Py.result_bind r (fun x => k))
  (at level 100, r at next level, right associativity) : result_scope.

(** ** agents/booking_agent.py *)

Module booking_agent.
Import Py.

Definition base_prices : gmap string Z :=
  list_to_map [("moon", 1000000); ("mars", 5000000); ("space_station", 800000)].

Definition package_multipliers : gmap string float :=
  list_to_map [("economy", Q2Qc 1.0); ("business", Q2Qc 1.5); ("first", Q2Qc 2.0)].

(** The price in exact arithmetic: the product that [calculate_price]
    stands for, without the rounding of its floats.  The function as Python
    runs it is [binary64.calculate_price] below. *)
Definition calculate_price
    (destination : string) (days : Z) (package_type : string) (passengers : Z) : float :=
  let base_price := dict_get base_prices (lower destination) 1000000 in
  let package_multiplier := dict_get package_multipliers (lower package_type) (Q2Qc 1.0) in
  let total :=
    (float_of_int base_price * package_multiplier
     * float_of_int days * float_of_int passengers)%Qc in
  total.

End booking_agent.

(** ** The price on binary64 floats *)

Module binary64.
Import Py.

Definition prec : Z := 53.
Definition emax : Z := 1024.

(** [float(z)], as Python converts an [int] operand: rounded to nearest
    even, [OverflowError] when out of range. *)
Definition of_int (z : Z) : result spec_float :=
  match binary_normalize prec emax z 0 false with
  | S754_infinity _ =>
      Raise (Exception OverflowError "int too large to convert to float" None)
  | f => Return f
  end.

Definition mul : spec_float -> spec_float -> spec_float := SFmul prec emax.

(** The float literal [m * 2^e]. *)
Definition literal (m e : Z) : spec_float := binary_normalize prec emax m e false.

(** The rational a finite float stands for. *)
Definition value (f : spec_float) : option Q :=
  match f with
  | S754_zero _ => Some 0%Q
  | S754_finite s m e =>
      Some ((if s then -1 else 1) * inject_Z (Zpos m) * Qpower 2 e)%Q
  | _ => None
  end.

Definition shift_of (n : positive) : Z := 53 - Zpos (digits2_pos n).

(** The binary64 number [n * 2^e], for [n] below 2^53: the mantissa is [n]
    moved up to 53 bits. *)
Definition canon (n : positive) (e : Z) : spec_float :=
  S754_finite false (Z.to_pos (Zpos n * 2 ^ shift_of n)) (e - shift_of n).

Definition package_multipliers : gmap string spec_float :=
  list_to_map
    [("economy", literal 1 0); ("business", literal 3 (-1)); ("first", literal 2 0)].

(** [booking_agent.calculate_price] on binary64 floats: every [int]
    operand is converted, every product rounded. *)
Definition calculate_price
    (destination : string) (days : Z) (package_type : string) (passengers : Z)
  : result spec_float :=
  let base_price := dict_get booking_agent.base_prices (lower destination) 1000000 in
  let package_multiplier :=
    dict_get package_multipliers (lower package_type) (literal 1 0) in
  (base <- of_int base_price ;;
   let total := mul base package_multiplier in
   days' <- of_int days ;;
   let total := mul total days' in
   passengers' <- of_int passengers ;;
   let total := mul total passengers' in
   Return total)%result.

(** The bookings on which binary64 is shown exact: up to 600 000 000
    passenger-days. *)
Definition in_exact_range (days passengers : Z) : Prop :=
  0 <= days /\ 0 <= passengers
  /\ Z.max 1 days * Z.max 1 passengers <= 600000000.


End binary64.

(** ** agents/safety_agent.py *)

Module safety_agent.
Import Py.

Record SpaceWeather := {
  solar_activity : string;
  radiation_level : string;
  meteoroid_risk : string;
  recommendation : string
}.

Definition required_checks : list string :=
  ["blood_pressure"; "heart_condition"; "bone_density"; "inner_ear"; "vision"].

(** The first loop of [check_health_requirements]: does it reach its
    [return False]? *)
Fixpoint some_check_missing (checks : list string) (medical_history : gmap string pyval)
  : bool :=
  match checks with
  | [] => false
  | check :: rest =>
      if bool_decide (medical_history !! check = None) then true
      else some_check_missing rest medical_history
  end.

Definition check_health_requirements (medical_history : gmap string pyval) : result bool :=
  if some_check_missing required_checks medical_history then Return false
  else
    (bp <- getitem (PDict medical_history) "blood_pressure" ;;
     systolic <- getitem bp "systolic" ;;
     too_high <- py_gt systolic (float_of_int 140) ;;
     if too_high : bool then Return false
     else
       bp <- getitem (PDict medical_history) "blood_pressure" ;;
       diastolic <- getitem bp "diastolic" ;;
       too_high <- py_gt diastolic (float_of_int 90) ;;
       if too_high : bool then Return false
       else Return true)%result.

Definition monitor_space_weather : SpaceWeather :=
  {| solar_activity := "moderate";
     radiation_level := "normal";
     meteoroid_risk := "low";
     recommendation := "現在の宇宙天気は安定しており、宇宙旅行に適しています。" |}.

End safety_agent.

(** ** tools/space_weather.py *)

Module space_weather.
Import Py.

Record SpaceWeatherTool := {
  activity_levels : list string;
  risk_levels : list string
}.

(** [SpaceWeatherTool.__init__]. *)
Definition init : SpaceWeatherTool :=
  {| activity_levels := ["low"; "moderate"; "high"; "extreme"];
     risk_levels := ["minimal"; "low"; "moderate"; "high"; "severe"] |}.

(** [random.choice(seq)]: the element at an index drawn below [len(seq)],
    [IndexError] on an empty sequence.  The generator's output is the
    argument [draw]; the index is its residue. *)
Definition random_choice (draw : nat) (seq : list string) : result string :=
  match seq !! (draw mod length seq)%nat with
  | Some x => Return x
  | None => Raise (Exception IndexError "Cannot choose from an empty sequence" None)
  end.

Definition get_solar_activity (self : SpaceWeatherTool) (draw : nat) : result string :=
  random_choice draw (activity_levels self).

Definition get_radiation_level (self : SpaceWeatherTool) (draw : nat) : result string :=
  random_choice draw (activity_levels self).

Definition get_meteoroid_risk (self : SpaceWeatherTool) (draw : nat) : result string :=
  random_choice draw (risk_levels self).

Definition postpone_recommendation : string :=
  "現在、宇宙天候が不安定です。宇宙旅行の延期をお勧めします。".
Definition caution_recommendation : string :=
  "宇宙天候は注意が必要ですが、適切な対策を講じれば宇宙旅行は可能です。".
Definition stable_recommendation : string :=
  "現在の宇宙天候は安定しており、宇宙旅行に適しています。".

Definition get_weather_recommendation
    (solar_activity radiation_level meteoroid_risk : string) : string :=
  if bool_decide ("high" ∈ [solar_activity; radiation_level])
     || bool_decide (meteoroid_risk ∈ ["high"; "severe"])
  then postpone_recommendation
  else if bool_decide ("moderate" ∈ [solar_activity; radiation_level; meteoroid_risk])
  then caution_recommendation
  else stable_recommendation.

(** The fields of [get_full_weather_report] that do not come from the
    clock: three draws, one per sensor, and the recommendation computed from
    them. *)
Record weather_report := {
  report_solar_activity : string;
  report_radiation_level : string;
  report_meteoroid_risk : string;
  report_recommendation : string;
  report_valid_hours : Z
}.

Definition get_full_weather_report (self : SpaceWeatherTool) (d1 d2 d3 : nat)
  : result weather_report :=
  (solar <- get_solar_activity self d1 ;;
   radiation <- get_radiation_level self d2 ;;
   meteoroid <- get_meteoroid_risk self d3 ;;
   Return {| report_solar_activity := solar;
             report_radiation_level := radiation;
             report_meteoroid_risk := meteoroid;
             report_recommendation :=
               get_weather_recommendation solar radiation meteoroid;
             report_valid_hours := 24 |})%result.

(** What a sensor getter can return: the strings some draw produces. *)
Definition producible (getter : nat -> result string) (s : string) : Prop :=
  exists draw : nat, getter draw = Return s.

(** The results of a getter are exactly the members of some list of [n]
    distinct strings. *)
Definition exactly_n_strings (n : nat) (getter : nat -> result string) : Prop :=
  exists l : list string,
    length l = n /\ NoDup l /\ forall s : string, producible getter s <-> s ∈ l.

(** The sentence of the specification for one getter. *)
Definition one_of_four_strings (getter : nat -> result string) : Prop :=
  exactly_n_strings 4 getter.

(** A getter spreads the draws evenly over [seq]: the draws of one period
    reach every element, each from one draw only, and the getter repeats
    with that period. *)
Definition uniform_over (seq : list string) (getter : nat -> result string) : Prop :=
  (forall i : nat, (i < length seq)%nat -> exists s, seq !! i = Some s /\ getter i = Return s)
  /\ (forall i j : nat, (i < length seq)%nat -> (j < length seq)%nat ->
      getter i = getter j -> i = j)
  /\ (forall draw : nat, getter (draw + length seq)%nat = getter draw).

End space_weather.

(** ** tools/training_simulator.py *)

Module training_simulator.
Import Py.

Inductive TrainingType :=
  | ZERO_GRAVITY | EMERGENCY | SPACECRAFT | HEALTH | COMMUNICATION.

#[global] Instance TrainingType_eq_dec : EqDecision TrainingType.
Proof. solve_decision. Defined.

Definition TrainingType_value (t : TrainingType) : string :=
  match t with
  | ZERO_GRAVITY => "zero_gravity"
  | EMERGENCY => "emergency"
  | SPACECRAFT => "spacecraft"
  | HEALTH => "health"
  | COMMUNICATION => "communication"
  end.

Record program := {
  program_duration_days : Z;
  program_requirements : list string;
  program_equipment : list string;
  program_description : string
}.

(** [self.training_programs], a dict with one entry per member of the enum. *)
Definition training_programs (t : TrainingType) : program :=
  match t with
  | ZERO_GRAVITY =>
      {| program_duration_days := 5;
         program_requirements := ["基本的な体力"; "めまい耐性"];
         program_equipment := ["無重力シミュレータ"; "特殊スーツ"];
         program_description :=
           "無重力環境での生活と活動に慣れるための訓練プログラムです。" |}
  | EMERGENCY =>
      {| program_duration_days := 3;
         program_requirements := ["基本訓練修了"];
         program_equipment := ["救命装置"; "消火装置"];
         program_description :=
           "宇宙船内外での緊急事態に対応するための訓練プログラムです。" |}
  | SPACECRAFT =>
      {| program_duration_days := 7;
         program_requirements := ["基本訓練修了"; "シミュレータ経験"];
         program_equipment := ["操縦シミュレータ"; "通信機器"];
         program_description :=
           "宇宙船の基本操作と運航手順を学ぶ訓練プログラムです。" |}
  | HEALTH =>
      {| program_duration_days := 2;
         program_requirements := ["基本的な体力"];
         program_equipment := ["医療機器"; "運動設備"];
         program_description :=
           "宇宙での健康管理と応急処置を学ぶ訓練プログラムです。" |}
  | COMMUNICATION =>
      {| program_duration_days := 1;
         program_requirements := ["基本訓練修了"];
         program_equipment := ["通信機器"; "緊急通信装置"];
         program_description :=
           "地上管制との通信手順と緊急通信を学ぶ訓練プログラムです。" |}
  end.

(** A [datetime]: the microseconds of its wall clock since the first
    moment of the year 1, and its time zone, when it has one, as the offset
    from UTC in microseconds.  The wall clock of a datetime that Python has
    built lies in the years 1 to 9999, and arithmetic that leads out of them
    raises [OverflowError]. *)
Record datetime := Datetime {
  wall : Z;
  tzinfo : option Z
}.

(** The wall clock of [datetime.max], 9999-12-31 23:59:59.999999. *)
Definition max_wall : Z := 3652059 * 86400000000 - 1.

(** The microseconds of a number of days. *)
Definition microseconds (days : Z) : Z := days * 86400000000.

(** [timedelta(days=n)], in microseconds: refused beyond 999 999 999 days. *)
Definition timedelta (days : Z) : result Z :=
  if (-999999999 <=? days) && (days <=? 999999999) then Return (microseconds days)
  else Raise (Exception OverflowError "days; must have magnitude <= 999999999" None).

(** [d + delta], and [d - delta] with the delta negated. *)
Definition datetime_add (d : datetime) (delta : Z) : result datetime :=
  if (0 <=? wall d + delta) && (wall d + delta <=? max_wall)
  then Return (Datetime (wall d + delta) (tzinfo d))
  else Raise (Exception OverflowError "date value out of range" None).

Record training_module := {
  module_type : string;
  module_start_date : datetime;
  module_end_date : datetime;
  module_duration_days : Z;
  module_requirements : list string;
  module_equipment : list string;
  module_description : string
}.

Record training_schedule := {
  trainee_name : string;
  start_date : datetime;
  end_date : datetime;
  departure_date : datetime;
  training_modules : list training_module
}.

(** [sum(...)] over the durations. *)
Definition sum (l : list Z) : Z := fold_left Z.add l 0.

(** One turn of the loop of [create_training_schedule]: append the module
    that starts on [current_date], then move [current_date] past it and one
    more day.  A turn that raises ends the loop. *)
Definition schedule_step (st : result (datetime * list training_module))
    (training_type : TrainingType) : result (datetime * list training_module) :=
  (st <- st ;;
   let '(current_date, modules) := st in
   let program := training_programs training_type in
   duration <- timedelta (program_duration_days program) ;;
   end_date <- datetime_add current_date duration ;;
   pause <- timedelta (program_duration_days program + 1) ;;
   next_date <- datetime_add current_date pause ;;
   Return
     (next_date,
      (modules ++ [ {| module_type := TrainingType_value training_type;
                      module_start_date := current_date;
                      module_end_date := end_date;
                      module_duration_days := program_duration_days program;
                      module_requirements := program_requirements program;
                      module_equipment := program_equipment program;
                      module_description := program_description program |} ])%list))%result.

Definition create_training_schedule
    (trainee : string) (departure : datetime) (training_types : list TrainingType)
  : result training_schedule :=
  let total_days :=
    sum (map (fun t => program_duration_days (training_programs t)) training_types) in
  (margin <- timedelta (total_days + 14) ;;
   start <- datetime_add departure (- margin) ;;
   week <- timedelta 7 ;;
   end_ <- datetime_add departure (- week) ;;
   st <- fold_left schedule_step training_types (Return (start, [])) ;;
   Return {| trainee_name := trainee;
             start_date := start;
             end_date := end_;
             departure_date := departure;
             training_modules := snd st |})%result.

End training_simulator.

(** ** monitoring/alert_notifier.py *)

Module alert_notifier.
Import Py Eff.

(** [self.smtp_settings]; [os.getenv] gives [None] for a variable that is
    not set. *)
Record smtp_settings := {
  smtp_server : option string;
  smtp_port : Z;
  smtp_username : option string;
  smtp_password : option string;
  smtp_from_address : option string
}.

Record AlertNotifier := {
  smtp : smtp_settings;
  slack_webhook : option string;
  line_token : option string;
  discord_webhook : option string
}.

(** The message handed to the mail server: headers and the fields that the
    HTML body interpolates. *)
Record email_message := {
  msg_from : option string;
  msg_to : string;
  msg_subject : string;
  msg_body_time : string;
  msg_body_kind : string;
  msg_body_text : string
}.

(** What [requests.post] is given besides the URL. *)
Inductive request_body :=
  | SlackPayload (color header section context : string)
  | LineForm (authorization message : string)
  | DiscordPayload (title description : string) (color : Z) (footer : string).

(** The calls that leave the process.  Each one reads and changes the
    outside world and either returns or raises. *)
Class Network (W : Type) := {
  (** [datetime.now().strftime('%Y-%m-%d %H:%M:%S')] *)
  strftime_now : W -> string;
  (** [smtplib.SMTP(server, port)] and entering its [with] block *)
  smtp_connect : option string -> Z -> W -> result unit * W;
  smtp_starttls : W -> result unit * W;
  smtp_login : option string -> option string -> W -> result unit * W;
  smtp_send_message : email_message -> W -> result unit * W;
  (** leaving the [with] block: QUIT and close *)
  smtp_exit : W -> result unit * W;
  (** [requests.post(url, ...)]: the status code of the response *)
  requests_post : option string -> request_body -> W -> result Z * W
}.

(** [if x:] on an optional string and on an optional list. *)
Definition truthy_str (s : option string) : bool :=
  match s with
  | Some (String _ _) => true
  | _ => false
  end.

Definition truthy_list {A : Type} (l : option (list A)) : bool :=
  match l with
  | Some (_ :: _) => true
  | _ => false
  end.

(** [response.raise_for_status()]. *)
Definition raise_for_status (status_code : Z) : result unit :=
  if (400 <=? status_code) && (status_code <? 600)
  then Raise (Exception HTTPError "HTTP error status" None)
  else Return tt.

Definition newline : string := String (ascii_of_nat 10) EmptyString.

Section WithNetwork.
Context {W : Type} {net : Network W}.

Definition now : M W string :=
  fun st => (Return (strftime_now (outside st)), st).

(** [with smtplib.SMTP(...) as server: body]: the block is left through
    [smtp_exit] whether or not [body] raised, and an exception of the exit
    replaces the one of the body. *)
Definition with_smtp (settings : smtp_settings) (body : M W unit) : M W unit :=
  (external (smtp_connect (smtp_server settings) (smtp_port settings)) ;;
   fun st =>
     match body st with
     | (Return _, st1) => external smtp_exit st1
     | (Raise e, st1) =>
         match external smtp_exit st1 with
         | (Return _, st2) => (Raise e, st2)
         | (Raise e', st2) => (Raise e', st2)
         end
     end)%eff.

(** The body of the [try] of [send_email_alert] up to the end of the [with]
    block. *)
Definition smtp_session (self : AlertNotifier) (subject message : string)
    (recipients : list string) : M W unit :=
  (time <- now ;;
   let msg :=
     {| msg_from := smtp_from_address (smtp self);
        msg_to := String.concat ", " recipients;
        msg_subject := "[ねこねこスペーストラベル アラート] " ++ subject;
        msg_body_time := time;
        msg_body_kind := subject;
        msg_body_text := message |} in
   with_smtp (smtp self)
     (external smtp_starttls ;;
      external (smtp_login (smtp_username (smtp self)) (smtp_password (smtp self))) ;;
      external (smtp_send_message msg)))%eff.

Definition send_email_alert (self : AlertNotifier) (subject message : string)
    (recipients : list string) : M W bool :=
  try_except
    (smtp_session self subject message recipients ;;
     logger INFO ("アラートメールを送信しました: " ++ subject) ;;
     ret true)%eff
    None
    (fun e =>
       logger ERROR ("メール送信に失敗: " ++ exc_str e) ;;
       ret false)%eff.

Definition severity_config : gmap string (string * string) :=
  list_to_map
    [("info", ("ℹ️", "#36a64f")); ("warning", ("⚠️", "#ffd700"));
     ("error", ("🚨", "#ff0000"))].

(** The body of the [try] of [send_slack_alert] up to
    [response.raise_for_status()]. *)
Definition slack_request (self : AlertNotifier) (title message severity : string)
  : M W unit :=
  (let '(emoji, color) := dict_get severity_config (lower severity) ("🔔", "#808080") in
   time <- now ;;
   response <- external (requests_post (slack_webhook self)
                           (SlackPayload color (emoji ++ " " ++ title) message
                              ("発生時刻: " ++ time))) ;;
   lift (raise_for_status response))%eff.

Definition send_slack_alert (self : AlertNotifier) (title message severity : string)
  : M W bool :=
  try_except
    (slack_request self title message severity ;;
     logger INFO ("Slackアラートを送信しました: " ++ title) ;;
     ret true)%eff
    None
    (fun e =>
       logger ERROR ("Slack通知に失敗: " ++ exc_str e) ;;
       ret false)%eff.

(** [f'Bearer {self.line_token}'] prints an unset token as [None]. *)
Definition bearer (token : option string) : string :=
  "Bearer " ++ match token with Some t => t | None => "None" end.

Definition line_request (self : AlertNotifier) (message : string) : M W unit :=
  (response <- external (requests_post (Some "https://notify-api.line.me/api/notify")
                           (LineForm (bearer (line_token self))
                              ("🚨 アラート通知" ++ newline ++ newline ++ message))) ;;
   lift (raise_for_status response))%eff.

Definition send_line_alert (self : AlertNotifier) (message : string) : M W bool :=
  try_except
    (line_request self message ;;
     logger INFO "LINEアラートを送信しました" ;;
     ret true)%eff
    None
    (fun e =>
       logger ERROR ("LINE通知に失敗: " ++ exc_str e) ;;
       ret false)%eff.

Definition discord_request (self : AlertNotifier) (title message : string) (color : Z)
  : M W unit :=
  (time <- now ;;
   response <- external (requests_post (discord_webhook self)
                           (DiscordPayload ("🚨 " ++ title) message color
                              ("発生時刻: " ++ time))) ;;
   lift (raise_for_status response))%eff.

Definition send_discord_alert (self : AlertNotifier) (title message : string) (color : Z)
  : M W bool :=
  try_except
    (discord_request self title message color ;;
     logger INFO ("Discordアラートを送信しました: " ++ title) ;;
     ret true)%eff
    None
    (fun e =>
       logger ERROR ("Discord通知に失敗: " ++ exc_str e) ;;
       ret false)%eff.

Definition broadcast_alert (self : AlertNotifier) (title message severity : string)
    (email_recipients : option (list string)) : M W (gmap string bool) :=
  (let results : gmap string bool := ∅ in
   results <-
     (match email_recipients with
      | Some (r :: rs) =>
          sent <- send_email_alert self title message (r :: rs) ;;
          ret (<["email" := sent]> results)
      | _ => ret results
      end) ;;
   results <-
     (if truthy_str (slack_webhook self)
      then sent <- send_slack_alert self title message severity ;;
           ret (<["slack" := sent]> results)
      else ret results) ;;
   results <-
     (if truthy_str (line_token self)
      then sent <- send_line_alert self (title ++ newline ++ newline ++ message) ;;
           ret (<["line" := sent]> results)
      else ret results) ;;
   results <-
     (if truthy_str (discord_webhook self)
      then sent <- send_discord_alert self title message 0xFF0000 ;;
           ret (<["discord" := sent]> results)
      else ret results) ;;
   ret results)%eff.

End WithNetwork.

End alert_notifier.

(** ** tools/payment_processor.py *)

Module payment_processor.
Import Py Eff.

Record PaymentProcessor := {
  currency : string;
  tax_rate : float
}.

(** [PaymentProcessor.__init__]. *)
Definition init : PaymentProcessor :=
  {| currency := "jpy"; tax_rate := Q2Qc 0.10 |}.

(** The objects the SDK answers with; [created] is a Unix timestamp, or
    whatever else the answer holds in its place. *)
Record Charge := {
  charge_id : string;
  charge_amount : Z;
  charge_receipt_url : option string;
  charge_status : string;
  charge_created : pyval
}.

Record Refund := {
  refund_id : string;
  refund_amount : Z;
  refund_status : string;
  refund_created : pyval
}.

Record charge_params := {
  param_amount : Z;
  param_currency : string;
  param_source : string;
  param_description : string;
  param_receipt_email : string
}.

(** The two SDK calls, [stripe.Charge.create] and [stripe.Refund.create]. *)
Class Stripe (W : Type) := {
  Charge_create : charge_params -> W -> result Charge * W;
  Refund_create : string -> option Z -> W -> result Refund * W
}.

Definition opt_str (o : option string) : pyval :=
  match o with
  | Some s => PStr s
  | None => PNone
  end.

(** [datetime.fromtimestamp(created)]: the local time of a Unix timestamp,
    as the platform and its time zone give it.  The call raises [TypeError]
    for a value that is no number, and [ValueError], [OverflowError] or
    [OSError] for a number that leads out of the years 1 to 9999; which one,
    and from which number on, is the platform's. *)
Class Localtime := {
  fromtimestamp : pyval -> result Z
}.

Section WithStripe.
Context {W : Type} {sdk : Stripe W} {tz : Localtime}.

Definition process_payment (self : PaymentProcessor) (amount : Z)
    (token customer_email booking_ref : string) : M W (gmap string pyval) :=
  try_except
    (charge <- external (Charge_create
                  {| param_amount := amount;
                     param_currency := currency self;
                     param_source := token;
                     param_description :=
                       "ねこねこスペーストラベル - 予約番号: " ++ booking_ref;
                     param_receipt_email := customer_email |}) ;;
     created <- lift (fromtimestamp (charge_created charge)) ;;
     ret (list_to_map
            [("success", PBool true);
             ("transaction_id", PStr (charge_id charge));
             ("amount", PInt (charge_amount charge));
             ("receipt_url", opt_str (charge_receipt_url charge));
             ("status", PStr (charge_status charge));
             ("created", PDatetime created)]))%eff
    (Some StripeError)
    (fun e =>
       ret (list_to_map
              [("success", PBool false);
               ("error", PStr (exc_str e));
               ("error_code", opt_str (exc_code e));
               ("booking_ref", PStr booking_ref)])).

Definition process_refund (self : PaymentProcessor) (transaction_id : string)
    (amount : option Z) : M W (gmap string pyval) :=
  try_except
    (refund <- external (Refund_create transaction_id amount) ;;
     created <- lift (fromtimestamp (refund_created refund)) ;;
     ret (list_to_map
            [("success", PBool true);
             ("refund_id", PStr (refund_id refund));
             ("amount", PInt (refund_amount refund));
             ("status", PStr (refund_status refund));
             ("created", PDatetime created)]))%eff
    (Some StripeError)
    (fun e =>
       ret (list_to_map
              [("success", PBool false);
               ("error", PStr (exc_str e));
               ("error_code", opt_str (exc_code e));
               ("transaction_id", PStr transaction_id)])).

End WithStripe.

End payment_processor.

(** ** monitoring/metrics.py *)

Module metrics.
Import Py Eff.

(** The methods that [class MetricsManager] defines. *)
Inductive MetricsManager_attr :=
  | record_booking | start_user_session | end_user_session | record_error
  | measure_latency.

(** [getattr(metrics_manager, name)]. *)
Definition MetricsManager_getattr (name : string) : result MetricsManager_attr :=
  if decide (name = "record_booking") then Return record_booking
  else if decide (name = "start_user_session") then Return start_user_session
  else if decide (name = "end_user_session") then Return end_user_session
  else if decide (name = "record_error") then Return record_error
  else if decide (name = "measure_latency") then Return measure_latency
  else Raise (Exception AttributeError
                ("'MetricsManager' object has no attribute '" ++ name ++ "'") None).

Section WithWorld.
Context {W : Type}.

(** [ERRORS_TOTAL.labels(error_type=...).inc()]. *)
Definition errors_total_inc (error_type : string) : M W unit :=
  fun st =>
    (Return tt,
     State (outside st) (log st)
           (<[error_type := S (dict_get (errors_total st) error_type 0%nat)]>
              (errors_total st))
           (alerts_raised st)).

(** [metrics_manager.<name>(args)]: the attribute is looked up, then
    called.  Only the error counter is tracked in the state; the booking
    counter and the session gauge are not read by the code embedded here. *)
Definition metrics_manager (name : string) (args : list pyval) : M W unit :=
  (attr <- lift (MetricsManager_getattr name) ;;
   match attr, args with
   | record_error, [PStr error_type] => errors_total_inc error_type
   | record_booking, [PStr _] => ret tt
   | start_user_session, [PStr _] => ret tt
   | end_user_session, [PStr _] => ret tt
   | measure_latency, [PStr _] => ret tt
   | _, _ => raise (Exception TypeError "wrong arguments" None)
   end)%eff.

End WithWorld.

End metrics.

(** ** monitoring/system_monitor.py *)

Module system_monitor.
Import Py Eff.

(** [psutil.net_io_counters()]. *)
Record net_io := {
  bytes_sent : Z;
  bytes_recv : Z;
  packets_sent : Z;
  packets_recv : Z;
  errin : Z;
  errout : Z
}.

(** The operating-system readings and the clock. *)
Class Psutil (W : Type) := {
  (** [psutil.cpu_percent(interval=1)] *)
  cpu_percent : W -> result float * W;
  (** [psutil.virtual_memory().percent] *)
  virtual_memory_percent : W -> result float * W;
  (** [psutil.disk_usage('/').percent] *)
  disk_usage_percent : W -> result float * W;
  net_io_counters : W -> result net_io * W;
  (** [datetime.now().isoformat()] *)
  now_isoformat : W -> string
}.

Record SystemMonitor (W : Type) := {
  check_interval : Z;
  alert_threshold : gmap string float;
  alert_callbacks : list (string -> alert_details -> W -> result unit * W)
}.
Arguments check_interval {W} s.
Arguments alert_threshold {W} s.
Arguments alert_callbacks {W} s.

Definition default_alert_threshold : gmap string float :=
  list_to_map
    [("cpu_percent", Q2Qc 80.0); ("memory_percent", Q2Qc 85.0);
     ("disk_percent", Q2Qc 90.0); ("network_error_rate", Q2Qc 0.01)].

(** [SystemMonitor.__init__]: [alert_threshold or {...}] takes the defaults
    for [None] and for an empty dict. *)
Definition init {W : Type} (interval : Z) (threshold : option (gmap string float))
  : SystemMonitor W :=
  {| check_interval := interval;
     alert_threshold :=
       match threshold with
       | Some d => if decide (d = ∅) then default_alert_threshold else d
       | None => default_alert_threshold
       end;
     alert_callbacks := [] |}.

(** [d.get(key, default)] on a dict kept in insertion order. *)
Fixpoint items_get (d : list (string * pyval)) (key : string) (dflt : pyval) : pyval :=
  match d with
  | [] => dflt
  | (k, v) :: rest => if decide (k = key) then v else items_get rest key dflt
  end.

Section WithPsutil.
Context {W : Type} {os : Psutil W}.
(** The module-level object [metrics_manager], as the dispatcher of its
    method calls. *)
Variable metrics_manager : string -> list pyval -> M W unit.

Definition check_system_resources (self : SystemMonitor W) : M W (list (string * pyval)) :=
  try_except
    (cpu <- external cpu_percent ;;
     memory <- external virtual_memory_percent ;;
     disk <- external disk_usage_percent ;;
     timestamp <- (fun st => (Return (now_isoformat (outside st)), st)) ;;
     let metrics :=
       [("cpu_percent", PFloat cpu); ("memory_percent", PFloat memory);
        ("disk_percent", PFloat disk); ("timestamp", PStr timestamp)] in
     for_each metrics
       (fun '(key, value) =>
          if decide (key <> "timestamp")
          then metrics_manager "record_metric" [PStr ("system_" ++ key); value]
          else ret tt) ;;
     ret metrics)%eff
    None
    (fun e =>
       logger ERROR ("システムリソースのチェックに失敗: " ++ exc_str e) ;;
       metrics_manager "record_error" [PStr "system_check_failed"] ;;
       ret [])%eff.

(** [(errin + errout) / (packets_sent + packets_recv + 1)]. *)
Definition error_rate (io : net_io) : result float :=
  let denominator := packets_sent io + packets_recv io + 1 in
  if decide (denominator = 0)
  then Raise (Exception ZeroDivisionError "division by zero" None)
  else Return (float_of_int (errin io + errout io) / float_of_int denominator)%Qc.

Definition check_network_health (self : SystemMonitor W) : M W (list (string * pyval)) :=
  try_except
    (io <- external net_io_counters ;;
     rate <- lift (error_rate io) ;;
     let metrics :=
       [("bytes_sent", PInt (bytes_sent io)); ("bytes_recv", PInt (bytes_recv io));
        ("packets_sent", PInt (packets_sent io));
        ("packets_recv", PInt (packets_recv io)); ("error_rate", PFloat rate)] in
     for_each metrics
       (fun '(key, value) =>
          metrics_manager "record_metric" [PStr ("network_" ++ key); value]) ;;
     ret metrics)%eff
    None
    (fun e =>
       logger ERROR ("ネットワーク状態のチェックに失敗: " ++ exc_str e) ;;
       metrics_manager "record_error" [PStr "network_check_failed"] ;;
       ret [])%eff.

Definition check_application_health (self : SystemMonitor W) : M W (list (string * bool)) :=
  (let health_status :=
     [("web_server", true); ("database", true); ("redis", true);
      ("message_queue", true)] in
   for_each health_status
     (fun '(service, status) =>
        metrics_manager "record_metric"
          [PStr ("service_" ++ service ++ "_health");
           PInt (if status : bool then 1 else 0)]) ;;
   ret health_status)%eff.

(** [SystemMonitor.alert]: a warning in the log, then every registered
    callback, each under its own handler.  The call is also added to the
    trace [alerts_raised]. *)
Definition alert (self : SystemMonitor W) (alert_type : string) (details : alert_details)
  : M W unit :=
  (logger WARNING ("アラート発生: " ++ alert_type) ;;
   (fun st =>
      (Return tt,
       State (outside st) (log st) (errors_total st)
             (alerts_raised st ++ [(alert_type, details)])%list)) ;;
   for_each (alert_callbacks self)
     (fun callback =>
        try_except (external (callback alert_type details)) None
          (fun e =>
             logger ERROR ("アラートコールバックの実行に失敗: " ++ exc_str e))))%eff.

(** The [for key, value in resources.items()] loop of the monitor. *)
Definition check_thresholds (self : SystemMonitor W) (resources : list (string * pyval))
  : M W unit :=
  for_each resources
    (fun '(key, value) =>
       match alert_threshold self !! key with
       | Some threshold =>
           (exceeded <- lift (py_gt value threshold) ;;
            if exceeded : bool
            then alert self "resource_threshold_exceeded"
                   (ResourceDetails key value threshold)
            else ret tt)%eff
       | None => ret tt
       end).

(** One turn of the [while] loop of [_monitoring_loop], up to the sleep. *)
Definition monitoring_iteration (self : SystemMonitor W) : M W unit :=
  try_except
    (resources <- check_system_resources self ;;
     check_thresholds self resources ;;
     network <- check_network_health self ;;
     threshold <- lift (dict_getitem (alert_threshold self) "network_error_rate") ;;
     exceeded <- lift (py_gt (items_get network "error_rate" (PInt 0)) threshold) ;;
     (if exceeded : bool
      then alert self "network_errors" (NetworkDetails network)
      else ret tt) ;;
     health <- check_application_health self ;;
     for_each health
       (fun '(service, status) =>
          if negb status
          then alert self "service_unhealthy" (ServiceDetails service status)
          else ret tt))%eff
    None
    (fun e =>
       logger ERROR ("監視ループでエラーが発生: " ++ exc_str e) ;;
       metrics_manager "record_error" [PStr "monitoring_loop_error"])%eff.

(** [time.sleep(seconds)] for an [int]: a negative length is refused, and
    so is one whose nanoseconds do not fit 64 bits.  The pause itself changes
    nothing that is modelled. *)
Definition sleep (seconds : Z) : result unit :=
  if seconds <? 0
  then Raise (Exception ValueError "sleep length must be non-negative" None)
  else if 9223372036 <? seconds
  then Raise (Exception OverflowError
                "timestamp too large to convert to C _PyTime_t" None)
  else Return tt.

(** [_monitoring_loop], for the [turns] times that the stop flag is found
    clear: a turn, then the sleep, which is outside the [try]. *)
Fixpoint monitoring_loop (self : SystemMonitor W) (turns : nat) : M W unit :=
  match turns with
  | O => ret tt
  | S turns' =>
      (monitoring_iteration self ;;
       lift (sleep (check_interval self)) ;;
       monitoring_loop self turns')%eff
  end.

End WithPsutil.

(** The resource alerts among the raised ones: the metric, the value and
    the threshold of each. *)
Definition resource_alerts (alerts : list (string * alert_details))
  : list (string * pyval * float) :=
  omap (fun '(alert_type, details) =>
          match details with
          | ResourceDetails metric value threshold =>
              if decide (alert_type = "resource_threshold_exceeded")
              then Some (metric, value, threshold) else None
          | _ => None
          end) alerts.

End system_monitor.

(** ** The alert fan-out, as the specification words it *)

Module notifier_spec.
Import Py Eff.

Section WithWorld.
Context {W : Type}.

(** The state after one more log record. *)
Definition with_log (st : state W) (level : log_level) (message : string) : state W :=
  State (outside st) (log st ++ [LogRecord level message])%list
        (errors_total st) (alerts_raised st).

(** A send wraps its outbound call: True and an info record when the call
    returns, False and an error record naming the exception when it raises;
    the send itself never raises. *)
Definition wraps_call (send : M W bool) (call : M W unit)
    (success failure : string) : Prop :=
  forall st : state W,
    match call st with
    | (Return _, st') => send st = (Return true, with_log st' INFO success)
    | (Raise e, st') =>
        send st = (Return false, with_log st' ERROR (failure ++ exc_str e))
    end.

Definition never_raises {A : Type} (m : M W A) : Prop :=
  forall st : state W, exists (a : A) (st' : state W), m st = (Return a, st').

(** One channel of the broadcast: the result of its send when the channel
    is configured, nothing otherwise. *)
Definition attempt (configured : bool) (send : M W bool) (st : state W)
  : option bool * state W :=
  if configured
  then match send st with
       | (Return sent, st') => (Some sent, st')
       | (Raise _, st') => (None, st')
       end
  else (None, st).

End WithWorld.

(** A network on which mail and Discord go through, Slack answers 500 and
    the LINE request cannot connect. *)
Definition flaky_network : alert_notifier.Network unit :=
  {| alert_notifier.strftime_now := fun _ => "2025-01-01 00:00:00";
     alert_notifier.smtp_connect := fun _ _ w => (Return tt, w);
     alert_notifier.smtp_starttls := fun w => (Return tt, w);
     alert_notifier.smtp_login := fun _ _ w => (Return tt, w);
     alert_notifier.smtp_send_message := fun _ w => (Return tt, w);
     alert_notifier.smtp_exit := fun w => (Return tt, w);
     alert_notifier.requests_post := fun url body w =>
       match body with
       | alert_notifier.SlackPayload _ _ _ _ => (Return 500, w)
       | alert_notifier.LineForm _ _ =>
           (Raise (Exception ConnectionError "connection refused" None), w)
       | alert_notifier.DiscordPayload _ _ _ _ => (Return 204, w)
       end |}.

(** A notifier with every channel configured. *)
Definition full_notifier : alert_notifier.AlertNotifier :=
  {| alert_notifier.smtp :=
       {| alert_notifier.smtp_server := Some "smtp.example.com";
          alert_notifier.smtp_port := 587;
          alert_notifier.smtp_username := Some "alerts";
          alert_notifier.smtp_password := Some "secret";
          alert_notifier.smtp_from_address := Some "alerts@example.com" |};
     alert_notifier.slack_webhook := Some "https://hooks.slack.example/T1";
     alert_notifier.line_token := Some "token";
     alert_notifier.discord_webhook := Some "https://discord.example/api/webhooks/1" |}.

(** A notifier with only Slack configured; the LINE token is set but empty. *)
Definition slack_only_notifier : alert_notifier.AlertNotifier :=
  {| alert_notifier.smtp :=
       {| alert_notifier.smtp_server := None;
          alert_notifier.smtp_port := 587;
          alert_notifier.smtp_username := None;
          alert_notifier.smtp_password := None;
          alert_notifier.smtp_from_address := None |};
     alert_notifier.slack_webhook := Some "https://hooks.slack.example/T1";
     alert_notifier.line_token := Some "";
     alert_notifier.discord_webhook := None |}.

Definition quiet_state : state unit := State tt [] ∅ [].

End notifier_spec.

(** ** The payment wrapper, as the specification words it *)

Module payment_spec.
Import Py Eff payment_processor.

(** A result dict that reports success under the id key [id_key]. *)
Definition success_dict (d : gmap string pyval) (id_key id : string) : Prop :=
  d !! "success" = Some (PBool true) /\ d !! id_key = Some (PStr id).

(** A result dict that reports the exception [e]. *)
Definition error_dict (d : gmap string pyval) (e : exception) : Prop :=
  d !! "success" = Some (PBool false)
  /\ d !! "error" = Some (PStr (exc_str e))
  /\ d !! "error_code" = Some (opt_str (exc_code e)).

(** The sentence of the specification for one wrapped call: whatever the
    call does, the wrapper returns a dict, an error dict when the call
    raised. *)
Definition broad_handler {W A : Type} (wrapper : M W (gmap string pyval))
    (call : W -> result A * W) : Prop :=
  forall st : state W,
    exists (d : gmap string pyval) (st' : state W),
      wrapper st = (Return d, st')
      /\ forall (e : exception) (w : W), call (outside st) = (Raise e, w) -> error_dict d e.

(** A payment service whose charge call fails outside the SDK's own error
    class, and whose refund call always succeeds. *)
Definition failing_charge : Stripe unit :=
  {| Charge_create := fun _ w =>
       (Raise (Exception TypeError "unexpected argument" None), w);
     Refund_create := fun transaction_id amount w =>
       (Return {| refund_id := "re_1"; refund_amount := default 0 amount;
                  refund_status := "succeeded"; refund_created := PInt 0 |}, w) |}.

(** A payment service that declines every card. *)
Definition declining_charge : Stripe unit :=
  {| Charge_create := fun _ w =>
       (Raise (Exception CardError "Your card was declined." (Some "card_declined")), w);
     Refund_create := fun _ _ w =>
       (Raise (Exception InvalidRequestError "No such charge" (Some "resource_missing")), w) |}.

Definition initial_state : state unit := State tt [] ∅ [].

(** A platform in the time zone UTC: the seconds of the years 1 to 9999 are
    converted, counted from the first of them in microseconds; a number
    outside is refused, and so is a value that is no number. *)
Definition utc : Localtime :=
  {| fromtimestamp := fun created =>
       match created with
       | PInt t =>
           if (-62135596800 <=? t) && (t <=? 253402300799)
           then Return ((t + 62135596800) * 1000000)
           else Raise (Exception ValueError "year is out of range" None)
       | _ => Raise (Exception TypeError "an integer is required" None)
       end |}.

(** A payment service that answers every charge with a charge created at
    the given time, and every refund likewise. *)
Definition answering (created : pyval) : Stripe unit :=
  {| Charge_create := fun params w =>
       (Return {| charge_id := "ch_1"; charge_amount := param_amount params;
                  charge_receipt_url := None; charge_status := "succeeded";
                  charge_created := created |}, w);
     Refund_create := fun transaction_id amount w =>
       (Return {| refund_id := "re_1"; refund_amount := default 0 amount;
                  refund_status := "succeeded"; refund_created := created |}, w) |}.

End payment_spec.

(** ** The monitor's resource alerts, as the specification words them *)

Module monitor_spec.
Import Py Eff system_monitor.

(** The resource alerts that the readings call for: one per metric that
    has a configured threshold and lies strictly above it, in the order of
    the readings. *)
Definition exceeding (threshold : gmap string float) (readings : list (string * float))
  : list (string * pyval * float) :=
  omap (fun '(metric, value) =>
          match threshold !! metric with
          | Some t => if float_gtb value t then Some (metric, PFloat value, t) else None
          | None => None
          end) readings.

Section WithWorld.
Context {W : Type}.

(** The resource alerts raised so far. *)
Definition raised (st : state W) : list (string * pyval * float) :=
  resource_alerts (alerts_raised st).

(** [m] adds resource alerts [l] to the trace, with [N a l] when it returns
    [a] and [X l] when it raises. *)
Definition adds_alerts {A : Type} (m : M W A)
    (N : A -> list (string * pyval * float) -> Prop)
    (X : list (string * pyval * float) -> Prop) : Prop :=
  forall st : state W,
    match m st with
    | (Return a, st') => exists l, raised st' = (raised st ++ l)%list /\ N a l
    | (Raise _, st') => exists l, raised st' = (raised st ++ l)%list /\ X l
    end.

(** [m] raises no resource alert, and [P] holds of what it returns. *)
Definition quiet {A : Type} (m : M W A) (P : A -> Prop) : Prop :=
  adds_alerts m (fun a l => l = [] /\ P a) (fun l => l = []).

End WithWorld.

(** A machine whose processor is at 95 percent, memory and disk at 50. *)
Definition busy_machine : Psutil unit :=
  {| cpu_percent := fun w => (Return (Q2Qc 95.0), w);
     virtual_memory_percent := fun w => (Return (Q2Qc 50.0), w);
     disk_usage_percent := fun w => (Return (Q2Qc 50.0), w);
     net_io_counters := fun w =>
       (Return {| bytes_sent := 0; bytes_recv := 0; packets_sent := 0;
                  packets_recv := 0; errin := 0; errout := 0 |}, w);
     now_isoformat := fun _ => "2025-01-01T00:00:00" |}.

Definition idle_state : state unit := State tt [] ∅ [].

End monitor_spec.

(** ** The schedule loop, unrolled *)

Module schedule_spec.
Import Py training_simulator.

Definition duration (t : TrainingType) : Z :=
  program_duration_days (training_programs t).

(** A datetime that Python can hold. *)
Definition in_range (d : datetime) : Prop := 0 <= wall d <= max_wall.

(** The modules the loop appends when it starts at the wall clock
    [current_date] in the time zone [tz]. *)
Fixpoint modules_from (tz : option Z) (current_date : Z) (types : list TrainingType)
  : list training_module :=
  match types with
  | [] => []
  | t :: rest =>
      {| module_type := TrainingType_value t;
         module_start_date := Datetime current_date tz;
         module_end_date := Datetime (current_date + microseconds (duration t)) tz;
         module_duration_days := duration t;
         module_requirements := program_requirements (training_programs t);
         module_equipment := program_equipment (training_programs t);
         module_description := program_description (training_programs t) |}
      :: modules_from tz (current_date + microseconds (duration t + 1)) rest
  end.

(** Modules in list order do not overlap: a later one starts at least one
    day after an earlier one has ended. *)
Definition non_overlapping (modules : list training_module) : Prop :=
  forall (i j : nat) (m m' : training_module),
    (i < j)%nat -> modules !! i = Some m -> modules !! j = Some m' ->
    wall (module_end_date m) + microseconds 1 <= wall (module_start_date m').

(** Every module is over at least [days] days before [departure]. *)
Definition ends_before (days : Z) (departure : datetime)
    (modules : list training_module) : Prop :=
  forall m : training_module,
    m ∈ modules -> wall (module_end_date m) <= wall departure - microseconds days.

(** The dates the schedule needs lie in the years 1 to 9999: its start, 14
    days and the days of the programs before the departure, and the day
    after the pause that follows the last module. *)
Definition schedulable (departure : datetime) (types : list TrainingType) : Prop :=
  0 <= wall departure - microseconds (sum (map duration types) + 14)
  /\ (types <> [] ->
      wall departure + microseconds (Z.of_nat (length types) - 14) <= max_wall).

(** Noon of 1 June 2025, without a time zone. *)
Definition june_2025 : datetime := Datetime (739402 * 86400000000 + 43200000000) None.

End schedule_spec.

(** ** The price table, as the specification words it *)

Module price_spec.
Import Py.

Definition base_price (destination : string) : Z :=
  let key := lower destination in
  if decide (key = "moon") then 1000000
  else if decide (key = "mars") then 5000000
  else if decide (key = "space_station") then 800000
  else 1000000.

Definition package_multiplier (package_type : string) : float :=
  let key := lower package_type in
  if decide (key = "economy") then Q2Qc 1.0
  else if decide (key = "business") then Q2Qc 1.5
  else if decide (key = "first") then Q2Qc 2.0
  else Q2Qc 1.0.





End price_spec.

(** ** The health check, as the specification words it *)

Module health_spec.
Import Py safety_agent.

(** The blood-pressure reading called [name], when the history has one. *)
Definition reading (medical_history : gmap string pyval) (name : string) : option pyval :=
  match medical_history !! "blood_pressure" with
  | Some (PDict bp) => bp !! name
  | _ => None
  end.

(** The reading is a number above the threshold [n]. *)
Definition exceeds (v : option pyval) (n : Z) : Prop :=
  exists q : float, v ≫= as_number = Some q /\ (float_of_int n < q)%Qc.

Definition field_absent (medical_history : gmap string pyval) : Prop :=
  exists check : string, check ∈ required_checks /\ medical_history !! check = None.

Definition threshold_exceeded (medical_history : gmap string pyval) : Prop :=
  exceeds (reading medical_history "systolic") 140
  \/ exceeds (reading medical_history "diastolic") 90.

(** The sentence of the specification, for one history. *)
Definition health_claim_as_stated (medical_history : gmap string pyval) : Prop :=
  (field_absent medical_history \/ threshold_exceeded medical_history ->
   check_health_requirements medical_history = Return false)
  /\ (~ field_absent medical_history -> ~ threshold_exceeded medical_history ->
      check_health_requirements medical_history = Return true).

(** A history with every required field whose blood pressure holds a
    diastolic reading only. *)
Definition history_without_systolic : gmap string pyval :=
  list_to_map
    [("blood_pressure", PDict (list_to_map [("diastolic", PInt 95)]));
     ("heart_condition", PStr "normal");
     ("bone_density", PFloat (Q2Qc 1.2));
     ("inner_ear", PStr "normal");
     ("vision", PStr "20/20")].

(** A history with every required field whose blood pressure is written
    the usual way, as one string. *)
Definition history_with_text_pressure : gmap string pyval :=
  list_to_map
    [("blood_pressure", PStr "120/80");
     ("heart_condition", PStr "normal");
     ("bone_density", PFloat (Q2Qc 1.2));
     ("inner_ear", PStr "normal");
     ("vision", PStr "20/20")].

(** The history of the test suite, with the field the code asks for. *)
Definition healthy_history : gmap string pyval :=
  list_to_map
    [("blood_pressure",
      PDict (list_to_map [("systolic", PInt 120); ("diastolic", PInt 80)]));
     ("heart_condition", PStr "normal");
     ("bone_density", PFloat (Q2Qc 1.2));
     ("inner_ear", PStr "normal");
     ("vision", PStr "20/20")].

End health_spec.

(** ** tools/space_map.py *)

Module space_map.
Import Py training_simulator.

Definition microseconds_per_day : Z := 86400000000.

(** [datetime(2022, 9, 1)]: day 738399 of the proleptic calendar, without a
    time zone. *)
Definition mars_epoch : datetime :=
  Datetime ((738399 - 1) * microseconds_per_day) None.

(** [a - b] on two datetimes, in microseconds: the difference of the wall
    clocks of two datetimes without a time zone, the difference of the UTC
    times of two with one, and [TypeError] for one of each. *)
Definition datetime_sub (a b : datetime) : result Z :=
  match tzinfo a, tzinfo b with
  | None, None => Return (wall a - wall b)
  | Some offset_a, Some offset_b => Return ((wall a - offset_a) - (wall b - offset_b))
  | _, _ =>
      Raise (Exception TypeError
               "can't subtract offset-naive and offset-aware datetimes" None)
  end.

(** [delta.days]: a [timedelta] keeps its seconds and microseconds
    non-negative, so its days are the floor. *)
Definition days (delta : Z) : Z := delta / microseconds_per_day.

(** [timedelta(hours=n)] for an integer [n], in microseconds. *)
Definition timedelta_hours (hours : Z) : Z := hours * 3600000000.

Definition get_next_launch_window (destination : string) (start_date : datetime)
  : result datetime :=
  if decide (destination = "mars") then
    (since_epoch <- datetime_sub start_date mars_epoch ;;
     let days_until_window := 780 - days since_epoch mod 780 in
     delta <- timedelta days_until_window ;;
     datetime_add start_date delta)%result
  else if decide (destination = "moon") then Return start_date
  else datetime_add start_date (timedelta_hours 12).

(** The days from a date without a time zone to the next window for Mars. *)
Definition days_until_window (start_date : datetime) : Z :=
  780 - days (wall start_date - wall mars_epoch) mod 780.

Definition _get_route_type (destination : string) : string :=
  if decide (destination = "mars") then "惑星間巡航"
  else if decide (destination = "moon") then "月面アプローチ"
  else "軌道上ランデブー".

Definition _generate_waypoints (destination : string) : list string :=
  if decide (destination = "mars")
  then ["地球軌道離脱"; "月軌道通過"; "深宇宙航行"; "火星軌道進入"]
  else if decide (destination = "moon") then ["地球軌道離脱"; "月軌道進入"]
  else ["地球低軌道"].

End space_map.

(** ** app.py: the quote of the booking form *)

Module app.
Import Py.

(** [s.replace(old, new)]: the occurrences of [old] are replaced from the
    left, without overlap; [skip] counts the characters of an occurrence
    still to be passed over.  An empty [old] matches before every character
    and at the end. *)
Fixpoint replace_from (old new s : string) (skip : nat) : string :=
  match s with
  | EmptyString => EmptyString
  | String c s' =>
      match skip with
      | S skip' => replace_from old new s' skip'
      | O =>
          if String.prefix old s
          then new ++ replace_from old new s' (String.length old - 1)
          else String c (replace_from old new s' 0)
      end
  end.

Fixpoint intersperse (new s : string) : string :=
  match s with
  | EmptyString => new
  | String c s' => new ++ String c (intersperse new s')
  end.

Definition replace (s old new : string) : string :=
  match old with
  | EmptyString => intersperse new s
  | _ => replace_from old new s 0
  end.

(** The options of the two select boxes of the booking form. *)
Definition package_options : list string :=
  ["月周遊コース"; "火星探検コース"; "宇宙ステーション滞在"].

Definition class_options : list string :=
  ["エコノミー"; "ビジネス"; "ファースト"].

(** The dict of the days per package. *)
Definition package_days : gmap string Z :=
  list_to_map [("月周遊コース", 3); ("火星探検コース", 30); ("宇宙ステーション滞在", 5)].

(** What the form computes when it is submitted: the days of the package,
    then the price of the package name without its suffix. *)
Definition quote (selected_package package_type : string) (passengers : Z)
  : result float :=
  (days <- dict_getitem package_days selected_package ;;
   Return (booking_agent.calculate_price
             (replace (replace selected_package "コース" "") "滞在" "")
             days package_type passengers))%result.

(** The same on binary64 floats. *)
Definition quote_binary64 (selected_package package_type : string) (passengers : Z)
  : result spec_float :=
  (days <- dict_getitem package_days selected_package ;;
   binary64.calculate_price
     (replace (replace selected_package "コース" "") "滞在" "")
     days package_type passengers)%result.

End app.

(** ** tools/training_simulator.py: a training session *)

Module training_session.
Import Py binary64 training_simulator.

Inductive TrainingLevel := BASIC | INTERMEDIATE | ADVANCED.

Definition TrainingLevel_value (level : TrainingLevel) : string :=
  match level with
  | BASIC => "basic"
  | INTERMEDIATE => "intermediate"
  | ADVANCED => "advanced"
  end.

(** [self.passing_score]. *)
Definition passing_score : Z := 80.

(** [random.randint(a, b)]: an integer of [a..b], both ends included; the
    generator's output is the argument [draw]. *)
Definition randint (draw : nat) (a b : Z) : Z := a + Z.of_nat draw mod (b - a + 1).

(** A decimal literal with one digit after the point, [d / 10]: the float
    nearest to it. *)
Definition tenths (d : Z) : spec_float :=
  SFdiv prec emax (literal d 0) (literal 10 0).

(** The dict of the difficulty multipliers: 1.0, 0.9 and 0.8. *)
Definition difficulty_multiplier (level : TrainingLevel) : spec_float :=
  match level with
  | BASIC => tenths 10
  | INTERMEDIATE => tenths 9
  | ADVANCED => tenths 8
  end.

(** [score >= n] for a float and a small [int]: the two are compared as
    numbers, and [n] is a float itself. *)
Definition ge_int (score : spec_float) (n : Z) : bool := SFleb (literal n 0) score.

Definition excellent_feedback : string :=
  "にゃー！素晴らしい成績です。実践的な技能が十分に身についています。".
Definition passing_feedback : string :=
  "にゃ。合格基準を満たしています。さらなる練習で完璧を目指しましょう。".
Definition failing_feedback : string :=
  "にゃん...もう少し練習が必要です。基本に立ち返って復習しましょう。".

Definition _generate_feedback (training_type : TrainingType) (score : spec_float)
  : string :=
  if ge_int score 90 then excellent_feedback
  else if ge_int score 80 then passing_feedback
  else failing_feedback.

Definition excellent_steps : list string :=
  ["上級訓練プログラムへの参加"; "他の訓練生のメンター担当"].
Definition passing_steps : list string :=
  ["追加の実践訓練"; "弱点分野の強化"].
Definition failing_steps : list string :=
  ["基本訓練の復習"; "個別指導の予約"; "補足訓練の実施"].

Definition _recommend_next_steps (training_type : TrainingType) (score : spec_float)
  : list string :=
  if ge_int score 90 then excellent_steps
  else if ge_int score 80 then passing_steps
  else failing_steps.

Record session_result := {
  session_trainee_name : string;
  session_training_type : string;
  session_level : string;
  session_date : datetime;
  session_score : spec_float;
  session_passed : bool;
  session_feedback : string;
  session_next_steps : list string
}.

(** [run_training_session]; [now] is the reading of the clock and [draw]
    the output of the generator. *)
Definition run_training_session (now : datetime) (draw : nat)
    (training_type : TrainingType) (trainee_name : string) (level : TrainingLevel)
  : result session_result :=
  let base_score := randint draw 60 100 in
  let difficulty_multiplier := difficulty_multiplier level in
  (base_score' <- of_int base_score ;;
   let final_score := mul base_score' difficulty_multiplier in
   Return {| session_trainee_name := trainee_name;
             session_training_type := TrainingType_value training_type;
             session_level := TrainingLevel_value level;
             session_date := now;
             session_score := final_score;
             session_passed := ge_int final_score passing_score;
             session_feedback := _generate_feedback training_type final_score;
             session_next_steps := _recommend_next_steps training_type final_score |})%result.

End training_session.

(** ** The outcome of a training session *)

Module session_spec.
Import training_session.

(** The least base score with which a session of the level is passed, and
    the least with which it earns the best feedback (none for the advanced
    level: 101 is out of the range of the base score). *)
Definition pass_mark (level : TrainingLevel) : Z :=
  match level with
  | BASIC => 80
  | INTERMEDIATE => 89
  | ADVANCED => 100
  end.

Definition excellence_mark (level : TrainingLevel) : Z :=
  match level with
  | BASIC => 90
  | INTERMEDIATE => 100
  | ADVANCED => 101
  end.

(** Feedback and next steps for a base score, by the marks. *)
Definition feedback_by_marks (level : TrainingLevel) (base_score : Z) : string :=
  if decide (excellence_mark level <= base_score) then excellent_feedback
  else if decide (pass_mark level <= base_score) then passing_feedback
  else failing_feedback.

Definition steps_by_marks (level : TrainingLevel) (base_score : Z) : list string :=
  if decide (excellence_mark level <= base_score) then excellent_steps
  else if decide (pass_mark level <= base_score) then passing_steps
  else failing_steps.

End session_spec.

(** ** monitoring/metrics.py: the counters and the session gauge *)

Module metrics_registry.
Import Py.

(** The module-level metrics that the methods of [MetricsManager] move: two
    counters with a child per label value, and the gauge, which moves by
    whole steps, so that its value is an integer. *)
Record registry := Registry {
  BOOKINGS_TOTAL : gmap string nat;
  ACTIVE_USERS : Z;
  ERRORS_TOTAL : gmap string nat
}.

(** [MetricsManager]: the start time of every session that is open. *)
Record MetricsManager := {
  _active_sessions : gmap string float
}.

(** [MetricsManager.__init__]. *)
Definition init : MetricsManager := {| _active_sessions := ∅ |}.

Definition state : Type := MetricsManager * registry.

(** [counter.labels(label).inc()]. *)
Definition inc (label : string) (counter : gmap string nat) : gmap string nat :=
  <[label := S (dict_get counter label 0%nat)]> counter.

Definition record_booking (package_type : string) (st : state) : state :=
  let '(self, reg) := st in
  (self,
   Registry (inc package_type (BOOKINGS_TOTAL reg)) (ACTIVE_USERS reg)
            (ERRORS_TOTAL reg)).

(** [time_time] is the reading of the clock. *)
Definition start_user_session (user_id : string) (time_time : float) (st : state)
  : state :=
  let '(self, reg) := st in
  ({| _active_sessions := <[user_id := time_time]> (_active_sessions self) |},
   Registry (BOOKINGS_TOTAL reg) (ACTIVE_USERS reg + 1)
            (ERRORS_TOTAL reg)).

Definition end_user_session (user_id : string) (st : state) : state :=
  let '(self, reg) := st in
  if bool_decide (is_Some (_active_sessions self !! user_id)) then
    ({| _active_sessions := delete user_id (_active_sessions self) |},
     Registry (BOOKINGS_TOTAL reg) (ACTIVE_USERS reg - 1)
              (ERRORS_TOTAL reg))
  else st.

Definition record_error (error_type : string) (st : state) : state :=
  let '(self, reg) := st in
  (self,
   Registry (BOOKINGS_TOTAL reg) (ACTIVE_USERS reg)
            (inc error_type (ERRORS_TOTAL reg))).

End metrics_registry.

(** ** Sequences of calls on the metrics manager *)

Module sessions_spec.
Import Py metrics_registry.

Inductive call :=
  | RecordBooking (package_type : string)
  | StartUserSession (user_id : string) (time_time : float)
  | EndUserSession (user_id : string)
  | RecordError (error_type : string).

Definition step (st : state) (c : call) : state :=
  match c with
  | RecordBooking package_type => record_booking package_type st
  | StartUserSession user_id time_time => start_user_session user_id time_time st
  | EndUserSession user_id => end_user_session user_id st
  | RecordError error_type => record_error error_type st
  end.

Definition run (calls : list call) (st : state) : state := fold_left step calls st.

(** How often a session is started for a user whose session is open. *)
Fixpoint restarts (calls : list call) (st : state) : nat :=
  match calls with
  | [] => 0
  | c :: rest =>
      (match c with
       | StartUserSession user_id _ =>
           if bool_decide (is_Some (_active_sessions (fst st) !! user_id)) then 1 else 0
       | _ => 0
       end + restarts rest (step st c))%nat
  end.

(** The sessions that are open, and how far the gauge is above their
    number. *)
Definition open_sessions (st : state) : Z := Z.of_nat (size (_active_sessions (fst st))).
Definition drift (st : state) : Z := ACTIVE_USERS (snd st) - open_sessions st.

(** The state after the module is loaded. *)
Definition fresh : state := (init, Registry ∅ 0 ∅).

End sessions_spec.

(** ** What an alert and a turn of the monitor leave behind *)

Module alert_spec.
Import Py Eff system_monitor.

Section WithWorld.
Context {W : Type}.

Definition callback : Type := string -> alert_details -> W -> result unit * W.

(** The exceptions the callbacks raise when they are run one after the
    other, each on the world the one before has left. *)
Fixpoint callback_failures (callbacks : list callback) (alert_type : string)
    (details : alert_details) (w : W) : list exception :=
  match callbacks with
  | [] => []
  | cb :: rest =>
      match cb alert_type details w with
      | (Return _, w') => callback_failures rest alert_type details w'
      | (Raise e, w') => e :: callback_failures rest alert_type details w'
      end
  end.

(** The world after every callback has run. *)
Definition after_callbacks (callbacks : list callback) (alert_type : string)
    (details : alert_details) (w : W) : W :=
  fold_left (fun w cb => snd (cb alert_type details w)) callbacks w.

Definition callback_error (e : exception) : log_record :=
  LogRecord ERROR ("アラートコールバックの実行に失敗: " ++ exc_str e).




End WithWorld.

End alert_spec.

(** ** monitoring/logging_config.py: the log context *)

Module logging_config.
Import Py.

(** The attribute [extra_data] of a logger: [None] when the logger has no
    such attribute, the dict it holds otherwise. *)
Definition extra_data : Type := option (gmap string pyval).

Record LogContext := {
  extra : gmap string pyval;
  _old_extra : gmap string pyval
}.

(** [LogContext.__init__(logger, **kwargs)]. *)
Definition init (kwargs : gmap string pyval) : LogContext :=
  {| extra := kwargs; _old_extra := ∅ |}.

(** [d.update(other)]: the entries of [other] win. *)
Definition update (d other : gmap string pyval) : gmap string pyval := other ∪ d.

(** [__enter__]: the context and the attribute of the logger afterwards. *)
Definition __enter__ (self : LogContext) (logger : extra_data)
  : LogContext * extra_data :=
  let self :=
    match logger with
    | Some d => {| extra := extra self; _old_extra := d |}
    | None => self
    end in
  let d :=
    match logger with
    | Some d => d
    | None => ∅
    end in
  (self, Some (update d (extra self))).

(** [__exit__]: the attribute of the logger afterwards; [delattr] raises
    when the attribute is not there. *)
Definition __exit__ (self : LogContext) (logger : extra_data) : result extra_data :=
  if decide (_old_extra self <> ∅) then Return (Some (_old_extra self))
  else
    match logger with
    | Some _ => Return None
    | None =>
        Raise (Exception AttributeError
                 "'Logger' object has no attribute 'extra_data'" None)
    end.

(** [with LogContext(logger, **outer): with LogContext(logger, **inner): pass]:
    the attribute of the logger after both blocks are left. *)
Definition nested (outer inner : gmap string pyval) (logger : extra_data)
  : result extra_data :=
  let '(outer_context, logger) := __enter__ (init outer) logger in
  let '(inner_context, logger) := __enter__ (init inner) logger in
  (logger <- __exit__ inner_context logger ;;
   __exit__ outer_context logger)%result.

(** What a context leaves on a logger that had [logger] before: the old
    entries, or no attribute when there were none. *)
Definition left_behind (logger : extra_data) : extra_data :=
  match logger with
  | Some d => if decide (d = ∅) then None else Some d
  | None => None
  end.

End logging_config.

(** ** agents/customer_service_agent.py *)

Module customer_service_agent.
Import Py.

Record CustomerInquiry := {
  inquiry_id : string;
  customer_name : string;
  inquiry_type : string;
  content : string;
  timestamp : Z;
  priority : string;
  status : string
}.

Definition response_templates : gmap string string :=
  list_to_map
    [("general", "にゃーご質問ありがとうございます。ご要望についてしっかりとサポートさせていただきます。");
     ("booking", "にゃーご予約に関するお問い合わせありがとうございます。最適なプランをご提案させていただきます。");
     ("complaint", "にゃーご不便をおかけし、大変申し訳ございません。早急に対応させていただきます。");
     ("emergency", "にゃー緊急のご連絡ありがとうございます。直ちに対応チームに連絡いたします。");
     ("feedback", "にゃーご意見ありがとうございます。より良いサービス提供に活かさせていただきます。")].

Definition sla_hours : gmap string Z :=
  list_to_map [("high", 1); ("medium", 4); ("low", 24)].

Definition handle_inquiry (inquiry : CustomerInquiry) : string :=
  let base_response :=
    dict_get response_templates (inquiry_type inquiry)
      "にゃーお問い合わせありがとうございます。" in
  let response_time := dict_get sla_hours (priority inquiry) 24 in
  base_response ++ alert_notifier.newline ++ alert_notifier.newline
    ++ pretty response_time ++ "時間以内に詳細な回答を差し上げます。".

End customer_service_agent.

(** ** tools/payment_processor.py: the receipt *)

Module receipt.
Import Py.

(** The double quote. *)
Definition dq : string := String (ascii_of_nat 34) EmptyString.

(** A string of digits with a comma before every group of three that
    follows. *)
Fixpoint group (digits : string) : string :=
  match digits with
  | EmptyString => EmptyString
  | String c rest =>
      String c
        (if (0 <? String.length rest)%nat && (String.length rest mod 3 =? 0)%nat
         then "," ++ group rest
         else group rest)
  end.

(** [format(n, ',')] for an [int]. *)
Definition format_int (n : Z) : string :=
  if n <? 0 then "-" ++ group (pretty (- n)) else group (pretty n).

Section WithInterpreter.
(** The text of the values whose printing is left to the interpreter:
    [str(v)] of floats, dates and containers, and [format(x, ',')] of a
    float. *)
Variable str_other : pyval -> string.
Variable format_float : float -> string.

(** [format(v, '')], what a replacement field without a format
    specification puts into an f-string. *)
Definition py_str (v : pyval) : string :=
  match v with
  | PStr s => s
  | PInt n => pretty n
  | PBool true => "True"
  | PBool false => "False"
  | PNone => "None"
  | _ => str_other v
  end.

(** [format(v, ',')]: numbers are grouped by thousands, a date takes the
    specification for a [strftime] format, and the other types refuse it. *)
Definition format_comma (v : pyval) : result string :=
  match v with
  | PInt n => Return (format_int n)
  | PBool b => Return (format_int (Z.b2z b))
  | PFloat x => Return (format_float x)
  | PDatetime _ => Return ","
  | PStr _ => Raise (Exception ValueError "Cannot specify ',' with 's'." None)
  | PNone =>
      Raise (Exception TypeError
               "unsupported format string passed to NoneType.__format__" None)
  | PList _ =>
      Raise (Exception TypeError
               "unsupported format string passed to list.__format__" None)
  | PDict _ =>
      Raise (Exception TypeError
               "unsupported format string passed to dict.__format__" None)
  end.

(** The f-string of [generate_receipt], with its four replacement fields
    filled in. *)
Definition receipt_template (today transaction_id name amount : string) : string :=
  ("
        <div style=" ++ dq ++ "font-family: Arial, sans-serif; max-width: 800px; margin: 0 auto; padding: 20px;" ++ dq ++ ">
            <h1 style=" ++ dq ++ "text-align: center;" ++ dq ++ ">領収書</h1>
            <div style=" ++ dq ++ "text-align: right;" ++ dq ++ ">
                <p>発行日: ")
  ++ today
  ++ ("</p>
                <p>領収書番号: ")
  ++ transaction_id
  ++ ("</p>
            </div>
            <div style=" ++ dq ++ "margin: 40px 0;" ++ dq ++ ">
                <h2>")
  ++ name
  ++ (" 様</h2>
                <p>下記の金額を領収いたしました。</p>
                <h3 style=" ++ dq ++ "text-align: center;" ++ dq ++ ">￥")
  ++ amount
  ++ ("</h3>
                <p>但し、宇宙旅行代金として</p>
            </div>
            <div style=" ++ dq ++ "margin: 40px 0;" ++ dq ++ ">
                <div style=" ++ dq ++ "text-align: center;" ++ dq ++ ">
                    <img src=" ++ dq ++ "logo.png" ++ dq ++ " alt=" ++ dq ++ "ねこねこスペーストラベル" ++ dq ++ " style=" ++ dq ++ "max-width: 200px;" ++ dq ++ ">
                    <p>ねこねこスペーストラベル株式会社</p>
                    <p>〒123-4567 東京都月面区星空町1-2-3</p>
                    <p>TEL: 03-1234-5678</p>
                </div>
            </div>
        </div>
        ").

(** [generate_receipt]; [today] is
    [datetime.now().strftime('%Y年%m月%d日')].  The fields are evaluated
    from left to right. *)
Definition generate_receipt (today : string)
    (transaction_data customer_info : gmap string pyval) : result string :=
  (transaction_id <- dict_getitem transaction_data "transaction_id" ;;
   name <- dict_getitem customer_info "name" ;;
   amount <- dict_getitem transaction_data "amount" ;;
   amount <- format_comma amount ;;
   Return (receipt_template today (py_str transaction_id) (py_str name) amount))%result.

End WithInterpreter.

End receipt.

(** ** tools/space_map.py: the route *)

Module space_route.
Import Py binary64 training_simulator space_map.

(** A number of the tables: an [int] or a [float]. *)
Inductive number := Int (n : Z) | Float (x : spec_float).

(** A decimal literal [n / 10^k]: the float nearest to it. *)
Definition decimal (n : Z) (k : Z) : spec_float :=
  SFdiv prec emax (literal n 0) (literal (10 ^ k) 0).

Record celestial_body := {
  distance : Z;
  orbit_period : number
}.

Record spacecraft := {
  max_speed : Z;
  fuel_efficiency : spec_float;
  passenger_capacity : Z
}.

Record SpaceMapTool := {
  celestial_bodies : gmap string celestial_body;
  spacecraft_specs : spacecraft
}.

(** [SpaceMapTool.__init__]. *)
Definition init : SpaceMapTool :=
  {| celestial_bodies :=
       list_to_map
         [("moon", {| distance := 384400; orbit_period := Float (decimal 2732 2) |});
          ("mars", {| distance := 225000000; orbit_period := Int 687 |});
          ("iss", {| distance := 408; orbit_period := Float (decimal 625 4) |})];
     spacecraft_specs :=
       {| max_speed := 28000;
          fuel_efficiency := decimal 85 2;
          passenger_capacity := 4 |} |}.

Definition _optimize_route (base_hours : spec_float) (destination : string)
  : spec_float :=
  if decide (destination = "mars") then mul base_hours (decimal 8 1)
  else if decide (destination = "moon") then mul base_hours (decimal 11 1)
  else base_hours.

Record fuel := {
  main_fuel : spec_float;
  reserve : spec_float;
  total : spec_float
}.

(** [_calculate_fuel], called with the [int] distance of a table entry. *)
Definition _calculate_fuel (self : SpaceMapTool) (distance : Z) : result fuel :=
  (distance' <- of_int distance ;;
   let base_fuel :=
     mul (mul distance' (decimal 1 1))
         (SFdiv prec emax (literal 1 0) (fuel_efficiency (spacecraft_specs self))) in
   let reserve := mul base_fuel (decimal 2 1) in
   Return {| main_fuel := base_fuel;
             reserve := reserve;
             total := SFadd prec emax base_fuel reserve |})%result.

Record route := {
  route_destination : string;
  departure_time : datetime;
  arrival_time : datetime;
  flight_duration_hours : spec_float;
  distance_km : Z;
  route_type : string;
  waypoints : list string;
  fuel_requirements : fuel
}.

(** The integer part of a float, towards zero, and the rest: [modf]. *)
Definition trunc (x : spec_float) : Z :=
  match x with
  | S754_finite s m e =>
      let n := if 0 <=? e then Zpos m * 2 ^ e else Zpos m / 2 ^ (- e) in
      if s then - n else n
  | _ => 0
  end.

Definition fracpart (x : spec_float) : spec_float :=
  SFsub prec emax x (literal (trunc x) 0).

(** The whole microsecond nearest to a rest below one, a half going to the
    side that makes the sum [x] even. *)
Definition round_leftover (x : Z) (leftover : spec_float) : Z :=
  let towards := if SFltb leftover (S754_zero false) then -1 else 1 in
  let size := SFabs leftover in
  if SFltb size (literal 1 (-1)) then 0
  else if SFeqb size (literal 1 (-1)) then (if Z.odd x then towards else 0)
  else towards.

(** [timedelta(hours=x)] for a float, in microseconds, as the datetime
    library computes it: the whole hours exactly, the rest of an hour as a
    float product with the microseconds of an hour, of which the whole part
    is added and the rest rounded.  Infinity and NaN are refused, and so is
    a result beyond 999 999 999 days. *)
Definition timedelta_of_hours (hours : spec_float) : result Z :=
  match hours with
  | S754_nan =>
      Raise (Exception ValueError "cannot convert float NaN to integer" None)
  | S754_infinity _ =>
      Raise (Exception OverflowError "cannot convert float infinity to integer" None)
  | _ =>
      let x := trunc hours * 3600000000 in
      let rest := fracpart hours in
      let us :=
        if SFeqb rest (S754_zero false) then x
        else
          let dnum := mul (literal 3600000000 0) rest in
          let x := x + trunc dnum in
          x + round_leftover x (fracpart dnum) in
      if (-999999999 <=? us / 86400000000) && (us / 86400000000 <=? 999999999)
      then Return us
      else Raise (Exception OverflowError
                    "Python int too large to convert to C int" None)
  end.

(** [a / b] on two [int]s below 2^53: the float nearest to the quotient,
    [ZeroDivisionError] for a zero divisor. *)
Definition truediv (a b : Z) : result spec_float :=
  if decide (b = 0) then Raise (Exception ZeroDivisionError "division by zero" None)
  else Return (SFdiv prec emax (literal a 0) (literal b 0)).

Definition calculate_route (self : SpaceMapTool) (destination : string)
    (departure_date : datetime) : result route :=
  match celestial_bodies self !! destination with
  | None => Raise (Exception ValueError ("未知の目的地です: " ++ destination) None)
  | Some dest_data =>
      (let distance := distance dest_data in
       let speed := max_speed (spacecraft_specs self) in
       base_flight_hours <- truediv distance speed ;;
       let optimized_hours := _optimize_route base_flight_hours destination in
       flight <- timedelta_of_hours optimized_hours ;;
       arrival_time <- datetime_add departure_date flight ;;
       fuel_requirements <- _calculate_fuel self distance ;;
       Return {| route_destination := destination;
                 departure_time := departure_date;
                 arrival_time := arrival_time;
                 flight_duration_hours := optimized_hours;
                 distance_km := distance;
                 route_type := _get_route_type destination;
                 waypoints := _generate_waypoints destination;
                 fuel_requirements := fuel_requirements |})%result
  end.

(** The destinations of the table. *)
Definition destinations : list string := ["moon"; "mars"; "iss"].

(** The flight times to the three destinations, in microseconds: 15 h 6 min
    5.142857 s to the Moon, 267 days 20 h 34 min 17.142857 s to Mars and
    52.457143 s to the station. *)
Definition flight_microseconds (destination : string) : Z :=
  if decide (destination = "moon") then 54365142857
  else if decide (destination = "mars") then 23142857142857
  else 52457143.

(** [0 < x < y < z] on floats. *)
Definition increasing (x y z : spec_float) : bool :=
  SFltb (S754_zero false) x && SFltb x y && SFltb y z.

End space_route.

(** ** migrations/versions/001_initial.py *)

Module migration_001.

Inductive sa_type :=
  | Integer | String_ | DateTime | Numeric (precision scale : Z) | Float_ | Text.

Record Column := {
  column_name : string;
  column_type : sa_type;
  nullable : bool;
  server_default : option string
}.

(** A foreign key names its own columns and, for each, the table and the
    column it refers to (['users.id'] in the source). *)
Inductive Constraint :=
  | PrimaryKeyConstraint (columns : list string)
  | UniqueConstraint (columns : list string)
  | ForeignKeyConstraint (columns : list string) (refcolumns : list (string * string)).

Record table := {
  columns : list Column;
  constraints : list Constraint
}.

(** The tables of the database, by name. *)
Abbreviation catalog := (gmap string table).

(** What the database answers to a statement it refuses. *)
Inductive ddl_error :=
  | DuplicateTable (name : string)
  | UndefinedTable (name : string)
  | DependentObjectsStillExist (name : string).

Inductive ddl_result (A : Type) :=
  | Done (a : A)
  | Refused (e : ddl_error).
Arguments Done {A} a.
Arguments Refused {A} e.

Definition ddl_bind {A B : Type} (r : ddl_result A) (k : A -> ddl_result B)
  : ddl_result B :=
  match r with
  | Done a => k a
  | Refused e => Refused e
  end.

(** The tables a table refers to. *)
Definition references (t : table) : list string :=
  flat_map (fun c => match c with
                     | ForeignKeyConstraint _ refcolumns => map fst refcolumns
                     | _ => []
                     end) (constraints t).

(** [op.create_table]: the name must be free, and every table referred to
    must exist. *)
Definition create_table (name : string) (cols : list Column) (cons : list Constraint)
    (db : catalog) : ddl_result catalog :=
  let t := {| columns := cols; constraints := cons |} in
  match db !! name with
  | Some _ => Refused (DuplicateTable name)
  | None =>
      match list_find (fun ref => db !! ref = None) (references t) with
      | Some (_, ref) => Refused (UndefinedTable ref)
      | None => Done (<[name := t]> db)
      end
  end.

(** [op.drop_table]: the table must exist, and no other table may refer to
    it. *)
Definition drop_table (name : string) (db : catalog) : ddl_result catalog :=
  match db !! name with
  | None => Refused (UndefinedTable name)
  | Some _ =>
      if bool_decide (map_Exists (fun other t => other <> name /\ name ∈ references t) db)
      then Refused (DependentObjectsStillExist name)
      else Done (delete name db)
  end.

Definition col (name : string) (type : sa_type) (null : bool) : Column :=
  {| column_name := name; column_type := type; nullable := null;
     server_default := None |}.

(** A column with [server_default=sa.text('now()')]. *)
Definition now_col (name : string) : Column :=
  {| column_name := name; column_type := DateTime; nullable := false;
     server_default := Some "now()" |}.

Definition upgrade (db : catalog) : ddl_result catalog :=
  ddl_bind
    (create_table "users"
       [col "id" Integer false; col "email" String_ false;
        col "password_hash" String_ false; col "first_name" String_ false;
        col "last_name" String_ false; now_col "created_at"; now_col "updated_at"]
       [PrimaryKeyConstraint ["id"]; UniqueConstraint ["email"]] db) (fun db =>
  ddl_bind
    (create_table "bookings"
       [col "id" Integer false; col "user_id" Integer false;
        col "package_type" String_ false; col "departure_date" DateTime false;
        col "return_date" DateTime false; col "passengers" Integer false;
        col "total_price" (Numeric 10 2) false; col "status" String_ false;
        now_col "created_at"; now_col "updated_at"]
       [ForeignKeyConstraint ["user_id"] [("users", "id")];
        PrimaryKeyConstraint ["id"]] db) (fun db =>
  ddl_bind
    (create_table "training_records"
       [col "id" Integer false; col "user_id" Integer false;
        col "training_type" String_ false; col "completion_date" DateTime true;
        col "score" Float_ true; col "status" String_ false; col "notes" Text true;
        now_col "created_at"; now_col "updated_at"]
       [ForeignKeyConstraint ["user_id"] [("users", "id")];
        PrimaryKeyConstraint ["id"]] db) (fun db =>
  ddl_bind
    (create_table "health_records"
       [col "id" Integer false; col "user_id" Integer false;
        col "health_check_date" DateTime false; col "blood_pressure_sys" Integer true;
        col "blood_pressure_dia" Integer true; col "heart_rate" Integer true;
        col "weight" Float_ true; col "height" Float_ true; col "notes" Text true;
        now_col "created_at"; now_col "updated_at"]
       [ForeignKeyConstraint ["user_id"] [("users", "id")];
        PrimaryKeyConstraint ["id"]] db) (fun db =>
    create_table "payments"
       [col "id" Integer false; col "booking_id" Integer false;
        col "amount" (Numeric 10 2) false; col "payment_method" String_ false;
        col "status" String_ false; col "transaction_id" String_ true;
        now_col "created_at"; now_col "updated_at"]
       [ForeignKeyConstraint ["booking_id"] [("bookings", "id")];
        PrimaryKeyConstraint ["id"]] db)))).

Definition downgrade (db : catalog) : ddl_result catalog :=
  ddl_bind (drop_table "payments" db) (fun db =>
  ddl_bind (drop_table "health_records" db) (fun db =>
  ddl_bind (drop_table "training_records" db) (fun db =>
  ddl_bind (drop_table "bookings" db) (fun db =>
  drop_table "users" db)))).

(** The tables of the revision. *)
Definition revision_tables : list string :=
  ["users"; "bookings"; "training_records"; "health_records"; "payments"].

(** A database the revision can be applied to: it has none of the tables
    of the revision, and none of its tables refers to one of them. *)
Definition before_revision (db : catalog) : Prop :=
  (forall name : string, name ∈ revision_tables -> db !! name = None)
  /\ (forall (other : string) (t : table) (name : string),
        db !! other = Some t -> name ∈ revision_tables -> name ∉ references t).

End migration_001.

(* ================================================================= *)
(** * Properties *)

(** ** Price calculation *)

Section Price.
Import Py booking_agent price_spec.

Lemma lower_examples :
  lower "MOON" = "moon" /\ lower "Space_Station" = "space_station"
  /\ lower "first" = "first".
Proof. repeat split. Qed.

Lemma base_prices_lookup (destination : string) :
  dict_get base_prices (lower destination) 1000000 = base_price destination.
Proof.
  unfold base_price, dict_get, base_prices. cbn zeta.
  repeat case_decide.
  - rewrite H. reflexivity.
  - rewrite H0. reflexivity.
  - rewrite H1. reflexivity.
  - cbn [list_to_map foldr uncurry fst snd].
    rewrite !lookup_insert_ne by congruence.
    rewrite lookup_empty. reflexivity.
Qed.

Lemma package_multipliers_lookup (package_type : string) :
  dict_get package_multipliers (lower package_type) (Q2Qc 1.0)
  = package_multiplier package_type.
Proof.
  unfold package_multiplier, dict_get, package_multipliers. cbn zeta.
  repeat case_decide.
  - rewrite H. reflexivity.
  - rewrite H0. reflexivity.
  - rewrite H1. reflexivity.
  - cbn [list_to_map foldr uncurry fst snd].
    rewrite !lookup_insert_ne by congruence.
    rewrite lookup_empty. reflexivity.
Qed.







Lemma calculate_price_unfold
    (destination : string) (days : Z) (package_type : string) (passengers : Z) :
  calculate_price destination days package_type passengers
  = (float_of_int (base_price destination) * package_multiplier package_type
     * float_of_int days * float_of_int passengers)%Qc.
Proof.
  unfold calculate_price. cbn zeta.
  by rewrite base_prices_lookup, package_multipliers_lookup.
Qed.





(** The three tiers are strictly ordered on a concrete booking. *)
Example tier_prices_moon :
  calculate_price "moon" 3 "economy" 2 = Qc_of_Z 6000000
  /\ calculate_price "moon" 3 "business" 2 = Qc_of_Z 9000000
  /\ calculate_price "moon" 3 "first" 2 = Qc_of_Z 12000000.
Proof. repeat split; apply Qc_is_canon; reflexivity. Qed.

End Price.

(** ** Binary64 arithmetic agrees with the exact price *)

Section Binary64.
Import Py binary64.

Lemma digits2_pos_bounds (p : positive) :
  2 ^ (Zpos (digits2_pos p) - 1) <= Zpos p < 2 ^ Zpos (digits2_pos p).
Proof.
  induction p as [p IH|p IH|]; cbn [digits2_pos].
  - rewrite Pos2Z.inj_succ.
    replace (Z.succ (Zpos (digits2_pos p)) - 1) with (Z.succ (Zpos (digits2_pos p) - 1)) by lia.
    rewrite !Z.pow_succ_r by lia. lia.
  - rewrite Pos2Z.inj_succ.
    replace (Z.succ (Zpos (digits2_pos p)) - 1) with (Z.succ (Zpos (digits2_pos p) - 1)) by lia.
    rewrite !Z.pow_succ_r by lia. lia.
  - cbn. lia.
Qed.

Lemma digits2_pos_unique (p : positive) (n : Z) :
  2 ^ (n - 1) <= Zpos p < 2 ^ n -> Zpos (digits2_pos p) = n.
Proof.
  intros [Hlo Hhi]. pose proof (digits2_pos_bounds p) as [Hlo' Hhi'].
  assert (0 < n).
  { destruct (Z_lt_le_dec 0 n); [done|].
    assert (2 ^ n <= 2 ^ 0) by (destruct (Z_lt_le_dec n 0);
      [rewrite Z.pow_neg_r by lia; cbn; lia | apply Z.pow_le_mono_r; lia]).
    cbn in *. lia. }
  destruct (Z_lt_le_dec (Zpos (digits2_pos p)) n) as [Hlt|Hge].
  - assert (2 ^ Zpos (digits2_pos p) <= 2 ^ (n - 1)) by (apply Z.pow_le_mono_r; lia). lia.
  - destruct (Z_lt_le_dec n (Zpos (digits2_pos p))) as [Hlt|Hle]; [|lia].
    assert (2 ^ n <= 2 ^ (Zpos (digits2_pos p) - 1)) by (apply Z.pow_le_mono_r; lia). lia.
Qed.

Lemma shr_1_double (z : Z) :
  0 < z -> shr_1 (Build_shr_record (2 * z) false false) = Build_shr_record z false false.
Proof. destruct z; try lia. intros _. reflexivity. Qed.

Lemma iter_shr_1_exact (k : positive) :
  forall q : Z, 0 < q ->
    SpecFloat.iter_pos shr_1 k (Build_shr_record (q * 2 ^ Zpos k) false false)
    = Build_shr_record q false false.
Proof.
  induction k as [k IH|k IH|]; intros q Hq; cbn [SpecFloat.iter_pos].
  - replace (q * 2 ^ Zpos k~1) with (2 * ((q * 2 ^ Zpos k) * 2 ^ Zpos k)).
    + rewrite shr_1_double by (apply Z.mul_pos_pos; [apply Z.mul_pos_pos|]; lia).
      rewrite IH by (apply Z.mul_pos_pos; lia). by apply IH.
    + replace (Zpos k~1) with (Zpos k + Zpos k + 1) by lia.
      rewrite !Z.pow_add_r by lia. lia.
  - replace (q * 2 ^ Zpos k~0) with ((q * 2 ^ Zpos k) * 2 ^ Zpos k).
    + rewrite IH by (apply Z.mul_pos_pos; lia). by apply IH.
    + replace (Zpos k~0) with (Zpos k + Zpos k) by lia.
      rewrite Z.pow_add_r by lia. lia.
  - replace (q * 2 ^ 1) with (2 * q) by lia. by apply shr_1_double.
Qed.

Lemma fexp_normal (e : Z) : -1074 <= e - 53 -> fexp prec emax e = e - 53.
Proof. unfold fexp, emin, prec, emax. lia. Qed.

(** Rounding a mantissa that is a 53-bit number followed by [k] zero bits
    drops the zeros and changes nothing else. *)
Lemma binary_round_aux_exact (s : bool) (m q : positive) (k e : Z) :
  0 <= k -> Zpos m = Zpos q * 2 ^ k -> Zpos (digits2_pos q) = 53 ->
  -1074 <= e + k <= 971 ->
  binary_round_aux prec emax s (Zpos m) e loc_Exact = S754_finite s q (e + k).
Proof.
  intros Hk Hm Hq He.
  assert (Hdm : Zpos (digits2_pos m) = 53 + k).
  { apply digits2_pos_unique. rewrite Hm.
    pose proof (digits2_pos_bounds q) as Hb. rewrite Hq in Hb.
    replace (53 + k - 1) with (52 + k) by lia.
    rewrite !Z.pow_add_r by lia.
    assert (0 < 2 ^ k) by (apply Z.pow_pos_nonneg; lia).
    change (53 - 1) with 52 in Hb. nia. }
  unfold binary_round_aux.
  assert (Hfirst : shr_fexp prec emax (Zpos m) e loc_Exact
                   = (Build_shr_record (Zpos q) false false, e + k)).
  { unfold shr_fexp. cbn [Zdigits2 shr_record_of_loc]. rewrite Hdm.
    rewrite fexp_normal by lia.
    replace (53 + k + e - 53 - e) with k by lia.
    unfold shr. destruct k as [|k|k]; [|  |lia].
    - rewrite Z.pow_0_r, Z.mul_1_r in Hm. injection Hm as ->.
      by rewrite Z.add_0_r.
    - rewrite Hm. by rewrite iter_shr_1_exact. }
  rewrite Hfirst. cbn [shr_m loc_of_shr_record round_nearest_even].
  assert (Hsecond : shr_fexp prec emax (Zpos q) (e + k) loc_Exact
                    = (Build_shr_record (Zpos q) false false, e + k)).
  { unfold shr_fexp. cbn [Zdigits2 shr_record_of_loc]. rewrite Hq.
    rewrite fexp_normal by lia.
    replace (53 + (e + k) - 53 - (e + k)) with 0 by lia. reflexivity. }
  rewrite Hsecond. cbn [shr_m].
  unfold emax, prec. destruct (Z.leb_spec (e + k) (1024 - 53)); [done|lia].
Qed.


Lemma pos_iter_xO (n d : positive) : Zpos (Pos.iter xO n d) = Zpos n * 2 ^ Zpos d.
Proof.
  induction d as [|d IH] using Pos.peano_ind.
  - cbn. lia.
  - rewrite Pos.iter_succ, Pos2Z.inj_xO, IH, Pos2Z.inj_succ, Z.pow_succ_r by lia. lia.
Qed.

Lemma canon_mantissa (n : positive) :
  Zpos (digits2_pos n) <= 53 ->
  Zpos (Z.to_pos (Zpos n * 2 ^ shift_of n)) = Zpos n * 2 ^ shift_of n
  /\ Zpos (digits2_pos (Z.to_pos (Zpos n * 2 ^ shift_of n))) = 53.
Proof.
  intros Hn. unfold shift_of.
  assert (Hpow : 0 < 2 ^ (53 - Zpos (digits2_pos n))) by (apply Z.pow_pos_nonneg; lia).
  assert (Hto : Zpos (Z.to_pos (Zpos n * 2 ^ (53 - Zpos (digits2_pos n))))
                = Zpos n * 2 ^ (53 - Zpos (digits2_pos n))) by (apply Z2Pos.id; lia).
  split; [exact Hto|].
  apply digits2_pos_unique. rewrite Hto.
  pose proof (digits2_pos_bounds n) as [Hlo Hhi].
  replace (2 ^ 53) with (2 ^ Zpos (digits2_pos n) * 2 ^ (53 - Zpos (digits2_pos n)))
    by (rewrite <- Z.pow_add_r by lia; f_equal; lia).
  replace (2 ^ (53 - 1))
    with (2 ^ (Zpos (digits2_pos n) - 1) * 2 ^ (53 - Zpos (digits2_pos n)))
    by (rewrite <- Z.pow_add_r by lia; f_equal; lia).
  nia.
Qed.

(** Rounding [n * 2^e] with [n] below 2^53 is exact. *)
Lemma binary_round_canon (n : positive) (e : Z) :
  Zpos (digits2_pos n) <= 53 -> -1074 <= e - shift_of n <= 971 ->
  binary_round prec emax false n e = canon n e.
Proof.
  intros Hn He. destruct (canon_mantissa n Hn) as [Hto Hdig].
  unfold binary_round.
  rewrite fexp_normal by (unfold shift_of in He; lia).
  unfold shl_align.
  replace (Zpos (digits2_pos n) + e - 53 - e) with (- shift_of n)
    by (unfold shift_of; lia).
  unfold canon. destruct (shift_of n) as [|d|d] eqn:Hd.
  - change (- 0) with 0. cbv beta iota. rewrite Z.pow_0_r, Z.mul_1_r in *.
    rewrite (binary_round_aux_exact false n n 0 e)
      by (unfold shift_of in Hd; rewrite ?Z.pow_0_r; lia).
    rewrite Pos2Z.id. f_equal; lia.
  - change (- Zpos d) with (Zneg d). cbv beta iota.
    replace (Zpos (digits2_pos n) + e - 53) with (e - Zpos d) by (unfold shift_of in Hd; lia).
    rewrite (binary_round_aux_exact false _ (Pos.iter xO n d) 0 (e - Zpos d));
      rewrite ?pos_iter_xO, ?Z.pow_0_r; try lia.
    + f_equal; [|lia]. apply Pos2Z.inj. by rewrite pos_iter_xO, Hto.
    + rewrite <- Hdig. f_equal. f_equal. apply Pos2Z.inj. by rewrite pos_iter_xO, Hto.
  - unfold shift_of in Hd. lia.
Qed.

(** The product of two such numbers is exact when it, too, is below 2^53. *)
Lemma SFmul_canon (a b : positive) (ea eb : Z) :
  Zpos (digits2_pos a) <= 53 -> Zpos (digits2_pos b) <= 53 ->
  Zpos (digits2_pos (a * b)) <= 53 ->
  -1074 <= ea + eb - shift_of (a * b) <= 971 ->
  SFmul prec emax (canon a ea) (canon b eb) = canon (a * b) (ea + eb).
Proof.
  intros Ha Hb Hab He.
  destruct (canon_mantissa a Ha) as [Hta Hda].
  destruct (canon_mantissa b Hb) as [Htb Hdb].
  destruct (canon_mantissa (a * b) Hab) as [Htab Hdab].
  unfold canon, SFmul. cbn [xorb].
  pose proof (digits2_pos_bounds a) as [Halo Hahi].
  pose proof (digits2_pos_bounds b) as [Hblo Hbhi].
  pose proof (digits2_pos_bounds (a * b)) as [Hablo Habhi].
  set (da := shift_of a) in *. set (db := shift_of b) in *.
  set (dab := shift_of (a * b)) in *.
  assert (Hda' : Zpos (digits2_pos a) = 53 - da) by (unfold da, shift_of; lia).
  assert (Hdb' : Zpos (digits2_pos b) = 53 - db) by (unfold db, shift_of; lia).
  assert (Hdab' : Zpos (digits2_pos (a * b)) = 53 - dab) by (unfold dab, shift_of; lia).
  rewrite Hda' in *. rewrite Hdb' in *. rewrite Hdab' in *.
  assert (Hk : 0 <= da + db - dab).
  { destruct (Z_lt_le_dec (da + db - dab) 0) as [Hneg|]; [|lia]. exfalso.
    assert (2 ^ (53 - dab) <= 2 ^ ((53 - da - 1) + (53 - db - 1)))
      by (apply Z.pow_le_mono_r; lia).
    rewrite Z.pow_add_r in H by lia.
    rewrite Pos2Z.inj_mul in Habhi. nia. }
  rewrite (binary_round_aux_exact false _ (Z.to_pos (Zpos (a * b) * 2 ^ dab))
             (da + db - dab) (ea - da + (eb - db))); try lia.
  - f_equal. lia.
  - rewrite Pos2Z.inj_mul, Hta, Htb, Htab, Pos2Z.inj_mul.
    assert (Hp : 2 ^ da * 2 ^ db = 2 ^ dab * 2 ^ (da + db - dab))
      by (rewrite <- !Z.pow_add_r by lia; f_equal; lia).
    transitivity (Zpos a * Zpos b * (2 ^ da * 2 ^ db)); [ring|].
    rewrite Hp. ring.
Qed.

Lemma digits2_pos_le_53 (p : positive) :
  Zpos p < 2 ^ 53 -> Zpos (digits2_pos p) <= 53.
Proof.
  intros Hp. pose proof (digits2_pos_bounds p) as [Hlo _].
  destruct (Z_lt_le_dec 53 (Zpos (digits2_pos p))) as [Hgt|]; [|lia].
  assert (2 ^ 53 <= 2 ^ (Zpos (digits2_pos p) - 1)) by (apply Z.pow_le_mono_r; lia).
  lia.
Qed.

Lemma shift_of_range (p : positive) : Zpos p < 2 ^ 53 -> 0 <= shift_of p <= 52.
Proof.
  intros Hp. pose proof (digits2_pos_le_53 p Hp). unfold shift_of. lia.
Qed.

Lemma of_int_pos (p : positive) :
  Zpos p < 2 ^ 53 -> of_int (Zpos p) = Return (canon p 0).
Proof.
  intros Hp. unfold of_int. cbn [binary_normalize].
  rewrite binary_round_canon; [done | by apply digits2_pos_le_53 |].
  pose proof (shift_of_range p Hp). lia.
Qed.

Lemma value_canon (n : positive) (e : Z) :
  Zpos n < 2 ^ 53 ->
  exists q : Q, value (canon n e) = Some q
                /\ (q == inject_Z (Zpos n) * Qpower 2 e)%Q.
Proof.
  intros Hn. eexists. split; [reflexivity|].
  destruct (canon_mantissa n (digits2_pos_le_53 n Hn)) as [Hto _].
  pose proof (shift_of_range n Hn) as Hs.
  rewrite Hto, inject_Z_mult, Zpower_Qpower by lia.
  change (inject_Z 2) with 2%Q.
  replace e with (shift_of n + (e - shift_of n)) at 2 by lia.
  rewrite (Qpower_plus 2 (shift_of n) (e - shift_of n)) by done.
  ring.
Qed.

(** The products by days and by passengers are exact while the integer
    numerator stays below 2^53. *)
Lemma price_chain (x : positive) (ex : Z) (days passengers : Z) :
  -1 <= ex <= 0 -> 0 <= days -> 0 <= passengers ->
  Zpos x * Z.max 1 days * Z.max 1 passengers < 2 ^ 53 ->
  exists (f : spec_float) (q : Q),
    (days' <- of_int days ;;
     let total := mul (canon x ex) days' in
     passengers' <- of_int passengers ;;
     let total := mul total passengers' in
     Return total)%result = Return f
    /\ value f = Some q
    /\ (q == inject_Z (Zpos x) * Qpower 2 ex * inject_Z days * inject_Z passengers)%Q.
Proof.
  intros Hex Hd Hp Hbound.
  assert (Hzero : of_int 0 = Return (S754_zero false)) by reflexivity.
  destruct days as [|d|d]; [| |lia].
  - (* no day: the total is a zero from here on *)
    rewrite Hzero. cbn [result_bind]. unfold canon at 1. cbn [mul SFmul xorb].
    destruct passengers as [|p|p]; [| |lia].
    + rewrite Hzero. cbn. exists (S754_zero false), 0%Q. repeat split. ring.
    + replace (Z.max 1 0) with 1 in Hbound by lia.
      replace (Z.max 1 (Zpos p)) with (Zpos p) in Hbound by lia.
      rewrite of_int_pos by nia.
      cbn. exists (S754_zero false), 0%Q. repeat split. ring.
  - replace (Z.max 1 (Zpos d)) with (Zpos d) in Hbound by lia.
    assert (Hxd : Zpos (x * d) < 2 ^ 53).
    { rewrite Pos2Z.inj_mul.
      assert (1 <= Z.max 1 passengers) by lia. nia. }
    assert (Zpos x < 2 ^ 53 /\ Zpos d < 2 ^ 53) as [Hx Hd']
      by (rewrite Pos2Z.inj_mul in Hxd; nia).
    rewrite of_int_pos by done. cbn [result_bind]. cbv zeta.
    unfold mul at 2.
    rewrite SFmul_canon; try (by apply digits2_pos_le_53);
      [|pose proof (shift_of_range _ Hxd); lia].
    replace (ex + 0) with ex by lia.
    destruct passengers as [|p|p]; [| |lia].
    + rewrite Hzero. cbn. exists (S754_zero false), 0%Q. repeat split. ring.
    + replace (Z.max 1 (Zpos p)) with (Zpos p) in Hbound by lia.
      assert (Hxdp : Zpos (x * d * p) < 2 ^ 53) by (rewrite !Pos2Z.inj_mul; lia).
      assert (Hp' : Zpos p < 2 ^ 53) by (rewrite Pos2Z.inj_mul in Hxdp; nia).
      rewrite of_int_pos by done. cbn [result_bind].
      unfold mul.
      rewrite SFmul_canon; try (by apply digits2_pos_le_53);
        [|pose proof (shift_of_range _ Hxdp); lia].
      replace (ex + 0) with ex by lia.
      destruct (value_canon (x * d * p) ex Hxdp) as (q & Hq & Hqv).
      exists (canon (x * d * p) ex), q. split; [done|]. split; [done|].
      rewrite Hqv, !Pos2Z.inj_mul, !inject_Z_mult. ring.
Qed.

Lemma literal_canon (m : positive) (e : Z) :
  Zpos m < 2 ^ 53 -> -1 <= e <= 0 -> literal (Zpos m) e = canon m e.
Proof.
  intros Hm He. unfold literal. cbn [binary_normalize].
  apply binary_round_canon; [by apply digits2_pos_le_53|].
  pose proof (shift_of_range m Hm). lia.
Qed.

(** The whole product, for a base price [b] and a multiplier [m * 2^e]. *)
Lemma price_exact (b m : positive) (e : Z) (days passengers : Z) :
  -1 <= e <= 0 -> 0 <= days -> 0 <= passengers ->
  Zpos b * Zpos m * Z.max 1 days * Z.max 1 passengers < 2 ^ 53 ->
  exists (f : spec_float) (q : Q),
    (base <- of_int (Zpos b) ;;
     let total := mul base (literal (Zpos m) e) in
     days' <- of_int days ;;
     let total := mul total days' in
     passengers' <- of_int passengers ;;
     let total := mul total passengers' in
     Return total)%result = Return f
    /\ value f = Some q
    /\ (q == inject_Z (Zpos b) * (inject_Z (Zpos m) * Qpower 2 e)
             * inject_Z days * inject_Z passengers)%Q.
Proof.
  intros He Hd Hp Hbound.
  assert (Hbm : Zpos (b * m) < 2 ^ 53).
  { rewrite Pos2Z.inj_mul.
    assert (1 <= Z.max 1 days) by lia. assert (1 <= Z.max 1 passengers) by lia. nia. }
  assert (Zpos b < 2 ^ 53 /\ Zpos m < 2 ^ 53) as [Hb Hm]
    by (rewrite Pos2Z.inj_mul in Hbm; nia).
  rewrite of_int_pos by done. cbn [result_bind]. cbv zeta.
  rewrite literal_canon by done. unfold mul at 3.
  rewrite SFmul_canon; try (by apply digits2_pos_le_53);
    [|pose proof (shift_of_range _ Hbm); lia].
  replace (0 + e) with e by lia.
  destruct (price_chain (b * m) e days passengers He Hd Hp) as (f & q & Hf & Hq & Hqv).
  { by rewrite Pos2Z.inj_mul. }
  exists f, q. split; [exact Hf|]. split; [exact Hq|].
  rewrite Hqv, Pos2Z.inj_mul, inject_Z_mult. ring.
Qed.

Lemma binary64_multipliers_lookup (package_type : string) :
  dict_get package_multipliers (lower package_type) (literal 1 0)
  = let key := lower package_type in
    if decide (key = "economy") then literal 1 0
    else if decide (key = "business") then literal 3 (-1)
    else if decide (key = "first") then literal 2 0
    else literal 1 0.
Proof.
  unfold dict_get, package_multipliers. cbn zeta.
  repeat case_decide.
  - rewrite H. reflexivity.
  - rewrite H0. reflexivity.
  - rewrite H1. reflexivity.
  - cbn [list_to_map foldr uncurry fst snd].
    rewrite !lookup_insert_ne by congruence.
    rewrite lookup_empty. reflexivity.
Qed.

Lemma Q2Qc_eq (q : Q) (c : Qc) : (q == c)%Q -> Q2Qc q = c.
Proof.
  intros Hq. apply Qc_is_canon. cbn. by rewrite Qred_correct.
Qed.

(** On binary64 floats [calculate_price] computes the exact product, for
    every booking of up to 600 000 000 passenger-days. *)
Theorem calculate_price_binary64_exact
    (destination : string) (days : Z) (package_type : string) (passengers : Z) :
  0 <= days -> 0 <= passengers ->
  Z.max 1 days * Z.max 1 passengers <= 600000000 ->
  exists (f : spec_float) (q : Q),
    binary64.calculate_price destination days package_type passengers = Return f
    /\ value f = Some q
    /\ Q2Qc q = booking_agent.calculate_price destination days package_type passengers.
Proof.
  intros Hd Hp Hbound.
  unfold binary64.calculate_price, booking_agent.calculate_price. cbn zeta.
  rewrite base_prices_lookup, package_multipliers_lookup, binary64_multipliers_lookup.
  unfold price_spec.base_price, price_spec.package_multiplier. cbn zeta.
  assert (Hpos : 1 <= Z.max 1 days * Z.max 1 passengers) by nia.
  assert (Hfinish : forall (b m : positive) (e : Z) (mult : float),
             -1 <= e <= 0 -> Zpos b <= 5000000 -> Zpos m <= 3 ->
             (mult == inject_Z (Zpos m) * Qpower 2 e)%Q ->
             exists (f : spec_float) (q : Q),
               (base <- of_int (Zpos b) ;;
                let total := mul base (literal (Zpos m) e) in
                days' <- of_int days ;;
                let total := mul total days' in
                passengers' <- of_int passengers ;;
                let total := mul total passengers' in
                Return total)%result = Return f
               /\ value f = Some q
               /\ Q2Qc q = (float_of_int (Zpos b) * mult * float_of_int days
                            * float_of_int passengers)%Qc).
  { intros b m e mult He Hb Hm Hmult.
    destruct (price_exact b m e days passengers He Hd Hp) as (f & q & Hf & Hq & Hqv).
    { assert (Zpos b * Zpos m <= 15000000) by nia.
      change (2 ^ 53) with 9007199254740992. nia. }
    exists f, q. split; [exact Hf|]. split; [exact Hq|].
    apply Q2Qc_eq. rewrite Hqv. cbn. rewrite !Qred_correct. by rewrite Hmult. }
  repeat case_decide;
    first [ apply (Hfinish _ 1%positive 0) | apply (Hfinish _ 3%positive (-1))
          | apply (Hfinish _ 2%positive 0) ]; done.
Qed.


End Binary64.

(** ** The price claims *)

Section PriceClaims.
Import Py booking_agent price_spec.

(** C1, as the code has it: for positive days and passengers of up to
    600 000 000 passenger-days, the float that [calculate_price] returns is
    base price times package multiplier times days times passengers exactly,
    the base price and the multiplier being read from the two static tables
    on the lower-cased key, with the fallbacks 1000000 and 1.0 for an unknown
    destination and an unknown package type. *)
Theorem C1_calculate_price_formula
    (destination : string) (days : Z) (package_type : string) (passengers : Z) :
  0 < days -> 0 < passengers -> days * passengers <= 600000000 ->
  exists (f : spec_float) (q : Q),
    binary64.calculate_price destination days package_type passengers = Return f
    /\ binary64.value f = Some q
    /\ Q2Qc q
       = (float_of_int (base_price destination) * package_multiplier package_type
          * float_of_int days * float_of_int passengers)%Qc.
Proof.
  intros Hd Hp Hrange. rewrite <- calculate_price_unfold.
  apply calculate_price_binary64_exact; [lia | lia |].
  by rewrite !Z.max_r by lia.
Qed.

Lemma C1_calculate_price_formula_witness :
  exists (f : spec_float) (q : Q),
    binary64.calculate_price "Mars" 30 "BUSINESS" 1 = Return f
    /\ binary64.value f = Some q
    /\ Q2Qc q
       = (float_of_int (base_price "Mars") * package_multiplier "BUSINESS"
          * float_of_int 30 * float_of_int 1)%Qc.
Proof.
  apply (C1_calculate_price_formula "Mars" 30 "BUSINESS" 1); lia.
Defined.

(** The float returned for the booking above. *)
Example calculate_price_binary64_mars :
  binary64.calculate_price "Mars" 30 "BUSINESS" 1
  = Return (S754_finite false 7549747200000000 (-25))
  /\ (7549747200000000 * 2 ^ (-25) == 225000000)%Q.
Proof. split; [vm_compute; reflexivity | reflexivity]. Qed.

(** C1 fails as worded, for every positive number of days: a booking of
    2^53 + 1 days is priced as one of 2^53 days, the integer being rounded
    when it becomes a float, and a booking of 10^400 days is refused with
    [OverflowError]. *)
Lemma C1_counterexample_large_days :
  (exists (f : spec_float) (q : Q),
      binary64.calculate_price "mars" (2 ^ 53 + 1) "business" 3 = Return f
      /\ binary64.value f = Some q
      /\ (q == 202661983231672320000000)%Q
      /\ Q2Qc q
         <> (float_of_int (base_price "mars") * package_multiplier "business"
             * float_of_int (2 ^ 53 + 1) * float_of_int 3)%Qc)
  /\ binary64.calculate_price "moon" (10 ^ 400) "economy" 1
     = Raise (Exception OverflowError "int too large to convert to float" None).
Proof.
  split; [|vm_compute; reflexivity].
  eexists _, _. split; [vm_compute; reflexivity|]. split; [reflexivity|].
  split; [reflexivity|].
  intros Heq. apply (f_equal Qcanon.this) in Heq. vm_compute in Heq. discriminate.
Qed.



End PriceClaims.


(** ** Health requirements *)

Section Health.
Import Py safety_agent health_spec.

Lemma float_gtb_spec (a b : float) : float_gtb a b = true <-> (b < a)%Qc.
Proof.
  unfold float_gtb. rewrite negb_true_iff, <- not_true_iff_false, Qle_bool_iff.
  symmetry. apply Qclt_nge.
Qed.

Lemma some_check_missing_spec (checks : list string) (mh : gmap string pyval) :
  some_check_missing checks mh = true
  <-> exists check : string, check ∈ checks /\ mh !! check = None.
Proof.
  induction checks as [|c cs IH]; cbn [some_check_missing].
  - split; [discriminate|]. intros (k & Hk & _). by apply elem_of_nil in Hk.
  - case_bool_decide as Hc.
    + split; [|done]. intros _. exists c. split; [apply list_elem_of_here | done].
    + rewrite IH. split.
      * intros (k & Hk & Hn). exists k. split; [by apply list_elem_of_further | done].
      * intros (k & Hk & Hn). apply elem_of_cons in Hk as [->|Hk]; [done|].
        by exists k.
Qed.

Lemma py_gt_number (v : pyval) (q t : float) :
  as_number v = Some q -> py_gt v t = Return (float_gtb q t).
Proof. intros Hq. unfold py_gt. by rewrite Hq. Qed.

Example check_health_requirements_healthy :
  check_health_requirements healthy_history = Return true.
Proof. vm_compute. reflexivity. Qed.

Example check_health_requirements_test_data :
  check_health_requirements (delete "heart_condition" healthy_history) = Return false.
Proof. vm_compute. reflexivity. Qed.

Lemma reading_number (mh : gmap string pyval) (name : string) (q : float) :
  reading mh name ≫= as_number = Some q ->
  exists (bp : gmap string pyval) (v : pyval),
    mh !! "blood_pressure" = Some (PDict bp) /\ bp !! name = Some v
    /\ as_number v = Some q.
Proof.
  unfold reading. intros H.
  destruct (mh !! "blood_pressure") as [[| | | | | | |bp]|]; try discriminate.
  destruct (bp !! name) as [v|] eqn:Hv; [|discriminate].
  by exists bp, v.
Qed.

Lemma no_field_absent (mh : gmap string pyval) :
  ~ field_absent mh -> some_check_missing required_checks mh = false.
Proof.
  intros Hno. apply not_true_is_false. by rewrite some_check_missing_spec.
Qed.

(** With every field present and a numeric systolic reading, the check is
    decided by the two comparisons, the diastolic one being reached only
    under a systolic reading within its threshold. *)
Lemma check_health_requirements_systolic (mh : gmap string pyval) (s : float) :
  ~ field_absent mh ->
  reading mh "systolic" ≫= as_number = Some s ->
  check_health_requirements mh
  = if float_gtb s (float_of_int 140) then Return false
    else (bp <- getitem (PDict mh) "blood_pressure" ;;
          diastolic <- getitem bp "diastolic" ;;
          too_high <- py_gt diastolic (float_of_int 90) ;;
          if too_high : bool then Return false else Return true)%result.
Proof.
  intros Hno Hs. apply reading_number in Hs as (bp & v & Hbp & Hv & Hq).
  unfold check_health_requirements. rewrite (no_field_absent _ Hno).
  cbn [getitem]. rewrite Hbp. cbn [result_bind getitem]. rewrite Hv.
  cbn [result_bind]. rewrite (py_gt_number _ _ _ Hq). cbn [result_bind].
  reflexivity.
Qed.

(** C3, as the code has it: the check returns False when a required field
    is absent or the systolic reading is above 140; on a history with every
    required field and numeric systolic and diastolic readings it returns
    False when systolic is above 140 or diastolic above 90, and True
    otherwise. *)
Theorem C3_check_health_requirements (medical_history : gmap string pyval) :
  (field_absent medical_history ->
   check_health_requirements medical_history = Return false)
  /\ (exceeds (reading medical_history "systolic") 140 ->
      check_health_requirements medical_history = Return false)
  /\ (forall s d : float,
        ~ field_absent medical_history ->
        reading medical_history "systolic" ≫= as_number = Some s ->
        reading medical_history "diastolic" ≫= as_number = Some d ->
        ((float_of_int 140 < s \/ float_of_int 90 < d)%Qc ->
         check_health_requirements medical_history = Return false)
        /\ ((s <= float_of_int 140 /\ d <= float_of_int 90)%Qc ->
            check_health_requirements medical_history = Return true)).
Proof.
  assert (Habsent : field_absent medical_history ->
                    check_health_requirements medical_history = Return false).
  { intros Hmiss. unfold check_health_requirements.
    by rewrite (proj2 (some_check_missing_spec _ _) Hmiss). }
  assert (Hboth : forall s d : float,
             ~ field_absent medical_history ->
             reading medical_history "systolic" ≫= as_number = Some s ->
             reading medical_history "diastolic" ≫= as_number = Some d ->
             check_health_requirements medical_history
             = Return (negb (float_gtb s (float_of_int 140)
                             || float_gtb d (float_of_int 90)))).
  { intros s d Hno Hs Hd.
    rewrite (check_health_requirements_systolic _ s Hno Hs).
    destruct (float_gtb s (float_of_int 140)); [done|].
    apply reading_number in Hd as (bp & v & Hbp & Hv & Hq).
    cbn [getitem]. rewrite Hbp. cbn [result_bind getitem]. rewrite Hv.
    cbn [result_bind]. rewrite (py_gt_number _ _ _ Hq). cbn [result_bind].
    by destruct (float_gtb d (float_of_int 90)). }
  split; [exact Habsent|]. split.
  - intros (q & Hq & Hgt).
    destruct (some_check_missing required_checks medical_history) eqn:Hmiss.
    { by apply Habsent, some_check_missing_spec. }
    assert (Hno : ~ field_absent medical_history).
    { intros Ha. apply some_check_missing_spec in Ha. congruence. }
    rewrite (check_health_requirements_systolic _ q Hno Hq).
    by rewrite (proj2 (float_gtb_spec _ _) Hgt).
  - intros s d Hno Hs Hd. rewrite (Hboth s d Hno Hs Hd). split.
    + intros [Hgt|Hgt]; apply (float_gtb_spec) in Hgt; rewrite Hgt;
        [done | by rewrite orb_true_r].
    + intros [Hs' Hd'].
      assert (float_gtb s (float_of_int 140) = false) as ->.
      { apply not_true_is_false. rewrite float_gtb_spec. by apply Qcle_ngt. }
      assert (float_gtb d (float_of_int 90) = false) as ->.
      { apply not_true_is_false. rewrite float_gtb_spec. by apply Qcle_ngt. }
      done.
Qed.

(** C3 fails as worded: with every required field present and a diastolic
    reading of 95, a blood pressure without a systolic reading makes the
    check raise [KeyError] instead of returning False. *)
Lemma C3_counterexample_missing_systolic :
  check_health_requirements history_without_systolic
  = Raise (Exception KeyError "systolic" None)
  /\ ~ health_claim_as_stated history_without_systolic.
Proof.
  assert (Hrun : check_health_requirements history_without_systolic
                 = Raise (Exception KeyError "systolic" None))
    by (vm_compute; reflexivity).
  split; [exact Hrun|].
  intros [Hfalse _].
  rewrite Hrun in Hfalse.
  enough (threshold_exceeded history_without_systolic) as Hex
      by (specialize (Hfalse (or_intror Hex)); discriminate).
  right. exists (float_of_int 95). split; [reflexivity|]. reflexivity.
Qed.

(** Likewise with nothing above a threshold: a blood pressure kept as text
    makes the check raise [TypeError] instead of returning True. *)
Example check_health_requirements_text_pressure :
  check_health_requirements history_with_text_pressure
  = Raise (Exception TypeError "indices must be integers" None)
  /\ ~ field_absent history_with_text_pressure
  /\ ~ threshold_exceeded history_with_text_pressure.
Proof.
  split; [vm_compute; reflexivity|]. split.
  - intros Habsent. apply some_check_missing_spec in Habsent.
    vm_compute in Habsent. discriminate.
  - intros [(q & Hq & _)|(q & Hq & _)]; vm_compute in Hq; discriminate.
Qed.

End Health.

(** ** Space weather *)

Section Weather.
Import Py safety_agent space_weather.

Lemma random_choice_elem (draw : nat) (seq : list string) :
  seq <> [] -> exists s : string, random_choice draw seq = Return s /\ s ∈ seq.
Proof.
  intros Hne. unfold random_choice.
  assert (Hlt : (draw mod length seq < length seq)%nat).
  { apply Nat.mod_upper_bound. by destruct seq. }
  destruct (lookup_lt_is_Some_2 _ _ Hlt) as [x Hx].
  rewrite Hx. exists x. split; [done|]. by eapply list_elem_of_lookup_2.
Qed.

Lemma random_choice_hits (seq : list string) (s : string) :
  s ∈ seq -> exists draw : nat, (draw < length seq)%nat /\ random_choice draw seq = Return s.
Proof.
  intros Hin. apply list_elem_of_lookup_1 in Hin as [i Hi].
  pose proof (lookup_lt_Some _ _ _ Hi) as Hlt.
  exists i. split; [done|]. unfold random_choice.
  rewrite Nat.mod_small by done. by rewrite Hi.
Qed.

Lemma producible_random_choice (seq : list string) (s : string) :
  seq <> [] -> producible (fun draw => random_choice draw seq) s <-> s ∈ seq.
Proof.
  intros Hne. split.
  - intros [draw Hd]. destruct (random_choice_elem draw seq Hne) as (x & Hx & Hin).
    rewrite Hx in Hd. by injection Hd as <-.
  - intros Hin. destruct (random_choice_hits seq s Hin) as (draw & _ & Hd).
    by exists draw.
Qed.

Lemma random_choice_uniform (seq : list string) :
  seq <> [] -> NoDup seq -> uniform_over seq (fun draw => random_choice draw seq).
Proof.
  intros Hne Hnd. unfold uniform_over, random_choice. split; [|split].
  - intros i Hi. rewrite Nat.mod_small by done.
    destruct (lookup_lt_is_Some_2 _ _ Hi) as [x Hx]. exists x. by rewrite Hx.
  - intros i j Hi Hj. rewrite !Nat.mod_small by done.
    destruct (lookup_lt_is_Some_2 _ _ Hi) as [x Hx].
    destruct (lookup_lt_is_Some_2 _ _ Hj) as [y Hy].
    rewrite Hx, Hy. intros [= ->]. by eapply NoDup_lookup.
  - intros draw. replace (draw + length seq)%nat with (draw + 1 * length seq)%nat by lia.
    rewrite Nat.Div0.mod_add. reflexivity.
Qed.

Lemma activity_levels_NoDup : NoDup (activity_levels init).
Proof. compute_done. Qed.

Lemma risk_levels_NoDup : NoDup (risk_levels init).
Proof. compute_done. Qed.

Lemma exactly_n_random_choice (seq : list string) :
  seq <> [] -> NoDup seq ->
  exactly_n_strings (length seq) (fun draw => random_choice draw seq).
Proof.
  intros Hne Hnd. exists seq. split; [done|]. split; [done|].
  intros s. by apply producible_random_choice.
Qed.

(** A getter has one number of distinct results only. *)
Lemma exactly_n_strings_unique (n m : nat) (getter : nat -> result string) :
  exactly_n_strings n getter -> exactly_n_strings m getter -> n = m.
Proof.
  intros (l & <- & Hl & Hiff) (k & <- & Hk & Hiff').
  apply Nat.le_antisymm; apply submseteq_length, NoDup_submseteq; try done.
  - intros x Hx. by apply Hiff', Hiff.
  - intros x Hx. by apply Hiff, Hiff'.
Qed.

(** C7, as the code has it: [monitor_space_weather] returns one fixed
    record; the solar-activity and radiation getters return an evenly drawn
    member of the four activity levels, and the meteoroid-risk getter an
    evenly drawn member of the five risk levels. *)
Theorem C7_space_weather_values :
  monitor_space_weather
  = {| solar_activity := "moderate";
       radiation_level := "normal";
       meteoroid_risk := "low";
       recommendation := "現在の宇宙天気は安定しており、宇宙旅行に適しています。" |}
  /\ (forall (draw : nat),
        exists s : string, get_solar_activity init draw = Return s
                           /\ s ∈ ["low"; "moderate"; "high"; "extreme"])
  /\ (forall (draw : nat),
        exists s : string, get_radiation_level init draw = Return s
                           /\ s ∈ ["low"; "moderate"; "high"; "extreme"])
  /\ (forall (draw : nat),
        exists s : string, get_meteoroid_risk init draw = Return s
                           /\ s ∈ ["minimal"; "low"; "moderate"; "high"; "severe"])
  /\ exactly_n_strings 4 (get_solar_activity init)
  /\ exactly_n_strings 4 (get_radiation_level init)
  /\ exactly_n_strings 5 (get_meteoroid_risk init)
  /\ uniform_over ["low"; "moderate"; "high"; "extreme"] (get_solar_activity init)
  /\ uniform_over ["low"; "moderate"; "high"; "extreme"] (get_radiation_level init)
  /\ uniform_over ["minimal"; "low"; "moderate"; "high"; "severe"]
       (get_meteoroid_risk init).
Proof.
  assert (Ha : activity_levels init <> []) by done.
  assert (Hr : risk_levels init <> []) by done.
  repeat split.
  - intros draw. by apply (random_choice_elem draw (activity_levels init)).
  - intros draw. by apply (random_choice_elem draw (activity_levels init)).
  - intros draw. by apply (random_choice_elem draw (risk_levels init)).
  - apply (exactly_n_random_choice (activity_levels init) Ha activity_levels_NoDup).
  - apply (exactly_n_random_choice (activity_levels init) Ha activity_levels_NoDup).
  - apply (exactly_n_random_choice (risk_levels init) Hr risk_levels_NoDup).
  - apply (random_choice_uniform (activity_levels init) Ha activity_levels_NoDup).
  - apply (random_choice_uniform (activity_levels init) Ha activity_levels_NoDup).
  - apply (random_choice_uniform (activity_levels init) Ha activity_levels_NoDup).
  - apply (random_choice_uniform (activity_levels init) Ha activity_levels_NoDup).
  - apply (random_choice_uniform (activity_levels init) Ha activity_levels_NoDup).
  - apply (random_choice_uniform (activity_levels init) Ha activity_levels_NoDup).
  - apply (random_choice_uniform (risk_levels init) Hr risk_levels_NoDup).
  - apply (random_choice_uniform (risk_levels init) Hr risk_levels_NoDup).
  - apply (random_choice_uniform (risk_levels init) Hr risk_levels_NoDup).
Qed.

(** C7 fails as worded for the third getter: the meteoroid-risk sensor has
    five possible results, the draw 4 giving "severe". *)
Lemma C7_counterexample_meteoroid_risk :
  get_meteoroid_risk init 4 = Return "severe"
  /\ ~ one_of_four_strings (get_meteoroid_risk init).
Proof.
  split; [reflexivity|]. intros Hfour.
  assert (Hfive : exactly_n_strings 5 (get_meteoroid_risk init)).
  { apply (exactly_n_random_choice (risk_levels init)); [done|].
    apply risk_levels_NoDup. }
  pose proof (exactly_n_strings_unique _ _ _ Hfour Hfive). discriminate.
Qed.

(** ** Weather recommendation *)

(** C9: the recommendation is to postpone whenever the meteoroid risk is
    high or severe or the solar activity or radiation level is high; yet
    the readings extreme / low / minimal, each of which its sensor can
    return, get the recommendation that conditions are stable. *)
Theorem C9_recommendation_ignores_extreme :
  (forall solar radiation meteoroid : string,
      meteoroid = "high" \/ meteoroid = "severe"
      \/ solar = "high" \/ radiation = "high" ->
      get_weather_recommendation solar radiation meteoroid = postpone_recommendation)
  /\ producible (get_solar_activity init) "extreme"
  /\ producible (get_radiation_level init) "low"
  /\ producible (get_meteoroid_risk init) "minimal"
  /\ get_weather_recommendation "extreme" "low" "minimal" = stable_recommendation
  /\ stable_recommendation <> postpone_recommendation
  /\ (exists (d1 d2 d3 : nat) (r : weather_report),
        get_full_weather_report init d1 d2 d3 = Return r
        /\ report_solar_activity r = "extreme"
        /\ report_recommendation r = stable_recommendation).
Proof.
  split; [|repeat split].
  - intros solar radiation meteoroid H. unfold get_weather_recommendation.
    destruct H as [-> | [-> | [-> | ->]]].
    + rewrite (bool_decide_eq_true_2 ("high" ∈ ["high"; "severe"])) by set_solver.
      by rewrite orb_true_r.
    + rewrite (bool_decide_eq_true_2 ("severe" ∈ ["high"; "severe"])) by set_solver.
      by rewrite orb_true_r.
    + by rewrite (bool_decide_eq_true_2 ("high" ∈ ["high"; radiation])) by set_solver.
    + by rewrite (bool_decide_eq_true_2 ("high" ∈ [solar; "high"])) by set_solver.
  - by exists 3%nat.
  - by exists 0%nat.
  - by exists 0%nat.
  - discriminate.
  - exists 3%nat, 0%nat, 0%nat. eexists. split; [reflexivity|]. by split.
Qed.

End Weather.

(** ** Training schedule *)

Section Training.
Import Py training_simulator schedule_spec.

Lemma microseconds_add (a b : Z) : microseconds (a + b) = microseconds a + microseconds b.
Proof. unfold microseconds. lia. Qed.

Lemma microseconds_le (a b : Z) : a <= b <-> microseconds a <= microseconds b.
Proof. unfold microseconds. lia. Qed.

Lemma duration_bounds (t : TrainingType) : 1 <= duration t <= 7.
Proof. destruct t; cbn; lia. Qed.

Lemma fold_left_add_from (l : list Z) (a : Z) :
  fold_left Z.add l a = a + fold_left Z.add l 0.
Proof.
  revert a. induction l as [|x l IH]; intros a; cbn [fold_left]; [lia|].
  rewrite (IH (a + x)), (IH (0 + x)). lia.
Qed.

Lemma sum_cons (x : Z) (l : list Z) : sum (x :: l) = x + sum l.
Proof. unfold sum. cbn [fold_left]. rewrite fold_left_add_from. lia. Qed.

Lemma sum_durations_nonneg (types : list TrainingType) :
  0 <= sum (map duration types).
Proof.
  induction types as [|t types IH]; [done|].
  cbn [map]. rewrite sum_cons. pose proof (duration_bounds t). lia.
Qed.

Lemma timedelta_returns (days : Z) :
  -999999999 <= days <= 999999999 -> timedelta days = Return (microseconds days).
Proof.
  intros Hd. unfold timedelta.
  by rewrite (proj2 (Z.leb_le _ _)), (proj2 (Z.leb_le _ _)) by lia.
Qed.

Lemma timedelta_raises (days : Z) :
  ~ -999999999 <= days <= 999999999 ->
  exists e : exception, timedelta days = Raise e /\ exc_type e = OverflowError.
Proof.
  intros Hd. unfold timedelta.
  destruct (-999999999 <=? days) eqn:H1; destruct (days <=? 999999999) eqn:H2;
    cbn [andb]; try (by eexists);
    apply Z.leb_le in H1; apply Z.leb_le in H2; lia.
Qed.

Lemma datetime_add_returns (d : datetime) (delta : Z) :
  0 <= wall d + delta <= max_wall ->
  datetime_add d delta = Return (Datetime (wall d + delta) (tzinfo d)).
Proof.
  intros Hd. unfold datetime_add.
  by rewrite (proj2 (Z.leb_le _ _)), (proj2 (Z.leb_le _ _)) by lia.
Qed.

Lemma datetime_add_raises (d : datetime) (delta : Z) :
  ~ 0 <= wall d + delta <= max_wall ->
  datetime_add d delta = Raise (Exception OverflowError "date value out of range" None).
Proof.
  intros Hd. unfold datetime_add.
  destruct (0 <=? wall d + delta) eqn:H1; destruct (wall d + delta <=? max_wall) eqn:H2;
    cbn [andb]; try done.
  apply Z.leb_le in H1; apply Z.leb_le in H2; lia.
Qed.

(** Once a turn has raised, the loop is over. *)
Lemma fold_left_schedule_step_raised (types : list TrainingType) (e : exception) :
  fold_left schedule_step types (Raise e) = Raise e.
Proof. induction types as [|t types IH]; [done|]. cbn [fold_left]. exact IH. Qed.

(** One turn, by where it leads. *)
Lemma schedule_step_returns (tz : option Z) (current_date : Z)
    (acc : list training_module) (t : TrainingType) :
  0 <= current_date -> current_date + microseconds (duration t + 1) <= max_wall ->
  schedule_step (Return (Datetime current_date tz, acc)) t
  = Return (Datetime (current_date + microseconds (duration t + 1)) tz,
            (acc ++ modules_from tz current_date [t])%list).
Proof.
  intros H0 Hmax. pose proof (duration_bounds t) as Hd.
  unfold schedule_step. cbn [result_bind]. fold (duration t).
  rewrite !timedelta_returns by lia. cbn [result_bind].
  rewrite !datetime_add_returns by (cbn [wall]; unfold microseconds in *; lia).
  reflexivity.
Qed.

Lemma schedule_step_raises (tz : option Z) (current_date : Z)
    (acc : list training_module) (t : TrainingType) :
  max_wall < current_date + microseconds (duration t + 1) ->
  schedule_step (Return (Datetime current_date tz, acc)) t
  = Raise (Exception OverflowError "date value out of range" None).
Proof.
  intros Hmax. pose proof (duration_bounds t) as Hd.
  unfold schedule_step. cbn [result_bind]. fold (duration t).
  rewrite !timedelta_returns by lia. cbn [result_bind].
  destruct (decide (0 <= current_date + microseconds (duration t) <= max_wall))
    as [Hend|Hend].
  - rewrite (datetime_add_returns (Datetime current_date tz) _ Hend).
    cbn [result_bind]. by rewrite datetime_add_raises by (cbn [wall]; lia).
  - by rewrite (datetime_add_raises (Datetime current_date tz) _ Hend).
Qed.

(** The loop computes the unrolled list, as long as the dates stay in
    range. *)
Lemma fold_left_schedule_step (types : list TrainingType) (tz : option Z)
    (current_date : Z) (acc : list training_module) :
  0 <= current_date ->
  current_date + microseconds (sum (map duration types) + Z.of_nat (length types))
  <= max_wall ->
  fold_left schedule_step types (Return (Datetime current_date tz, acc))
  = Return (Datetime (current_date
                      + microseconds (sum (map duration types)
                                      + Z.of_nat (length types))) tz,
            (acc ++ modules_from tz current_date types)%list).
Proof.
  revert current_date acc.
  induction types as [|t types IH]; intros current_date acc H0 Hmax.
  - cbn. rewrite app_nil_r. do 3 f_equal. unfold microseconds, sum. cbn. lia.
  - pose proof (duration_bounds t) as Hd.
    pose proof (sum_durations_nonneg types) as Hs.
    cbn [map length] in Hmax. rewrite sum_cons in Hmax.
    cbn [fold_left]. rewrite schedule_step_returns;
      [|done | unfold microseconds in *; lia].
    rewrite IH; [|unfold microseconds; lia | unfold microseconds in *; lia].
    cbn [map length modules_from]. rewrite sum_cons, <- app_assoc.
    do 3 f_equal. unfold microseconds. lia.
Qed.

Lemma fold_left_schedule_step_overflow (types : list TrainingType) (tz : option Z)
    (current_date : Z) (acc : list training_module) :
  0 <= current_date <= max_wall ->
  max_wall
  < current_date + microseconds (sum (map duration types) + Z.of_nat (length types)) ->
  fold_left schedule_step types (Return (Datetime current_date tz, acc))
  = Raise (Exception OverflowError "date value out of range" None).
Proof.
  revert current_date acc.
  induction types as [|t types IH]; intros current_date acc H0 Hmax.
  - exfalso. revert Hmax. unfold microseconds, sum. cbn. lia.
  - pose proof (duration_bounds t) as Hd.
    cbn [map length] in Hmax. rewrite sum_cons in Hmax. cbn [fold_left].
    destruct (decide (current_date + microseconds (duration t + 1) <= max_wall))
      as [Hnext|Hnext].
    + rewrite schedule_step_returns by lia.
      apply IH; unfold microseconds in *; lia.
    + rewrite schedule_step_raises by lia. apply fold_left_schedule_step_raised.
Qed.

(** When the dates fit, the schedule is returned, and its modules are the
    unrolled list. *)
Lemma create_training_schedule_returns
    (trainee : string) (departure : datetime) (types : list TrainingType) :
  in_range departure -> schedulable departure types ->
  create_training_schedule trainee departure types
  = Return {| trainee_name := trainee;
              start_date :=
                Datetime (wall departure - microseconds (sum (map duration types) + 14))
                         (tzinfo departure);
              end_date := Datetime (wall departure - microseconds 7) (tzinfo departure);
              departure_date := departure;
              training_modules :=
                modules_from (tzinfo departure)
                  (wall departure - microseconds (sum (map duration types) + 14))
                  types |}.
Proof.
  intros [H0 Hmax] [Hstart Hend].
  pose proof (sum_durations_nonneg types) as Hs.
  assert (Hmw : max_wall = 3652059 * 86400000000 - 1) by reflexivity.
  unfold create_training_schedule. cbn zeta.
  change (map (fun t => program_duration_days (training_programs t)) types)
    with (map duration types).
  rewrite timedelta_returns by (unfold microseconds in *; lia). cbn [result_bind].
  rewrite datetime_add_returns by (unfold microseconds in *; lia). cbn [result_bind].
  rewrite timedelta_returns by lia. cbn [result_bind].
  rewrite datetime_add_returns by (unfold microseconds in *; lia). cbn [result_bind].
  replace (wall departure + - microseconds (sum (map duration types) + 14))
    with (wall departure - microseconds (sum (map duration types) + 14)) by lia.
  replace (wall departure + - microseconds 7) with (wall departure - microseconds 7)
    by lia.
  rewrite fold_left_schedule_step; [done | done |].
  destruct types as [|t types]; [unfold microseconds, sum in *; cbn in *; lia|].
  specialize (Hend ltac:(done)). unfold microseconds in *. lia.
Qed.

(** When they do not, the call raises [OverflowError]. *)
Lemma create_training_schedule_raises
    (trainee : string) (departure : datetime) (types : list TrainingType) :
  in_range departure -> ~ schedulable departure types ->
  exists e : exception,
    create_training_schedule trainee departure types = Raise e
    /\ exc_type e = OverflowError.
Proof.
  intros [H0 Hmax] Hno.
  pose proof (sum_durations_nonneg types) as Hs.
  assert (Hmw : max_wall = 3652059 * 86400000000 - 1) by reflexivity.
  unfold create_training_schedule. cbn zeta.
  change (map (fun t => program_duration_days (training_programs t)) types)
    with (map duration types).
  destruct (decide (-999999999 <= sum (map duration types) + 14 <= 999999999))
    as [Hdays|Hdays].
  - rewrite timedelta_returns by done. cbn [result_bind].
    destruct (decide (0 <= wall departure - microseconds (sum (map duration types) + 14)))
      as [Hstart|Hstart].
    + rewrite datetime_add_returns by (unfold microseconds in *; lia).
      cbn [result_bind]. rewrite timedelta_returns by lia. cbn [result_bind].
      rewrite datetime_add_returns by (unfold microseconds in *; lia).
      cbn [result_bind].
      rewrite fold_left_schedule_step_overflow; [by eexists | | ].
      * cbn [wall]. unfold microseconds in *. lia.
      * cbn [wall]. destruct types as [|t types].
        { exfalso. apply Hno. split; [done|]. by intros []. }
        destruct (decide (wall departure
                          + microseconds (Z.of_nat (length (t :: types)) - 14)
                          <= max_wall)) as [Hend|Hend].
        { exfalso. apply Hno. by split. }
        unfold microseconds in *. lia.
    + rewrite datetime_add_raises by (cbn [wall]; unfold microseconds in *; lia).
      by eexists.
  - destruct (timedelta_raises _ Hdays) as (e & -> & He). by exists e.
Qed.

(** Where the modules appended from [current_date] on lie. *)
Lemma modules_from_bounds (types : list TrainingType) (tz : option Z)
    (current_date : Z) (m : training_module) :
  m ∈ modules_from tz current_date types ->
  current_date <= wall (module_start_date m)
  /\ wall (module_start_date m) < wall (module_end_date m)
  /\ wall (module_end_date m)
     <= current_date
        + microseconds (sum (map duration types) + Z.of_nat (length types) - 1).
Proof.
  revert current_date.
  induction types as [|t types IH]; intros current_date Hin;
    cbn [modules_from] in Hin.
  - by apply elem_of_nil in Hin.
  - cbn [map length]. rewrite sum_cons.
    pose proof (duration_bounds t) as Hd.
    pose proof (sum_durations_nonneg types) as Hs.
    apply elem_of_cons in Hin as [->|Hin]; cbn.
    + unfold microseconds. lia.
    + apply IH in Hin as (H1 & H2 & H3). revert H1 H2 H3.
      unfold microseconds. lia.
Qed.

Lemma modules_from_non_overlapping (types : list TrainingType) (tz : option Z)
    (current_date : Z) :
  non_overlapping (modules_from tz current_date types).
Proof.
  revert current_date.
  induction types as [|t types IH]; intros current_date i j m m' Hij Hi Hj.
  - done.
  - cbn [modules_from] in Hi, Hj. destruct j as [|j]; [lia|].
    cbn in Hj. destruct i as [|i].
    + cbn in Hi. injection Hi as <-. cbn.
      apply list_elem_of_lookup_2, modules_from_bounds in Hj as (H1 & _).
      revert H1. unfold microseconds. lia.
    + cbn in Hi. eapply (IH _ i j); [lia | exact Hi | exact Hj].
Qed.

Lemma modules_from_length (types : list TrainingType) (tz : option Z)
    (current_date : Z) :
  length (modules_from tz current_date types) = length types.
Proof.
  revert current_date. induction types as [|t types IH]; intros current_date; [done|].
  cbn [modules_from length]. by rewrite IH.
Qed.

(** The last module ends one day before the loop is through. *)
Lemma modules_from_last (types : list TrainingType) (tz : option Z) (current_date : Z)
    (m : training_module) :
  last (modules_from tz current_date types) = Some m ->
  module_end_date m
  = Datetime (current_date
              + microseconds (sum (map duration types) + Z.of_nat (length types) - 1))
             tz.
Proof.
  revert current_date. induction types as [|t types IH]; intros current_date; [done|].
  cbn [modules_from map length]. rewrite sum_cons.
  destruct types as [|t' types].
  - cbn. intros [= <-]. cbn. f_equal. unfold microseconds. lia.
  - intros Hl.
    change (last (modules_from tz (current_date + microseconds (duration t + 1))
                    (t' :: types)) = Some m) in Hl.
    apply IH in Hl. rewrite Hl. cbn [map length]. rewrite sum_cons.
    f_equal. unfold microseconds. lia.
Qed.

(** The margin before departure holds for up to eight modules. *)
Lemma modules_from_margin (departure : datetime) (types : list TrainingType) :
  (length types <= 8)%nat ->
  ends_before 7 departure
    (modules_from (tzinfo departure)
       (wall departure - microseconds (sum (map duration types) + 14)) types).
Proof.
  intros Hlen m Hin.
  apply modules_from_bounds in Hin as (_ & _ & Hend).
  revert Hend. unfold microseconds. lia.
Qed.

(** With nine modules or more the last one passes it. *)
Lemma modules_from_past_margin (departure : datetime) (types : list TrainingType) :
  (8 < length types)%nat ->
  ~ ends_before 7 departure
      (modules_from (tzinfo departure)
         (wall departure - microseconds (sum (map duration types) + 14)) types).
Proof.
  intros Hlen Hmargin.
  destruct (last (modules_from (tzinfo departure)
                    (wall departure - microseconds (sum (map duration types) + 14))
                    types)) as [m|] eqn:Hlast.
  - pose proof (modules_from_last _ _ _ _ Hlast) as Hend.
    apply last_Some_elem_of, Hmargin in Hlast. rewrite Hend in Hlast.
    revert Hlast. cbn [wall]. unfold microseconds. lia.
  - apply last_None in Hlast. apply (f_equal length) in Hlast.
    rewrite modules_from_length in Hlast. cbn in Hlast. lia.
Qed.

(** C10, as the code has it: for a departure date whose schedule lies in
    the years 1 to 9999, [create_training_schedule] returns a schedule with
    one module per requested type; its modules do not overlap (a later
    module starts at least one day after an earlier one ends); and every
    module ends at least seven days before the departure date exactly when
    there are at most eight modules.  For any other departure date the call
    raises [OverflowError]. *)
Theorem C10_training_schedule_invariants
    (trainee : string) (departure : datetime) (training_types : list TrainingType) :
  in_range departure ->
  (schedulable departure training_types ->
   exists schedule : training_schedule,
     create_training_schedule trainee departure training_types = Return schedule
     /\ length (training_modules schedule) = length training_types
     /\ non_overlapping (training_modules schedule)
     /\ ((length training_types <= 8)%nat ->
         ends_before 7 departure (training_modules schedule))
     /\ ((8 < length training_types)%nat ->
         ~ ends_before 7 departure (training_modules schedule)))
  /\ (~ schedulable departure training_types ->
      exists e : exception,
        create_training_schedule trainee departure training_types = Raise e
        /\ exc_type e = OverflowError).
Proof.
  intros Hrange. split.
  - intros Hfit. eexists. split; [by apply create_training_schedule_returns|].
    cbn [training_modules]. split; [apply modules_from_length|].
    split; [apply modules_from_non_overlapping|].
    split; [apply modules_from_margin | apply modules_from_past_margin].
  - by apply create_training_schedule_raises.
Qed.

Lemma C10_training_schedule_invariants_witness :
  exists schedule : training_schedule,
    create_training_schedule "宇宙猫太郎" june_2025
      [ZERO_GRAVITY; EMERGENCY; SPACECRAFT] = Return schedule
    /\ non_overlapping (training_modules schedule)
    /\ ends_before 7 june_2025 (training_modules schedule).
Proof.
  assert (Hrange : in_range june_2025)
    by (unfold in_range, june_2025, max_wall; cbn [wall]; lia).
  assert (Hfit : schedulable june_2025 [ZERO_GRAVITY; EMERGENCY; SPACECRAFT])
    by (unfold schedulable, june_2025, max_wall, microseconds;
        cbn [wall map length]; rewrite !sum_cons; cbn; split; [|intros _]; lia).
  destruct (proj1 (C10_training_schedule_invariants "宇宙猫太郎" june_2025
                     [ZERO_GRAVITY; EMERGENCY; SPACECRAFT] Hrange) Hfit)
    as (schedule & Hreturns & _ & Hapart & Hmargin & _).
  exists schedule. split; [exact Hreturns|]. split; [exact Hapart|].
  apply Hmargin. cbn. lia.
Defined.

(** The schedule of the module's own usage example, for a departure 60 days
    after 1 June 2025: three modules on days 31-36, 37-40 and 41-48. *)
Example create_training_schedule_example :
  (fun s => map (fun m => (wall (module_start_date m) - wall june_2025,
                           wall (module_end_date m) - wall june_2025))
                (training_modules s))
    <$> match create_training_schedule "宇宙猫太郎"
                (Datetime (wall june_2025 + microseconds 60) None)
                [ZERO_GRAVITY; EMERGENCY; SPACECRAFT] with
        | Return s => Some s
        | Raise _ => None
        end
  = Some [(microseconds 31, microseconds 36); (microseconds 37, microseconds 40);
          (microseconds 41, microseconds 48)].
Proof. reflexivity. Qed.

(** C10 fails as worded, for every non-empty list of training types and
    every departure date.  With a type repeated, the ninth module ends six
    days before the departure, past the margin of seven; and for a departure
    on 10 January of the year 1 the start of the training would lie before
    the first date there is, and the call raises. *)
Lemma C10_counterexample_nine_modules :
  (exists schedule : training_schedule,
      create_training_schedule "宇宙猫太郎" june_2025 (replicate 9 COMMUNICATION)
      = Return schedule
      /\ ~ ends_before 7 june_2025 (training_modules schedule))
  /\ create_training_schedule "宇宙猫太郎" (Datetime (microseconds 9) None)
       [COMMUNICATION]
     = Raise (Exception OverflowError "date value out of range" None).
Proof.
  split; [|reflexivity].
  eexists. split; [reflexivity|]. intros H.
  set (modules := training_modules _) in H.
  destruct (modules !! 8%nat) as [m|] eqn:Hm; [|discriminate].
  specialize (H m (list_elem_of_lookup_2 _ _ _ Hm)).
  vm_compute in Hm. injection Hm as <-. vm_compute in H. by apply H.
Qed.

End Training.

(** ** Effects *)

Section EffLemmas.
Import Py Eff notifier_spec.
Context {W : Type}.

Lemma try_except_Exception {A : Type} (body : M W A) (handler : exception -> M W A)
    (st : state W) :
  try_except body None handler st
  = match body st with
    | (Return a, st') => (Return a, st')
    | (Raise e, st') => handler e st'
    end.
Proof. unfold try_except. by destruct (body st) as [[a|e] st']. Qed.

Lemma bind_Return {A B : Type} (m : M W A) (k : A -> M W B) (st st' : state W) (a : A) :
  m st = (Return a, st') -> bind m k st = k a st'.
Proof. intros Hm. unfold bind. by rewrite Hm. Qed.

Lemma external_run {A : Type} (call : W -> result A * W) (st : state W)
    (r : result A) (w : W) :
  call (outside st) = (r, w) ->
  external call st = (r, State w (log st) (errors_total st) (alerts_raised st)).
Proof. intros Hc. unfold external. by rewrite Hc. Qed.

(** The shape shared by the four send methods. *)
Lemma send_wraps_call (call : M W unit) (success failure : string) :
  wraps_call
    (try_except (call ;; logger INFO success ;; ret true)%eff None
       (fun e => logger ERROR (failure ++ exc_str e) ;; ret false)%eff)
    call success failure.
Proof.
  intros st. rewrite try_except_Exception. unfold bind.
  by destruct (call st) as [[[]|e] st'].
Qed.

Lemma wraps_call_never_raises (send : M W bool) (call : M W unit)
    (success failure : string) :
  wraps_call send call success failure -> never_raises send.
Proof.
  intros Hw st. specialize (Hw st).
  destruct (call st) as [[[]|e] st']; eauto.
Qed.

End EffLemmas.

(** ** Alert notifier *)

Section Notifier.
Import Py Eff alert_notifier notifier_spec.
Context {W : Type} {net : Network W}.

(** C5: each of the four send methods returns True when its outbound call
    returns, and when the call raises it catches the exception, logs it and
    returns False; none of them raises. *)
Theorem C5_send_methods_catch_and_log (self : AlertNotifier) :
  (forall (subject message : string) (recipients : list string),
      wraps_call (send_email_alert self subject message recipients)
        (smtp_session self subject message recipients)
        ("アラートメールを送信しました: " ++ subject) "メール送信に失敗: "
      /\ never_raises (send_email_alert self subject message recipients))
  /\ (forall title message severity : string,
      wraps_call (send_slack_alert self title message severity)
        (slack_request self title message severity)
        ("Slackアラートを送信しました: " ++ title) "Slack通知に失敗: "
      /\ never_raises (send_slack_alert self title message severity))
  /\ (forall message : string,
      wraps_call (send_line_alert self message) (line_request self message)
        "LINEアラートを送信しました" "LINE通知に失敗: "
      /\ never_raises (send_line_alert self message))
  /\ (forall (title message : string) (color : Z),
      wraps_call (send_discord_alert self title message color)
        (discord_request self title message color)
        ("Discordアラートを送信しました: " ++ title) "Discord通知に失敗: "
      /\ never_raises (send_discord_alert self title message color)).
Proof.
  repeat split; intros;
    try (eapply wraps_call_never_raises); apply send_wraps_call.
Qed.

Lemma send_email_alert_returns self subject message recipients :
  never_raises (send_email_alert self subject message recipients).
Proof. eapply wraps_call_never_raises, send_wraps_call. Qed.

Lemma send_slack_alert_returns self title message severity :
  never_raises (send_slack_alert self title message severity).
Proof. eapply wraps_call_never_raises, send_wraps_call. Qed.

Lemma send_line_alert_returns self message :
  never_raises (send_line_alert self message).
Proof. eapply wraps_call_never_raises, send_wraps_call. Qed.

Lemma send_discord_alert_returns self title message color :
  never_raises (send_discord_alert self title message color).
Proof. eapply wraps_call_never_raises, send_wraps_call. Qed.

(** One [if channel: results[key] = send(...)] block of the broadcast. *)
Lemma broadcast_step (configured : bool) (key : string) (send : M W bool)
    (results : gmap string bool) (st : state W) :
  never_raises send ->
  (if configured
   then (sent <- send ;; ret (<[key := sent]> results))%eff
   else ret results) st
  = (Return (match (attempt configured send st).1 with
             | Some sent => <[key := sent]> results
             | None => results
             end),
     (attempt configured send st).2).
Proof.
  intros Hsend. unfold attempt. destruct configured; [|done].
  unfold bind. destruct (Hsend st) as (sent & st' & ->). done.
Qed.

Lemma attempt_is_Some (configured : bool) (send : M W bool) (st : state W) :
  never_raises send ->
  is_Some (attempt configured send st).1 <-> configured = true.
Proof.
  intros Hsend. unfold attempt. destruct configured.
  - destruct (Hsend st) as (sent & st' & ->). cbn. split; [done|]. by eexists.
  - cbn. split; [intros [? ?]|]; done.
Qed.

(** C4: [broadcast_alert] returns a dict with one boolean per configured
    channel: "email" exactly when a non-empty recipient list was given,
    "slack", "line" and "discord" exactly when the webhook or token is set;
    each entry is the result of that channel's send, run after the sends of
    the channels before it, and there is no other key. *)
Theorem C4_broadcast_alert_channels (self : AlertNotifier)
    (title message severity : string) (email_recipients : option (list string))
    (st : state W) :
  exists (email slack line discord : option bool) (st1 st2 st3 st4 : state W)
         (results : gmap string bool),
    attempt (truthy_list email_recipients)
      (send_email_alert self title message (default [] email_recipients)) st
    = (email, st1)
    /\ attempt (truthy_str (slack_webhook self))
         (send_slack_alert self title message severity) st1
       = (slack, st2)
    /\ attempt (truthy_str (line_token self))
         (send_line_alert self (title ++ newline ++ newline ++ message)) st2
       = (line, st3)
    /\ attempt (truthy_str (discord_webhook self))
         (send_discord_alert self title message 0xFF0000) st3
       = (discord, st4)
    /\ broadcast_alert self title message severity email_recipients st
       = (Return results, st4)
    /\ results !! "email" = email
    /\ results !! "slack" = slack
    /\ results !! "line" = line
    /\ results !! "discord" = discord
    /\ (forall key : string,
          key ∉ ["email"; "slack"; "line"; "discord"] -> results !! key = None)
    /\ ("email" ∈ dom results <-> truthy_list email_recipients = true)
    /\ ("slack" ∈ dom results <-> truthy_str (slack_webhook self) = true)
    /\ ("line" ∈ dom results <-> truthy_str (line_token self) = true)
    /\ ("discord" ∈ dom results <-> truthy_str (discord_webhook self) = true).
Proof.
  pose proof (send_email_alert_returns self title message
                (default [] email_recipients)) as Hemail.
  pose proof (send_slack_alert_returns self title message severity) as Hslack.
  pose proof (send_line_alert_returns self
                (title ++ newline ++ newline ++ message)) as Hline.
  pose proof (send_discord_alert_returns self title message 0xFF0000) as Hdiscord.
  destruct (attempt (truthy_list email_recipients)
              (send_email_alert self title message (default [] email_recipients)) st)
    as [email st1] eqn:E1.
  destruct (attempt (truthy_str (slack_webhook self))
              (send_slack_alert self title message severity) st1)
    as [slack st2] eqn:E2.
  destruct (attempt (truthy_str (line_token self))
              (send_line_alert self (title ++ newline ++ newline ++ message)) st2)
    as [line st3] eqn:E3.
  destruct (attempt (truthy_str (discord_webhook self))
              (send_discord_alert self title message 0xFF0000) st3)
    as [discord st4] eqn:E4.
  pose proof (attempt_is_Some (truthy_list email_recipients) _ st Hemail) as S1.
  pose proof (attempt_is_Some (truthy_str (slack_webhook self)) _ st1 Hslack) as S2.
  pose proof (attempt_is_Some (truthy_str (line_token self)) _ st2 Hline) as S3.
  pose proof (attempt_is_Some (truthy_str (discord_webhook self)) _ st3 Hdiscord) as S4.
  rewrite E1 in S1. rewrite E2 in S2. rewrite E3 in S3. rewrite E4 in S4.
  cbn [fst] in S1, S2, S3, S4.
  set (r1 := match email with Some b => <["email" := b]> (∅ : gmap string bool) | None => ∅ end).
  set (r2 := match slack with Some b => <["slack" := b]> r1 | None => r1 end).
  set (r3 := match line with Some b => <["line" := b]> r2 | None => r2 end).
  set (r4 := match discord with Some b => <["discord" := b]> r3 | None => r3 end).
  exists email, slack, line, discord, st1, st2, st3, st4, r4.
  do 4 (split; [first [reflexivity | assumption]|]).
  assert (Hrun : broadcast_alert self title message severity email_recipients st
                 = (Return r4, st4)).
  { unfold broadcast_alert. cbn zeta. unfold bind at 1.
    assert (Hfirst :
      match email_recipients with
      | Some (r :: rs) =>
          (sent <- send_email_alert self title message (r :: rs) ;;
           ret (<["email" := sent]> (∅ : gmap string bool)))%eff
      | _ => ret ∅
      end st = (Return r1, st1)).
    { pose proof (broadcast_step (truthy_list email_recipients) "email"
                    (send_email_alert self title message (default [] email_recipients))
                    ∅ st Hemail) as Hstep.
      rewrite E1 in Hstep. cbn [fst snd] in Hstep.
      by destruct email_recipients as [[|r rs]|]. }
    rewrite Hfirst. unfold bind at 1.
    rewrite (broadcast_step _ "slack" _ r1 st1 Hslack), E2. cbn [fst snd].
    unfold bind at 1.
    rewrite (broadcast_step _ "line" _ _ st2 Hline), E3. cbn [fst snd].
    unfold bind at 1.
    rewrite (broadcast_step _ "discord" _ _ st3 Hdiscord), E4. cbn [fst snd].
    reflexivity. }
  split; [exact Hrun|].
  assert (L1 : r4 !! "email" = email).
  { subst r4 r3 r2 r1. destruct email, slack, line, discord; by simplify_map_eq. }
  assert (L2 : r4 !! "slack" = slack).
  { subst r4 r3 r2 r1. destruct email, slack, line, discord; by simplify_map_eq. }
  assert (L3 : r4 !! "line" = line).
  { subst r4 r3 r2 r1. destruct email, slack, line, discord; by simplify_map_eq. }
  assert (L4 : r4 !! "discord" = discord).
  { subst r4 r3 r2 r1. destruct email, slack, line, discord; by simplify_map_eq. }
  do 4 (split; [done|]).
  split.
  { intros key Hkey.
    rewrite !not_elem_of_cons in Hkey. destruct Hkey as (K1 & K2 & K3 & K4 & _).
    subst r4 r3 r2 r1. destruct email, slack, line, discord; by simplify_map_eq. }
  rewrite !elem_of_dom, L1, L2, L3, L4. done.
Qed.

(** The broadcast on the flaky network: four entries, two of them False. *)
Example broadcast_alert_flaky :
  (broadcast_alert (net := flaky_network) full_notifier "CPU" "load is high" "error"
     (Some ["admin@example.com"]) quiet_state).1
  = Return (list_to_map
              [("email", true); ("slack", false); ("line", false); ("discord", true)]).
Proof. vm_compute. reflexivity. Qed.

Example broadcast_alert_flaky_log :
  log_level_of <$>
    log (broadcast_alert (net := flaky_network) full_notifier "CPU" "load is high"
           "error" (Some ["admin@example.com"]) quiet_state).2
  = [INFO; ERROR; ERROR; INFO].
Proof. vm_compute. reflexivity. Qed.

(** Without recipients, with an empty token and no Discord webhook, only
    the Slack entry is there. *)
Example broadcast_alert_slack_only :
  (broadcast_alert (net := flaky_network) slack_only_notifier "CPU" "load is high"
     "warning" (Some []) quiet_state).1
  = Return {["slack" := false]}.
Proof. vm_compute. reflexivity. Qed.

End Notifier.

(** ** Payment processor *)

Section Payment.
Import Py Eff payment_processor payment_spec.

Lemma try_except_class {W A : Type} (body : M W A) (c : exc_class)
    (handler : exception -> M W A) (st : state W) :
  try_except body (Some c) handler st
  = match body st with
    | (Return a, st') => (Return a, st')
    | (Raise e, st') =>
        if issubclass (exc_type e) c then handler e st' else (Raise e, st')
    end.
Proof. unfold try_except. by destruct (body st) as [[a|e] st']. Qed.

(** C6, as the code has it: [process_payment] and [process_refund] wrap
    their SDK call, and the conversion of the creation time of its answer, in
    a handler for the SDK's own error class.  When the call returns and the
    creation time is converted they return a dict with success True, the
    transaction or refund id and the converted time; when the call raises a
    [StripeError] they return a dict with success False, the message and the
    code; an exception of any other class, of the call or of the conversion,
    leaves the method as it came. *)
Theorem C6_payment_handles_stripe_errors {W : Type} {sdk : Stripe W} {tz : Localtime}
    (self : PaymentProcessor) (st : state W) :
  (forall (amount : Z) (token customer_email booking_ref : string),
      match
        Charge_create
          {| param_amount := amount;
             param_currency := currency self;
             param_source := token;
             param_description := "ねこねこスペーストラベル - 予約番号: " ++ booking_ref;
             param_receipt_email := customer_email |} (outside st)
      with
      | (Return charge, w) =>
          match fromtimestamp (charge_created charge) with
          | Return created =>
              exists d : gmap string pyval,
                process_payment self amount token customer_email booking_ref st
                = (Return d, State w (log st) (errors_total st) (alerts_raised st))
                /\ success_dict d "transaction_id" (charge_id charge)
                /\ d !! "created" = Some (PDatetime created)
          | Raise e =>
              if issubclass (exc_type e) StripeError
              then exists d : gmap string pyval,
                  process_payment self amount token customer_email booking_ref st
                  = (Return d, State w (log st) (errors_total st) (alerts_raised st))
                  /\ error_dict d e
                  /\ d !! "booking_ref" = Some (PStr booking_ref)
              else process_payment self amount token customer_email booking_ref st
                   = (Raise e, State w (log st) (errors_total st) (alerts_raised st))
          end
      | (Raise e, w) =>
          if issubclass (exc_type e) StripeError
          then exists d : gmap string pyval,
              process_payment self amount token customer_email booking_ref st
              = (Return d, State w (log st) (errors_total st) (alerts_raised st))
              /\ error_dict d e
              /\ d !! "booking_ref" = Some (PStr booking_ref)
          else process_payment self amount token customer_email booking_ref st
               = (Raise e, State w (log st) (errors_total st) (alerts_raised st))
      end)
  /\ (forall (transaction_id : string) (amount : option Z),
      match Refund_create transaction_id amount (outside st) with
      | (Return refund, w) =>
          match fromtimestamp (refund_created refund) with
          | Return created =>
              exists d : gmap string pyval,
                process_refund self transaction_id amount st
                = (Return d, State w (log st) (errors_total st) (alerts_raised st))
                /\ success_dict d "refund_id" (refund_id refund)
                /\ d !! "created" = Some (PDatetime created)
          | Raise e =>
              if issubclass (exc_type e) StripeError
              then exists d : gmap string pyval,
                  process_refund self transaction_id amount st
                  = (Return d, State w (log st) (errors_total st) (alerts_raised st))
                  /\ error_dict d e
                  /\ d !! "transaction_id" = Some (PStr transaction_id)
              else process_refund self transaction_id amount st
                   = (Raise e, State w (log st) (errors_total st) (alerts_raised st))
          end
      | (Raise e, w) =>
          if issubclass (exc_type e) StripeError
          then exists d : gmap string pyval,
              process_refund self transaction_id amount st
              = (Return d, State w (log st) (errors_total st) (alerts_raised st))
              /\ error_dict d e
              /\ d !! "transaction_id" = Some (PStr transaction_id)
          else process_refund self transaction_id amount st
               = (Raise e, State w (log st) (errors_total st) (alerts_raised st))
      end).
Proof.
  split.
  - intros amount token customer_email booking_ref.
    unfold process_payment. rewrite try_except_class. unfold bind, external, lift.
    destruct (Charge_create _ (outside st)) as [[charge|e] w].
    + cbn [outside log errors_total alerts_raised].
      destruct (fromtimestamp (charge_created charge)) as [created|e].
      * eexists. split; [reflexivity|]. by split.
      * destruct (issubclass (exc_type e) StripeError); [|reflexivity].
        eexists. split; [reflexivity|]. by repeat split.
    + destruct (issubclass (exc_type e) StripeError); [|reflexivity].
      eexists. split; [reflexivity|]. by repeat split.
  - intros transaction_id amount.
    unfold process_refund. rewrite try_except_class. unfold bind, external, lift.
    destruct (Refund_create _ _ (outside st)) as [[refund|e] w].
    + cbn [outside log errors_total alerts_raised].
      destruct (fromtimestamp (refund_created refund)) as [created|e].
      * eexists. split; [reflexivity|]. by split.
      * destruct (issubclass (exc_type e) StripeError); [|reflexivity].
        eexists. split; [reflexivity|]. by repeat split.
    + destruct (issubclass (exc_type e) StripeError); [|reflexivity].
      eexists. split; [reflexivity|]. by repeat split.
Qed.

(** C6 fails as worded: the handler is not broad.  A [TypeError] raised by
    the charge call is not caught, and [process_payment] raises it. *)
Lemma C6_counterexample_not_broad :
  process_payment (sdk := failing_charge) (tz := utc) init 5000 "tok_visa"
    "cat@example.com" "BOOK-1" initial_state
  = (Raise (Exception TypeError "unexpected argument" None), initial_state)
  /\ ~ (forall (W : Type) (sdk : Stripe W) (tz : Localtime) (self : PaymentProcessor)
           (amount : Z) (token customer_email booking_ref : string),
          broad_handler
            (process_payment self amount token customer_email booking_ref)
            (Charge_create
               {| param_amount := amount;
                  param_currency := currency self;
                  param_source := token;
                  param_description :=
                    "ねこねこスペーストラベル - 予約番号: " ++ booking_ref;
                  param_receipt_email := customer_email |})).
Proof.
  assert (Hrun :
    process_payment (sdk := failing_charge) (tz := utc) init 5000 "tok_visa"
      "cat@example.com" "BOOK-1" initial_state
    = (Raise (Exception TypeError "unexpected argument" None), initial_state))
    by reflexivity.
  split; [exact Hrun|]. intros Hbroad.
  destruct (Hbroad unit failing_charge utc init 5000 "tok_visa" "cat@example.com"
              "BOOK-1" initial_state) as (d & st' & Hd & _).
  rewrite Hrun in Hd. discriminate.
Qed.

(** A declined card is reported, not raised. *)
Example process_payment_declined :
  exists d : gmap string pyval,
    process_payment (sdk := declining_charge) (tz := utc) init 5000 "tok_visa"
      "cat@example.com" "BOOK-1" initial_state
    = (Return d, initial_state)
    /\ d !! "success" = Some (PBool false)
    /\ d !! "error_code" = Some (PStr "card_declined").
Proof. eexists. split; [reflexivity|]. by split. Qed.

(** A charge that went through, answered with a creation time beyond the
    year 9999: the conversion raises inside the [try], the handler does not
    catch it, and the caller gets the exception of a payment that was
    made. *)
Example process_payment_created_out_of_range :
  process_payment (sdk := answering (PInt 400000000000)) (tz := utc) init 5000
    "tok_visa" "cat@example.com" "BOOK-1" initial_state
  = (Raise (Exception ValueError "year is out of range" None), initial_state)
  /\ process_refund (sdk := answering PNone) (tz := utc) init "ch_1" None initial_state
     = (Raise (Exception TypeError "an integer is required" None), initial_state).
Proof. split; reflexivity. Qed.

End Payment.

(** ** System monitor *)

Section Monitor.
Import Py Eff system_monitor monitor_spec.
Context {W : Type}.

Lemma adds_alerts_weaken {A : Type} (m : M W A) N N' X X' :
  adds_alerts m N X ->
  (forall a l, N a l -> N' a l) -> (forall l, X l -> X' l) ->
  adds_alerts m N' X'.
Proof.
  intros Hm HN HX st. specialize (Hm st).
  destruct (m st) as [[a|e] st']; destruct Hm as (l & Hl & H); eauto.
Qed.

Lemma adds_alerts_bind {A B : Type} (m : M W A) (k : A -> M W B) N1 X1 N2 X2 :
  adds_alerts m N1 X1 ->
  (forall a l1, N1 a l1 ->
     adds_alerts (k a) (fun b l2 => N2 b (l1 ++ l2)%list) (fun l2 => X2 (l1 ++ l2)%list)) ->
  (forall l, X1 l -> X2 l) ->
  adds_alerts (bind m k) N2 X2.
Proof.
  intros Hm Hk HX st. unfold bind. specialize (Hm st).
  destruct (m st) as [[a|e] st1]; destruct Hm as (l1 & Hl1 & H1).
  - specialize (Hk a l1 H1 st1).
    destruct (k a st1) as [[b|e] st2]; destruct Hk as (l2 & Hl2 & H2);
      exists (l1 ++ l2)%list; (split; [|done]); by rewrite Hl2, Hl1, app_assoc.
  - exists l1. eauto.
Qed.

Lemma adds_alerts_try {A : Type} (body : M W A) (clause : option exc_class)
    (handler : exception -> M W A) N X1 X :
  adds_alerts body N X1 ->
  (forall e l1, X1 l1 ->
     adds_alerts (handler e) (fun a l2 => N a (l1 ++ l2)%list) (fun l2 => X (l1 ++ l2)%list)) ->
  (forall l, X1 l -> X l) ->
  adds_alerts (try_except body clause handler) N X.
Proof.
  intros Hb Hh HX st. unfold try_except. specialize (Hb st).
  destruct (body st) as [[a|e] st1]; destruct Hb as (l1 & Hl1 & H1).
  - exists l1. eauto.
  - destruct (handles clause e).
    + specialize (Hh e l1 H1 st1).
      destruct (handler e st1) as [[b|e'] st2]; destruct Hh as (l2 & Hl2 & H2);
        exists (l1 ++ l2)%list; (split; [|done]); by rewrite Hl2, Hl1, app_assoc.
    + exists l1. eauto.
Qed.

Lemma quiet_ret {A : Type} (a : A) (P : A -> Prop) : P a -> quiet (W := W) (ret a) P.
Proof. intros HP st. cbn. exists []. by rewrite app_nil_r. Qed.

Lemma quiet_raise {A : Type} (e : exception) (P : A -> Prop) : quiet (W := W) (raise e) P.
Proof. intros st. cbn. exists []. by rewrite app_nil_r. Qed.

Lemma quiet_lift {A : Type} (r : result A) :
  quiet (W := W) (lift r) (fun a => r = Return a).
Proof. intros st. unfold lift. destruct r; exists []; by rewrite app_nil_r. Qed.

Lemma quiet_external {A : Type} (call : W -> result A * W) :
  quiet (external call) (fun _ => True).
Proof.
  intros st. unfold external. destruct (call (outside st)) as [[a|e] w];
    exists []; by rewrite app_nil_r.
Qed.

(** Logging returns, and raises no alert. *)
Lemma logger_returns (level : log_level) (message : string) :
  adds_alerts (logger (W := W) level message) (fun _ l => l = []) (fun _ => False).
Proof. intros st. cbn. exists []. by rewrite app_nil_r. Qed.

Lemma quiet_logger (level : log_level) (message : string) :
  quiet (logger (W := W) level message) (fun _ => True).
Proof. eapply adds_alerts_weaken; [apply logger_returns | by intros ? ? -> | done]. Qed.

Lemma quiet_weaken {A : Type} (m : M W A) (P Q : A -> Prop) :
  quiet m P -> (forall a, P a -> Q a) -> quiet m Q.
Proof.
  intros Hm HPQ. eapply adds_alerts_weaken; [exact Hm| |done].
  intros a l [-> HP]. eauto.
Qed.

Lemma quiet_bind {A B : Type} (m : M W A) (k : A -> M W B) (P : A -> Prop)
    (Q : B -> Prop) :
  quiet m P -> (forall a, P a -> quiet (k a) Q) -> quiet (bind m k) Q.
Proof.
  intros Hm Hk. eapply adds_alerts_bind; [exact Hm| |done].
  intros a l1 [-> HP]. apply Hk, HP.
Qed.

Lemma quiet_try {A : Type} (body : M W A) (clause : option exc_class)
    (handler : exception -> M W A) (P : A -> Prop) :
  quiet body P -> (forall e, quiet (handler e) P) ->
  quiet (try_except body clause handler) P.
Proof.
  intros Hb Hh. eapply adds_alerts_try; [exact Hb| |done].
  intros e l1 ->. apply Hh.
Qed.

Lemma quiet_for_each {A : Type} (xs : list A) (body : A -> M W unit) :
  (forall x, x ∈ xs -> quiet (body x) (fun _ => True)) ->
  quiet (for_each xs body) (fun _ => True).
Proof.
  induction xs as [|x xs IH]; intros Hbody; cbn [for_each].
  - by apply quiet_ret.
  - eapply quiet_bind; [apply Hbody, list_elem_of_here|].
    intros _ _. apply IH. intros y Hy. by apply Hbody, list_elem_of_further.
Qed.

Lemma resource_alerts_app (xs ys : list (string * alert_details)) :
  resource_alerts (xs ++ ys) = (resource_alerts xs ++ resource_alerts ys)%list.
Proof. unfold resource_alerts. apply omap_app. Qed.

Lemma quiet_errors_total_inc (error_type : string) :
  quiet (metrics.errors_total_inc (W := W) error_type) (fun _ => True).
Proof. intros st. cbn. exists []. by rewrite app_nil_r. Qed.

(** The metrics manager of metrics.py raises no alert, whatever is called. *)
Lemma quiet_metrics_manager (name : string) (args : list pyval) :
  quiet (metrics.metrics_manager (W := W) name args) (fun _ => True).
Proof.
  unfold metrics.metrics_manager.
  eapply quiet_bind; [apply quiet_lift|]. intros attr _.
  repeat case_match;
    first [ apply quiet_errors_total_inc | by apply quiet_ret | apply quiet_raise ].
Qed.

(** [MetricsManager] has no method [record_metric]: the call raises
    [AttributeError] and changes nothing. *)
Lemma record_metric_raises (args : list pyval) (st : state W) :
  metrics.metrics_manager "record_metric" args st
  = (Raise (Exception AttributeError
              "'MetricsManager' object has no attribute 'record_metric'" None), st).
Proof. reflexivity. Qed.

Lemma adds_alerts_try_Exception {A : Type} (body : M W A)
    (handler : exception -> M W A) N X1 X :
  adds_alerts body N X1 ->
  (forall e l1, X1 l1 ->
     adds_alerts (handler e) (fun a l2 => N a (l1 ++ l2)%list) (fun l2 => X (l1 ++ l2)%list)) ->
  adds_alerts (try_except body None handler) N X.
Proof.
  intros Hb Hh st. unfold try_except, handles. specialize (Hb st).
  destruct (body st) as [[a|e] st1]; destruct Hb as (l1 & Hl1 & H1).
  - exists l1. eauto.
  - specialize (Hh e l1 H1 st1).
    destruct (handler e st1) as [[b|e'] st2]; destruct Hh as (l2 & Hl2 & H2);
      exists (l1 ++ l2)%list; (split; [|done]); by rewrite Hl2, Hl1, app_assoc.
Qed.

Lemma for_each_returns {A : Type} (xs : list A) (body : A -> M W unit) :
  (forall x, x ∈ xs ->
     adds_alerts (body x) (fun _ l => l = []) (fun _ => False)) ->
  adds_alerts (for_each xs body) (fun _ l => l = []) (fun _ => False).
Proof.
  induction xs as [|x xs IH]; intros Hbody; cbn [for_each].
  - intros st. cbn. exists []. by rewrite app_nil_r.
  - eapply adds_alerts_bind; [apply Hbody, list_elem_of_here| |done].
    intros _ l1 ->. cbn [app]. apply IH.
    intros y Hy. by apply Hbody, list_elem_of_further.
Qed.

(** [alert] returns; it adds its own entry to the trace, and the callbacks
    add none. *)
Lemma alert_adds (self : SystemMonitor W) (alert_type : string)
    (details : alert_details) :
  adds_alerts (alert self alert_type details)
    (fun _ l => l = resource_alerts [(alert_type, details)])
    (fun _ => False).
Proof.
  unfold alert.
  eapply adds_alerts_bind; [apply logger_returns| |done].
  intros _ l1 ->. cbn [app].
  eapply adds_alerts_bind with
    (N1 := fun _ l => l = resource_alerts [(alert_type, details)])
    (X1 := fun _ => False); [| |done].
  - intros st. cbn. eexists. split; [|reflexivity].
    unfold raised. cbn [alerts_raised]. apply resource_alerts_app.
  - intros _ l2 ->.
    eapply adds_alerts_weaken.
    + apply for_each_returns. intros callback _.
      eapply adds_alerts_try_Exception with (X1 := fun l => l = []).
      * eapply adds_alerts_weaken;
          [apply quiet_external | by intros ? ? [-> _] | done].
      * intros e l ->. cbn [app]. apply logger_returns.
    + intros _ l ->. by rewrite app_nil_r.
    + done.
Qed.

Lemma quiet_alert (self : SystemMonitor W) (alert_type : string)
    (details : alert_details) :
  resource_alerts [(alert_type, details)] = [] ->
  quiet (alert self alert_type details) (fun _ => True).
Proof.
  intros Hnone. unfold quiet. eapply adds_alerts_weaken; [apply alert_adds| |].
  - intros _ l ->. by rewrite Hnone.
  - done.
Qed.

End Monitor.

(** *** The loop over any metrics manager that raises no alert *)

Section MonitorLoop.
Import Py Eff system_monitor monitor_spec.
Context {W : Type} {os : Psutil W}.
Variable mm : string -> list pyval -> M W unit.
Hypothesis mm_quiet : forall name args, quiet (mm name args) (fun _ => True).

Lemma quiet_check_system_resources (self : SystemMonitor W) :
  quiet (check_system_resources mm self) (fun _ => True).
Proof.
  unfold check_system_resources. apply quiet_try.
  - eapply quiet_bind; [apply quiet_external|]. intros cpu _.
    eapply quiet_bind; [apply quiet_external|]. intros memory _.
    eapply quiet_bind; [apply quiet_external|]. intros disk _.
    eapply quiet_bind with (P := fun _ => True).
    { intros st. cbn. exists []. by rewrite app_nil_r. }
    intros timestamp _.
    eapply quiet_bind; [|intros; by apply quiet_ret].
    apply quiet_for_each. intros [key value] _.
    case_decide; [apply mm_quiet | by apply quiet_ret].
  - intros e. eapply quiet_bind; [apply quiet_logger|]. intros _ _.
    eapply quiet_bind; [apply mm_quiet|]. intros; by apply quiet_ret.
Qed.

Lemma quiet_check_network_health (self : SystemMonitor W) :
  quiet (check_network_health mm self) (fun _ => True).
Proof.
  unfold check_network_health. apply quiet_try.
  - eapply quiet_bind; [apply quiet_external|]. intros io _.
    eapply quiet_bind; [apply quiet_lift|]. intros rate _.
    eapply quiet_bind; [|intros; by apply quiet_ret].
    apply quiet_for_each. intros [key value] _. apply mm_quiet.
  - intros e. eapply quiet_bind; [apply quiet_logger|]. intros _ _.
    eapply quiet_bind; [apply mm_quiet|]. intros; by apply quiet_ret.
Qed.

Lemma quiet_check_application_health (self : SystemMonitor W) :
  quiet (check_application_health mm self) (fun _ => True).
Proof.
  unfold check_application_health. cbn zeta.
  eapply quiet_bind; [|intros; by apply quiet_ret].
  apply quiet_for_each. intros [service status] _. apply mm_quiet.
Qed.

(** What follows the resource check in one turn of the loop raises no
    resource alert: its alerts are of the other two kinds. *)
Lemma quiet_after_resources (self : SystemMonitor W) :
  quiet
    (network <- check_network_health mm self ;;
     threshold <- lift (dict_getitem (alert_threshold self) "network_error_rate") ;;
     exceeded <- lift (py_gt (items_get network "error_rate" (PInt 0)) threshold) ;;
     (if exceeded : bool
      then alert self "network_errors" (NetworkDetails network)
      else ret tt) ;;
     health <- check_application_health mm self ;;
     for_each health
       (fun '(service, status) =>
          if negb status
          then alert self "service_unhealthy" (ServiceDetails service status)
          else ret tt))%eff
    (fun _ => True).
Proof.
  eapply quiet_bind; [apply quiet_check_network_health|]. intros network _.
  eapply quiet_bind; [apply quiet_lift|]. intros threshold _.
  eapply quiet_bind; [apply quiet_lift|]. intros exceeded _.
  eapply quiet_bind with (P := fun _ => True).
  { destruct exceeded; [by apply quiet_alert | by apply quiet_ret]. }
  intros _ _.
  eapply quiet_bind; [apply quiet_check_application_health|]. intros health _.
  apply quiet_for_each. intros [service status] _.
  destruct (negb status); [by apply quiet_alert | by apply quiet_ret].
Qed.

Lemma quiet_loop_handler (e : exception) :
  quiet (logger ERROR ("監視ループでエラーが発生: " ++ exc_str e) ;;
         mm "record_error" [PStr "monitoring_loop_error"])%eff
        (fun _ => True).
Proof. eapply quiet_bind; [apply quiet_logger|]. intros _ _. apply mm_quiet. Qed.

(** The threshold loop over the readings of the three metrics, followed by
    the time stamp: one alert per reading above its threshold. *)
Lemma check_thresholds_readings (self : SystemMonitor W)
    (readings : list (string * float)) (timestamp : string) :
  adds_alerts
    (check_thresholds self
       (((fun '(metric, value) => (metric, PFloat value)) <$> readings)
        ++ [("timestamp", PStr timestamp)]))
    (fun _ l => l = exceeding (alert_threshold self) readings)
    (fun l => l = exceeding (alert_threshold self) readings).
Proof.
  unfold check_thresholds.
  induction readings as [|[metric value] readings IH]; cbn [fmap list_fmap app for_each].
  - eapply adds_alerts_weaken
      with (N := fun _ l => l = [] /\ True) (X := fun l => l = []).
    + eapply quiet_bind with (P := fun _ => True); [|intros; by apply quiet_ret].
      destruct (alert_threshold self !! "timestamp") as [t|]; [|by apply quiet_ret].
      eapply quiet_bind; [apply quiet_lift|]. intros exceeded Hex. discriminate.
    + by intros _ l [-> _].
    + done.
  - cbn [exceeding omap list_omap].
    fold (exceeding (alert_threshold self) readings).
    destruct (alert_threshold self !! metric) as [t|] eqn:Ht.
    + unfold py_gt at 1. cbn [as_number].
      destruct (float_gtb value t) eqn:Hgt.
      * eapply adds_alerts_bind
          with (N1 := fun _ l => l = [(metric, PFloat value, t)])
               (X1 := fun _ => False); [| |done].
        -- eapply adds_alerts_weaken.
           ++ eapply adds_alerts_bind with (N1 := fun b l => l = [] /\ b = true)
                                           (X1 := fun _ => False); [| |done].
              ** intros st. cbn. exists []. by rewrite app_nil_r.
              ** intros b l1 [-> ->]. cbn [app]. apply alert_adds.
           ++ intros _ l ->. cbn. by rewrite decide_True.
           ++ done.
        -- intros _ l1 ->. eapply adds_alerts_weaken; [exact IH | by intros ? ? -> | by intros ? ->].
      * eapply adds_alerts_bind
          with (N1 := fun _ l => l = []) (X1 := fun _ => False); [| |done].
        -- eapply adds_alerts_bind with (N1 := fun b l => l = [] /\ b = false)
                                        (X1 := fun _ => False); [| |done].
           ++ intros st. cbn. exists []. by rewrite app_nil_r.
           ++ intros b l1 [-> ->]. cbn [app]. intros st. cbn. exists [].
              by rewrite app_nil_r.
        -- intros _ l1 ->. eapply adds_alerts_weaken; [exact IH | by intros ? ? -> | by intros ? ->].
    + eapply adds_alerts_bind
        with (N1 := fun _ l => l = []) (X1 := fun _ => False); [| |done].
      * intros st. cbn. exists []. by rewrite app_nil_r.
      * intros _ l1 ->. eapply adds_alerts_weaken; [exact IH | by intros ? ? -> | by intros ? ->].
Qed.

End MonitorLoop.

(** *** The loop as it runs, over the metrics manager of metrics.py *)

Section MonitorAsWritten.
Import Py Eff system_monitor monitor_spec.
Context {W : Type} {os : Psutil W}.

Lemma record_metric_never_returns {A : Type} (args : list pyval) (k : unit -> M W A)
    (N : A -> list (string * pyval * float) -> Prop) :
  adds_alerts (bind (metrics.metrics_manager "record_metric" args) k) N (fun l => l = []).
Proof.
  intros st. unfold bind. rewrite record_metric_raises.
  exists []. by rewrite app_nil_r.
Qed.

(** The resource check always lands in its handler: the first
    [record_metric] call raises, and the method returns the empty dict. *)
Lemma check_system_resources_empty (self : SystemMonitor W) :
  quiet (check_system_resources metrics.metrics_manager self) (fun r => r = []).
Proof.
  unfold check_system_resources. apply quiet_try.
  - eapply adds_alerts_bind with (X2 := fun l => l = []);
      [apply quiet_external| |done]. intros cpu l1 [-> _]. cbn [app].
    eapply adds_alerts_bind with (X2 := fun l => l = []);
      [apply quiet_external| |done]. intros memory l1 [-> _]. cbn [app].
    eapply adds_alerts_bind with (X2 := fun l => l = []);
      [apply quiet_external| |done]. intros disk l1 [-> _]. cbn [app].
    eapply adds_alerts_bind with (N1 := fun _ l => l = []) (X1 := fun _ => False);
      [| |done].
    { intros st. cbn. exists []. by rewrite app_nil_r. }
    intros timestamp l1 ->. cbn [app].
    eapply adds_alerts_bind with (N1 := fun _ _ => False) (X1 := fun l => l = []);
      [|done|done].
    cbn [for_each]. rewrite decide_True by done.
    apply record_metric_never_returns.
  - intros e. eapply quiet_bind; [apply quiet_logger|]. intros _ _.
    eapply quiet_bind; [apply quiet_metrics_manager|]. intros; by apply quiet_ret.
Qed.

Lemma quiet_monitoring_iteration (self : SystemMonitor W) :
  quiet (monitoring_iteration metrics.metrics_manager self) (fun _ => True).
Proof.
  unfold monitoring_iteration. apply quiet_try.
  - eapply quiet_bind; [apply check_system_resources_empty|]. intros resources ->.
    eapply quiet_bind with (P := fun _ => True); [by apply quiet_ret|]. intros _ _.
    apply quiet_after_resources, quiet_metrics_manager.
  - intros e. apply quiet_loop_handler, quiet_metrics_manager.
Qed.

Lemma quiet_monitoring_loop (self : SystemMonitor W) (turns : nat) :
  quiet (monitoring_loop metrics.metrics_manager self turns) (fun _ => True).
Proof.
  induction turns as [|turns IH]; cbn [monitoring_loop].
  - by apply quiet_ret.
  - eapply quiet_bind; [apply quiet_monitoring_iteration|]. intros _ _.
    eapply quiet_bind; [apply quiet_lift|]. intros _ _. exact IH.
Qed.

End MonitorAsWritten.

(** *** The loop over a metrics manager that has [record_metric] *)

Section MonitorWithRecordMetric.
Import Py Eff system_monitor monitor_spec.
Context {W : Type} {os : Psutil W}.
Variable mm : string -> list pyval -> M W unit.
Hypothesis mm_quiet : forall name args, quiet (mm name args) (fun _ => True).
Hypothesis record_metric_returns :
  forall args st, exists st', mm "record_metric" args st = (Return tt, st').

Lemma record_metric_step (args : list pyval) (st : state W) :
  exists st', mm "record_metric" args st = (Return tt, st') /\ raised st' = raised st.
Proof.
  destruct (record_metric_returns args st) as [st' Hst']. exists st'.
  split; [done|]. pose proof (mm_quiet "record_metric" args st) as Hq.
  rewrite Hst' in Hq. destruct Hq as (l & Hl & -> & _). by rewrite app_nil_r in Hl.
Qed.

Lemma check_system_resources_readings (self : SystemMonitor W) (st : state W)
    (cpu memory disk : float) (w1 w2 w3 : W) :
  cpu_percent (outside st) = (Return cpu, w1) ->
  virtual_memory_percent w1 = (Return memory, w2) ->
  disk_usage_percent w2 = (Return disk, w3) ->
  exists st',
    check_system_resources mm self st
    = (Return [("cpu_percent", PFloat cpu); ("memory_percent", PFloat memory);
               ("disk_percent", PFloat disk); ("timestamp", PStr (now_isoformat w3))],
       st')
    /\ raised st' = raised st.
Proof.
  intros Hcpu Hmem Hdisk.
  unfold check_system_resources. rewrite try_except_Exception.
  erewrite bind_Return by (apply external_run, Hcpu).
  erewrite bind_Return by (apply external_run, Hmem).
  erewrite bind_Return by (apply external_run, Hdisk).
  erewrite bind_Return by reflexivity.
  cbn [outside log errors_total alerts_raised].
  set (st0 := State w3 (log st) (errors_total st) (alerts_raised st)).
  assert (H0 : raised st0 = raised st) by done.
  cbn [for_each]. rewrite !decide_True by done. rewrite decide_False by (by intros []).
  destruct (record_metric_step [PStr ("system_" ++ "cpu_percent"); PFloat cpu] st0)
    as (st1 & E1 & H1).
  destruct (record_metric_step [PStr ("system_" ++ "memory_percent"); PFloat memory] st1)
    as (st2 & E2 & H2).
  destruct (record_metric_step [PStr ("system_" ++ "disk_percent"); PFloat disk] st2)
    as (st3 & E3 & H3).
  unfold bind. rewrite E1, E2, E3. cbn.
  exists st3. split; [done|]. congruence.
Qed.

(** With [record_metric] in place, one turn of the loop raises a resource
    alert for exactly the readings above their thresholds. *)
Lemma monitoring_iteration_with_record_metric (self : SystemMonitor W) (st : state W)
    (cpu memory disk : float) (w1 w2 w3 : W) :
  cpu_percent (outside st) = (Return cpu, w1) ->
  virtual_memory_percent w1 = (Return memory, w2) ->
  disk_usage_percent w2 = (Return disk, w3) ->
  raised (monitoring_iteration mm self st).2
  = (raised st
     ++ exceeding (alert_threshold self)
          [("cpu_percent", cpu); ("memory_percent", memory); ("disk_percent", disk)])%list.
Proof.
  intros Hcpu Hmem Hdisk.
  destruct (check_system_resources_readings self st _ _ _ _ _ _ Hcpu Hmem Hdisk)
    as (st1 & Hres & Hraised).
  set (readings := [("cpu_percent", cpu); ("memory_percent", memory);
                    ("disk_percent", disk)]).
  unfold monitoring_iteration. rewrite try_except_Exception.
  unfold bind at 1. rewrite Hres.
  match goal with
  | |- context [bind (check_thresholds self ?r) ?k st1] =>
      assert (Hrest : adds_alerts (bind (check_thresholds self r) k)
                        (fun _ l => l = exceeding (alert_threshold self) readings)
                        (fun l => l = exceeding (alert_threshold self) readings))
  end.
  { eapply adds_alerts_bind;
      [apply (check_thresholds_readings self readings (now_isoformat w3))| |done].
    intros _ l1 ->. eapply adds_alerts_weaken.
    - by apply quiet_after_resources.
    - intros _ l [-> _]. by rewrite app_nil_r.
    - intros l ->. by rewrite app_nil_r. }
  specialize (Hrest st1). cbv beta in Hrest.
  match goal with
  | |- context [bind (check_thresholds self ?r) ?k st1] =>
      destruct (bind (check_thresholds self r) k st1) as [[[]|e] st2]
  end.
  - destruct Hrest as (l & Hl & ->). cbn [snd]. by rewrite Hl, Hraised.
  - destruct Hrest as (l & Hl & ->).
    pose proof (quiet_loop_handler mm mm_quiet e st2) as Hh.
    destruct (bind _ _ st2) as [[[]|e'] st3]; destruct Hh as (l' & Hl' & Hnil);
      cbn [snd]; rewrite Hl', Hl, Hraised.
    + destruct Hnil as [-> _]. by rewrite app_nil_r.
    + rewrite Hnil. by rewrite app_nil_r.
Qed.

End MonitorWithRecordMetric.

(** *** The claim about resource alerts, against the code *)

Section ResourceAlerts.
Import Py Eff system_monitor monitor_spec.

(** [exceeding] is the claim's condition: a metric is listed exactly when
    its reading lies strictly above its configured threshold. *)
Lemma elem_of_exceeding (threshold : gmap string float)
    (readings : list (string * float)) (metric : string) (v : pyval) (t : float) :
  (metric, v, t) ∈ exceeding threshold readings
  <-> exists value : float,
        v = PFloat value /\ (metric, value) ∈ readings
        /\ threshold !! metric = Some t /\ (t < value)%Qc.
Proof.
  unfold exceeding. rewrite list_elem_of_omap. split.
  - intros ([m value] & Hin & Hsome).
    destruct (threshold !! m) as [t'|] eqn:Ht; [|discriminate].
    destruct (float_gtb value t') eqn:Hgt; [|discriminate].
    injection Hsome as <- <- <-. exists value.
    repeat split; try done. by apply float_gtb_spec.
  - intros (value & -> & Hin & Ht & Hlt). exists (metric, value).
    split; [done|]. rewrite Ht.
    by rewrite (proj2 (float_gtb_spec value t) Hlt).
Qed.

(** With the default thresholds nothing is called for while the three
    readings are at or below 80, 85 and 90. *)
Lemma exceeding_default_none (cpu memory disk : float) :
  (cpu <= Q2Qc 80.0)%Qc -> (memory <= Q2Qc 85.0)%Qc -> (disk <= Q2Qc 90.0)%Qc ->
  exceeding default_alert_threshold
    [("cpu_percent", cpu); ("memory_percent", memory); ("disk_percent", disk)]
  = [].
Proof.
  intros Hc Hm Hd.
  assert (Hle : forall a b : float, (a <= b)%Qc -> float_gtb a b = false).
  { intros a b Hab. apply not_true_is_false. rewrite float_gtb_spec.
    by apply Qcle_ngt. }
  unfold exceeding. cbn [omap list_omap].
  change (default_alert_threshold !! "cpu_percent") with (Some (Q2Qc 80.0)).
  change (default_alert_threshold !! "memory_percent") with (Some (Q2Qc 85.0)).
  change (default_alert_threshold !! "disk_percent") with (Some (Q2Qc 90.0)).
  cbv beta iota. by rewrite (Hle _ _ Hc), (Hle _ _ Hm), (Hle _ _ Hd).
Qed.

(** C8 against the code: on a machine whose processor reading is 95 with
    the default thresholds, the claim calls for one resource alert and a
    turn of the loop raises none, because the resource check fails on the
    missing [record_metric] and hands the loop an empty dict; the same holds
    for every machine, monitor and number of turns. *)
Theorem C8_no_resource_alert_at_cpu_95 :
  exceeding default_alert_threshold
    [("cpu_percent", Q2Qc 95.0); ("memory_percent", Q2Qc 50.0);
     ("disk_percent", Q2Qc 50.0)]
  = [("cpu_percent", PFloat (Q2Qc 95.0), Q2Qc 80.0)]
  /\ check_system_resources (os := busy_machine) metrics.metrics_manager
       (init 60 None) idle_state
     = (Return [],
        State tt
          [LogRecord ERROR
             "システムリソースのチェックに失敗: 'MetricsManager' object has no attribute 'record_metric'"]
          {["system_check_failed" := 1%nat]} [])
  /\ alerts_raised
       (monitoring_iteration (os := busy_machine) metrics.metrics_manager
          (init 60 None) idle_state).2
     = []
  /\ (forall (W : Type) (os : Psutil W) (self : SystemMonitor W) (turns : nat)
            (st : state W),
        raised (monitoring_loop metrics.metrics_manager self turns st).2
        = raised st).
Proof.
  split; [|split; [|split]].
  - vm_compute. reflexivity.
  - vm_compute. reflexivity.
  - vm_compute. reflexivity.
  - intros W os self turns st.
    pose proof (quiet_monitoring_loop self turns st) as Hq.
    destruct (monitoring_loop _ self turns st) as [[[]|e] st'];
      destruct Hq as (l & Hl & Hnil); cbn [snd]; rewrite Hl.
    + destruct Hnil as [-> _]. by rewrite app_nil_r.
    + rewrite Hnil. by rewrite app_nil_r.
Qed.

(** Had [MetricsManager] a [record_metric] that returns, the same machine
    would get its alert. *)
Example busy_machine_with_record_metric :
  raised
    (monitoring_iteration (os := busy_machine)
       (fun name args =>
          if decide (name = "record_metric") then ret tt
          else metrics.metrics_manager name args)
       (init 60 None) idle_state).2
  = [("cpu_percent", PFloat (Q2Qc 95.0), Q2Qc 80.0)].
Proof. vm_compute. reflexivity. Qed.

End ResourceAlerts.

(* ================================================================= *)
(** * Further properties of the code *)

(** ** Launch windows *)

Section LaunchWindow.
Import Py training_simulator schedule_spec space_map.

Lemma days_add (delta k : Z) : days (delta + microseconds k) = days delta + k.
Proof.
  unfold days, microseconds, microseconds_per_day. by rewrite Z.div_add.
Qed.

Lemma next_launch_window_mars (start_date : datetime) :
  tzinfo start_date = None ->
  get_next_launch_window "mars" start_date
  = datetime_add start_date (microseconds (days_until_window start_date)).
Proof.
  intros Hnaive. unfold get_next_launch_window, datetime_sub.
  rewrite decide_True by done. rewrite Hnaive. cbn [tzinfo mars_epoch result_bind].
  rewrite timedelta_returns; [done|].
  pose proof (Z.mod_pos_bound (days (wall start_date - wall mars_epoch)) 780
                ltac:(lia)). cbn [wall mars_epoch] in *. lia.
Qed.

(** For a date without a time zone the Mars window lies one to 780 days
    after the start date, at its time of day, on a day whose distance from
    1 September 2022 is a multiple of 780 days; asked on a window day, the
    tool answers with the window 780 days later.  When that day lies beyond
    the year 9999 the call raises [OverflowError], and for a date with a
    time zone it raises [TypeError].  The Moon can be left at once, and every
    other destination, known or not, twelve hours later, unless those lead
    beyond the year 9999. *)
Theorem next_launch_window_grid (start_date : datetime) :
  in_range start_date ->
  (tzinfo start_date = None ->
   1 <= days_until_window start_date <= 780
   /\ (wall start_date + microseconds (days_until_window start_date) <= max_wall ->
       exists window : datetime,
         get_next_launch_window "mars" start_date = Return window
         /\ window
            = Datetime (wall start_date + microseconds (days_until_window start_date))
                       None
         /\ days (wall window - wall mars_epoch) mod 780 = 0
         /\ days_until_window window = 780
         /\ (wall window + microseconds 780 <= max_wall ->
             get_next_launch_window "mars" window
             = Return (Datetime (wall window + microseconds 780) None)))
   /\ (max_wall < wall start_date + microseconds (days_until_window start_date) ->
       get_next_launch_window "mars" start_date
       = Raise (Exception OverflowError "date value out of range" None)))
  /\ (is_Some (tzinfo start_date) ->
      get_next_launch_window "mars" start_date
      = Raise (Exception TypeError
                 "can't subtract offset-naive and offset-aware datetimes" None))
  /\ get_next_launch_window "moon" start_date = Return start_date
  /\ (forall destination : string,
        destination <> "mars" -> destination <> "moon" ->
        (wall start_date + timedelta_hours 12 <= max_wall ->
         get_next_launch_window destination start_date
         = Return (Datetime (wall start_date + timedelta_hours 12)
                            (tzinfo start_date)))
        /\ (max_wall < wall start_date + timedelta_hours 12 ->
            get_next_launch_window destination start_date
            = Raise (Exception OverflowError "date value out of range" None))).
Proof.
  intros [H0 Hmax]. split; [|split; [|split]].
  - intros Hnaive.
    pose proof (Z.mod_pos_bound (days (wall start_date - wall mars_epoch)) 780
                  ltac:(lia)) as Hm.
    assert (Hgrid :
      days (wall start_date + microseconds (days_until_window start_date)
            - wall mars_epoch) mod 780 = 0).
    { replace (wall start_date + microseconds (days_until_window start_date)
               - wall mars_epoch)
        with (wall start_date - wall mars_epoch
              + microseconds (days_until_window start_date)) by lia.
      rewrite days_add. unfold days_until_window.
      pose proof (Z.div_mod (days (wall start_date - wall mars_epoch)) 780
                    ltac:(lia)) as Hdm.
      replace (days (wall start_date - wall mars_epoch)
               + (780 - days (wall start_date - wall mars_epoch) mod 780))
        with ((days (wall start_date - wall mars_epoch) / 780 + 1) * 780) by lia.
      apply Z.mod_mul. lia. }
    split; [unfold days_until_window; lia|]. split.
    + intros Hfits. eexists. split.
      { rewrite next_launch_window_mars by done.
        apply datetime_add_returns. unfold days_until_window, microseconds in *. lia. }
      rewrite Hnaive. split; [reflexivity|]. cbn [wall].
      split; [exact Hgrid|].
      assert (Hnext : days_until_window
                        (Datetime (wall start_date
                                   + microseconds (days_until_window start_date)) None)
                      = 780).
      { unfold days_until_window at 1. cbn [wall]. rewrite Hgrid. lia. }
      split; [exact Hnext|]. intros Hfits'.
      rewrite next_launch_window_mars by done. rewrite Hnext.
      apply datetime_add_returns. cbn [wall].
      unfold days_until_window, microseconds in *. lia.
    + intros Hover. rewrite next_launch_window_mars by done.
      apply datetime_add_raises. lia.
  - intros [offset Haware]. unfold get_next_launch_window, datetime_sub.
    rewrite decide_True by done. by rewrite Haware.
  - unfold get_next_launch_window. rewrite decide_False by done.
    by rewrite decide_True.
  - intros destination H1 H2. unfold get_next_launch_window.
    rewrite !decide_False by done. split.
    + intros Hfits. apply datetime_add_returns. unfold timedelta_hours in *. lia.
    + intros Hover. apply datetime_add_raises. lia.
Qed.

Lemma next_launch_window_grid_witness :
  get_next_launch_window "moon" june_2025 = Return june_2025.
Proof.
  apply (next_launch_window_grid june_2025).
  unfold in_range, june_2025, max_wall. cbn [wall]. lia.
Defined.

(** On 1 September 2022 itself the next window is 20 October 2024; on the
    last day of the year 9999 there is none. *)
Example next_launch_window_epoch :
  get_next_launch_window "mars" mars_epoch
  = Return (Datetime (wall mars_epoch + microseconds 780) None)
  /\ get_next_launch_window "mars" (Datetime (max_wall - microseconds 1) None)
     = Raise (Exception OverflowError "date value out of range" None)
  /\ get_next_launch_window "iss" (Datetime max_wall (Some 0))
     = Raise (Exception OverflowError "date value out of range" None).
Proof. repeat split; reflexivity. Qed.

End LaunchWindow.

(** ** The quote of the booking form *)

Section FormQuote.
Import Py price_spec app binary64.

Lemma float_of_int_mul (a b : Z) :
  (float_of_int a * float_of_int b)%Qc = float_of_int (a * b).
Proof.
  unfold float_of_int. apply Qc_is_canon. cbn.
  rewrite Qred_correct. unfold Qeq, Qmult. cbn. lia.
Qed.

Lemma Qcmult_one_literal (q : Qc) : (q * Q2Qc 1.0)%Qc = q.
Proof.
  replace (Q2Qc 1.0) with 1%Qc by (apply Qc_is_canon; reflexivity).
  apply Qcmult_1_r.
Qed.

Lemma form_names_miss_tables (selected_package package_type : string) :
  selected_package ∈ package_options -> package_type ∈ class_options ->
  base_price (replace (replace selected_package "コース" "") "滞在" "") = 1000000
  /\ package_multiplier package_type = Q2Qc 1.0.
Proof.
  unfold package_options, class_options.
  rewrite !elem_of_cons, !elem_of_nil.
  intros [-> | [-> | [-> | []]]] [-> | [-> | [-> | []]]]; split;
    solve [ reflexivity
          | unfold package_multiplier; cbn zeta;
            repeat case_decide; first [reflexivity | exfalso; vm_compute in *; congruence] ].
Qed.

Lemma package_days_options (selected_package : string) :
  selected_package ∈ package_options ->
  exists days : Z, package_days !! selected_package = Some days /\ 3 <= days <= 30.
Proof.
  unfold package_options. rewrite !elem_of_cons, !elem_of_nil.
  intros [-> | [-> | [-> | []]]];
    [exists 3 | exists 30 | exists 5]; (split; [reflexivity | lia]).
Qed.

(** The price the booking form quotes: for every package and every class its
    select boxes offer, the name handed to [calculate_price] is in neither
    price table (the suffix is cut off, the name stays Japanese), so the
    quote is the default 1 000 000 per passenger-day whatever the package and
    the class; on binary64 floats, for the one to four passengers of the
    form, it is that number exactly. *)
Theorem form_quote_is_flat
    (selected_package package_type : string) (passengers : Z) :
  selected_package ∈ package_options -> package_type ∈ class_options ->
  exists days : Z,
    package_days !! selected_package = Some days
    /\ quote selected_package package_type passengers
       = Return (float_of_int (1000000 * days * passengers))
    /\ (1 <= passengers <= 4 ->
        exists (f : spec_float) (q : Q),
          quote_binary64 selected_package package_type passengers = Return f
          /\ value f = Some q
          /\ Q2Qc q = float_of_int (1000000 * days * passengers)).
Proof.
  intros Hpkg Hcls.
  destruct (package_days_options _ Hpkg) as (days & Hdays & Hrange).
  destruct (form_names_miss_tables _ _ Hpkg Hcls) as [Hbase Hmult].
  assert (Hprice :
    booking_agent.calculate_price
      (replace (replace selected_package "コース" "") "滞在" "")
      days package_type passengers
    = float_of_int (1000000 * days * passengers)).
  { rewrite calculate_price_unfold, Hbase, Hmult, Qcmult_one_literal.
    by rewrite !float_of_int_mul. }
  exists days. split; [done|]. split.
  - unfold quote, dict_getitem. rewrite Hdays. cbn [result_bind].
    by rewrite Hprice.
  - intros Hp. unfold quote_binary64, dict_getitem. rewrite Hdays.
    cbn [result_bind].
    destruct (calculate_price_binary64_exact
                (replace (replace selected_package "コース" "") "滞在" "")
                days package_type passengers) as (f & q & Hf & Hv & Hq);
      [lia | lia | nia |].
    exists f, q. split; [done|]. split; [done|]. by rewrite Hq.
Qed.

Lemma form_quote_is_flat_witness :
  exists days : Z,
    package_days !! "火星探検コース" = Some days
    /\ quote "火星探検コース" "ファースト" 2
       = Return (float_of_int (1000000 * days * 2))
    /\ (1 <= 2 <= 4 ->
        exists (f : spec_float) (q : Q),
          quote_binary64 "火星探検コース" "ファースト" 2 = Return f
          /\ value f = Some q
          /\ Q2Qc q = float_of_int (1000000 * days * 2)).
Proof.
  apply (form_quote_is_flat "火星探検コース" "ファースト" 2); compute_done.
Defined.

(** [str.replace] on the names of the form, and where occurrences meet. *)
Example replace_examples :
  replace (replace "月周遊コース" "コース" "") "滞在" "" = "月周遊"
  /\ replace (replace "火星探検コース" "コース" "") "滞在" "" = "火星探検"
  /\ replace (replace "宇宙ステーション滞在" "コース" "") "滞在" "" = "宇宙ステーション"
  /\ replace "abcabc" "bc" "x" = "axax"
  /\ replace "aaa" "aa" "b" = "ba"
  /\ replace "ab" "" "-" = "-a-b-".
Proof. repeat split; reflexivity. Qed.

(** A name outside the form's packages has no entry in the dict of days. *)
Example quote_unknown_package :
  quote "moon" "economy" 1 = Raise (Exception KeyError "moon" None).
Proof. reflexivity. Qed.

End FormQuote.

(** ** The full weather report *)

Section WeatherReport.
Import Py space_weather.

Lemma activity_levels_cases (s : string) :
  s ∈ activity_levels init ->
  s = "low" \/ s = "moderate" \/ s = "high" \/ s = "extreme".
Proof. cbn. rewrite !elem_of_cons, elem_of_nil. tauto. Qed.

Lemma risk_levels_cases (s : string) :
  s ∈ risk_levels init ->
  s = "minimal" \/ s = "low" \/ s = "moderate" \/ s = "high" \/ s = "severe".
Proof. cbn. rewrite !elem_of_cons, elem_of_nil. tauto. Qed.

(** The recommendation as a function of the three readings a report can
    hold. *)
Lemma recommendation_of_levels (solar radiation meteoroid : string) :
  solar ∈ activity_levels init -> radiation ∈ activity_levels init ->
  meteoroid ∈ risk_levels init ->
  (get_weather_recommendation solar radiation meteoroid = postpone_recommendation
   <-> solar = "high" \/ radiation = "high"
       \/ meteoroid = "high" \/ meteoroid = "severe")
  /\ (get_weather_recommendation solar radiation meteoroid = stable_recommendation
      <-> (solar = "low" \/ solar = "extreme")
          /\ (radiation = "low" \/ radiation = "extreme")
          /\ (meteoroid = "minimal" \/ meteoroid = "low")).
Proof.
  intros Hs Hr Hm.
  apply activity_levels_cases in Hs. apply activity_levels_cases in Hr.
  apply risk_levels_cases in Hm.
  destruct Hs as [-> | [-> | [-> | ->]]]; destruct Hr as [-> | [-> | [-> | ->]]];
    destruct Hm as [-> | [-> | [-> | [-> | ->]]]];
    (split; split; intros H;
     first [ reflexivity
           | solve [auto 10]
           | solve [repeat split; auto]
           | exfalso; vm_compute in H; congruence
           | exfalso;
             repeat match goal with
                    | H : _ \/ _ |- _ => destruct H
                    | H : _ /\ _ |- _ => destruct H
                    end; discriminate ]).
Qed.

(** Every report of [get_full_weather_report] holds three readings of the
    tool's own lists and is valid for 24 hours; it advises to postpone
    exactly when the solar activity or the radiation is "high" or the
    meteoroid risk is "high" or "severe", and calls the weather stable
    exactly when solar activity and radiation are each "low" or "extreme" and
    the meteoroid risk is "minimal" or "low".  Every combination of readings
    is reported by some draws. *)
Theorem full_weather_report_recommendation :
  (forall d1 d2 d3 : nat,
      exists r : weather_report,
        get_full_weather_report init d1 d2 d3 = Return r
        /\ report_solar_activity r ∈ activity_levels init
        /\ report_radiation_level r ∈ activity_levels init
        /\ report_meteoroid_risk r ∈ risk_levels init
        /\ report_valid_hours r = 24
        /\ (report_recommendation r = postpone_recommendation
            <-> report_solar_activity r = "high" \/ report_radiation_level r = "high"
                \/ report_meteoroid_risk r = "high"
                \/ report_meteoroid_risk r = "severe")
        /\ (report_recommendation r = stable_recommendation
            <-> (report_solar_activity r = "low" \/ report_solar_activity r = "extreme")
                /\ (report_radiation_level r = "low"
                    \/ report_radiation_level r = "extreme")
                /\ (report_meteoroid_risk r = "minimal"
                    \/ report_meteoroid_risk r = "low")))
  /\ (forall solar radiation meteoroid : string,
        solar ∈ activity_levels init -> radiation ∈ activity_levels init ->
        meteoroid ∈ risk_levels init ->
        exists d1 d2 d3 : nat,
          get_full_weather_report init d1 d2 d3
          = Return {| report_solar_activity := solar;
                      report_radiation_level := radiation;
                      report_meteoroid_risk := meteoroid;
                      report_recommendation :=
                        get_weather_recommendation solar radiation meteoroid;
                      report_valid_hours := 24 |}).
Proof.
  split.
  - intros d1 d2 d3.
    unfold get_full_weather_report, get_solar_activity, get_radiation_level,
      get_meteoroid_risk.
    destruct (random_choice_elem d1 (activity_levels init)) as (solar & -> & Hs);
      [done|].
    destruct (random_choice_elem d2 (activity_levels init)) as (radiation & -> & Hr);
      [done|].
    destruct (random_choice_elem d3 (risk_levels init)) as (meteoroid & -> & Hm);
      [done|].
    cbn [result_bind]. eexists. split; [reflexivity|].
    cbn [report_solar_activity report_radiation_level report_meteoroid_risk
         report_recommendation report_valid_hours].
    destruct (recommendation_of_levels solar radiation meteoroid Hs Hr Hm)
      as [Hpostpone Hstable].
    do 4 (split; [done|]). split; [exact Hpostpone | exact Hstable].
  - intros solar radiation meteoroid Hs Hr Hm.
    destruct (random_choice_hits _ _ Hs) as (d1 & _ & H1).
    destruct (random_choice_hits _ _ Hr) as (d2 & _ & H2).
    destruct (random_choice_hits _ _ Hm) as (d3 & _ & H3).
    exists d1, d2, d3. unfold get_full_weather_report,
      get_solar_activity, get_radiation_level, get_meteoroid_risk.
    by rewrite H1, H2, H3.
Qed.

End WeatherReport.

(** ** The layout of a training schedule *)

Section ScheduleLayout.
Import Py training_simulator schedule_spec.

Lemma modules_from_types (types : list TrainingType) (tz : option Z) (current_date : Z) :
  map module_type (modules_from tz current_date types) = map TrainingType_value types
  /\ map module_duration_days (modules_from tz current_date types) = map duration types.
Proof.
  revert current_date. induction types as [|t types IH]; intros current_date; [done|].
  cbn [modules_from map].
  destruct (IH (current_date + microseconds (duration t + 1))) as [-> ->]. done.
Qed.

(** The layout of a training schedule, for a departure date whose schedule
    lies in the years 1 to 9999: one module per requested type, in the order
    of the request and with the length of its program; the schedule starts
    14 days and the days of the programs before the departure, in the time
    zone of the departure, and its first module starts then; the last module
    ends exactly 15 - n days before departure, n being the number of
    modules, so the end date of the schedule (seven days before departure) is
    the end of the training for eight modules only.  Without any type the
    schedule is empty and starts 14 days before departure.  For any other
    departure date the call raises [OverflowError]. *)
Theorem training_schedule_layout
    (trainee : string) (departure : datetime) (training_types : list TrainingType) :
  in_range departure ->
  (schedulable departure training_types ->
   exists schedule : training_schedule,
     create_training_schedule trainee departure training_types = Return schedule
     /\ trainee_name schedule = trainee
     /\ departure_date schedule = departure
     /\ start_date schedule
        = Datetime (wall departure
                    - microseconds (sum (map duration training_types) + 14))
                   (tzinfo departure)
     /\ end_date schedule
        = Datetime (wall departure - microseconds 7) (tzinfo departure)
     /\ map module_type (training_modules schedule)
        = map TrainingType_value training_types
     /\ map module_duration_days (training_modules schedule)
        = map duration training_types
     /\ (forall m : training_module,
           head (training_modules schedule) = Some m ->
           module_start_date m = start_date schedule)
     /\ (forall m : training_module,
           last (training_modules schedule) = Some m ->
           module_end_date m
           = Datetime (wall departure
                       - microseconds (15 - Z.of_nat (length training_types)))
                      (tzinfo departure))
     /\ (training_types = [] ->
         training_modules schedule = []
         /\ wall (start_date schedule) = wall departure - microseconds 14))
  /\ (~ schedulable departure training_types ->
      exists e : exception,
        create_training_schedule trainee departure training_types = Raise e
        /\ exc_type e = OverflowError).
Proof.
  intros Hrange. split; [|by apply create_training_schedule_raises].
  intros Hfit. eexists. split; [by apply create_training_schedule_returns|].
  cbn [trainee_name departure_date start_date end_date training_modules].
  destruct (modules_from_types training_types (tzinfo departure)
              (wall departure - microseconds (sum (map duration training_types) + 14)))
    as [Htypes Hdur].
  do 6 (split; [done|]). split; [|split].
  - intros m Hm. destruct training_types as [|t types]; [done|].
    cbn in Hm. by injection Hm as <-.
  - intros m Hm. apply modules_from_last in Hm. rewrite Hm.
    f_equal. unfold microseconds. lia.
  - by intros ->.
Qed.

Lemma training_schedule_layout_witness :
  exists schedule : training_schedule,
    create_training_schedule "宇宙猫太郎" june_2025 [ZERO_GRAVITY; HEALTH]
    = Return schedule
    /\ end_date schedule = Datetime (wall june_2025 - microseconds 7) None.
Proof.
  assert (Hrange : in_range june_2025)
    by (unfold in_range, june_2025, max_wall; cbn [wall]; lia).
  assert (Hfit : schedulable june_2025 [ZERO_GRAVITY; HEALTH])
    by (unfold schedulable, june_2025, max_wall, microseconds;
        cbn [wall map length]; rewrite !sum_cons; cbn; split; [|intros _]; lia).
  destruct (proj1 (training_schedule_layout "宇宙猫太郎" june_2025
                     [ZERO_GRAVITY; HEALTH] Hrange) Hfit)
    as (schedule & Hreturns & _ & _ & _ & Hend & _).
  exists schedule. split; [exact Hreturns | exact Hend].
Defined.

End ScheduleLayout.

(** ** Training sessions *)

Section TrainingSession.
Import Py binary64 training_simulator training_session session_spec.

Lemma tenths_literals :
  tenths 10 = S754_finite false 4503599627370496 (-52)
  /\ tenths 9 = S754_finite false 8106479329266893 (-53)
  /\ tenths 8 = S754_finite false 7205759403792794 (-53).
Proof. repeat split; vm_compute; reflexivity. Qed.

Lemma randint_range (draw : nat) (a b : Z) : a <= b -> a <= randint draw a b <= b.
Proof.
  intros Hab. unfold randint.
  pose proof (Z.mod_pos_bound (Z.of_nat draw) (b - a + 1) ltac:(lia)). lia.
Qed.

Lemma randint_hits (a b n : Z) : a <= n <= b -> exists draw : nat, randint draw a b = n.
Proof.
  intros Hn. exists (Z.to_nat (n - a)). unfold randint.
  rewrite Z2Nat.id by lia. rewrite Z.mod_small by lia. lia.
Qed.

Lemma between_cases (P : Z -> Prop) (lo : Z) (n : nat) :
  (forall k : nat, (k < n)%nat -> P (lo + Z.of_nat k)) ->
  forall z : Z, lo <= z < lo + Z.of_nat n -> P z.
Proof.
  intros H z Hz. replace z with (lo + Z.of_nat (Z.to_nat (z - lo))) by lia.
  apply H. lia.
Qed.

Lemma session_by_marks (base_score : Z) (level : TrainingLevel) :
  60 <= base_score <= 100 ->
  of_int base_score = Return (literal base_score 0)
  /\ ge_int (mul (literal base_score 0) (difficulty_multiplier level)) 80
     = bool_decide (pass_mark level <= base_score)
  /\ ge_int (mul (literal base_score 0) (difficulty_multiplier level)) 90
     = bool_decide (excellence_mark level <= base_score)
  /\ ge_int (mul (literal base_score 0) (difficulty_multiplier level)) 48 = true
  /\ SFleb (mul (literal base_score 0) (difficulty_multiplier level)) (literal 100 0)
     = true.
Proof.
  intros Hrange. assert (Hlt : 60 <= base_score < 60 + Z.of_nat 41) by lia.
  clear Hrange. revert base_score Hlt.
  apply (between_cases _ 60 41).
  intros k Hk.
  do 41 (destruct k as [|k]; [destruct level; vm_compute; repeat split|]).
  lia.
Qed.

Ltac session_side :=
  let H := fresh in
  first [ done | discriminate | intros H; vm_compute in H; discriminate ].

(** A training session never raises.  Its base score is an integer of
    60..100, each of them drawn by some output of the generator, and on
    binary64 floats the outcome is decided by the base score alone: the basic
    level is passed from 80 on, the intermediate level from 89 on (89 * 0.9
    rounds to a float above 80) and the advanced level with a base score of
    100 only; the best feedback is earned from 90 on, with 100 only, and never
    at the advanced level.  Feedback and next steps agree with the verdict,
    and the score lies between 48 and 100. *)
Theorem run_training_session_outcome
    (now : datetime) (draw : nat) (training_type : TrainingType)
    (trainee_name : string) (level : TrainingLevel) :
  exists (base_score : Z) (r : session_result),
    base_score = randint draw 60 100
    /\ 60 <= base_score <= 100
    /\ run_training_session now draw training_type trainee_name level = Return r
    /\ session_passed r = bool_decide (pass_mark level <= base_score)
    /\ session_feedback r = feedback_by_marks level base_score
    /\ session_next_steps r = steps_by_marks level base_score
    /\ (session_passed r = false <-> session_feedback r = failing_feedback)
    /\ (session_passed r = false <-> session_next_steps r = failing_steps)
    /\ (level = ADVANCED -> session_feedback r <> excellent_feedback)
    /\ ge_int (session_score r) 48 = true
    /\ SFleb (session_score r) (literal 100 0) = true.
Proof.
  pose proof (randint_range draw 60 100 ltac:(lia)) as Hrange.
  destruct (session_by_marks (randint draw 60 100) level Hrange)
    as (Hint & Hpass & Hbest & Hlo & Hhi).
  exists (randint draw 60 100). eexists.
  split; [reflexivity|]. split; [exact Hrange|].
  split; [unfold run_training_session; cbn zeta; rewrite Hint; reflexivity|].
  cbn [session_passed session_feedback session_next_steps session_score].
  unfold _generate_feedback, _recommend_next_steps, feedback_by_marks, steps_by_marks,
    passing_score.
  rewrite Hpass, Hbest.
  assert (Hmarks : pass_mark level <= excellence_mark level) by (destruct level; cbn; lia).
  repeat case_bool_decide; repeat case_decide; try lia;
    (do 3 (split; [reflexivity|]));
    (split; [split; session_side|]); (split; [split; session_side|]);
    (split; [|by split]).
  all: intros ->; first [session_side | cbn in *; lia].
Qed.

(** Every base score is reached, so every verdict of the marks occurs. *)
Lemma base_score_reached (n : Z) :
  60 <= n <= 100 -> exists draw : nat, randint draw 60 100 = n.
Proof. apply randint_hits. Qed.

End TrainingSession.

(** ** The session gauge *)

Section Sessions.
Import Py metrics_registry sessions_spec.

Lemma step_drift (st : state) (c : call) :
  drift (step st c) = drift st + Z.of_nat (restarts [c] st).
Proof.
  destruct st as [[sessions] reg]. unfold drift, open_sessions.
  destruct c as [package_type | user_id time_time | user_id | error_type];
    cbn [step restarts record_booking start_user_session end_user_session record_error
         fst snd _active_sessions ACTIVE_USERS]; try lia.
  - case_bool_decide as Hopen; cbn [Nat.add].
    + destruct Hopen as [t Ht].
      rewrite <- (insert_delete_eq sessions user_id time_time).
      rewrite map_size_insert_None by apply lookup_delete_eq.
      rewrite <- (insert_delete_id sessions user_id t Ht) at 2.
      rewrite map_size_insert_None by apply lookup_delete_eq. lia.
    + rewrite map_size_insert_None; [lia|].
      by rewrite eq_None_not_Some.
  - case_bool_decide as Hopen; cbn [fst snd _active_sessions ACTIVE_USERS]; [|lia].
    destruct Hopen as [t Ht].
    rewrite <- (insert_delete_id sessions user_id t Ht) at 2.
    rewrite map_size_insert_None by apply lookup_delete_eq. lia.
Qed.

Lemma run_drift (calls : list call) (st : state) :
  drift (run calls st) = drift st + Z.of_nat (restarts calls st).
Proof.
  revert st. induction calls as [|c calls IH]; intros st; cbn [run fold_left restarts].
  - lia.
  - fold (run calls (step st c)). rewrite IH, step_drift. cbn [restarts]. lia.
Qed.

(** The gauge of active users counts calls, not sessions.  Over any
    sequence of calls on the metrics manager, the gauge rises above the
    number of open sessions by exactly the number of times a session was
    started for a user whose session was open; it never falls back.  So from
    the state of a freshly loaded module the gauge is never below the number
    of open sessions, and equals it as long as no session is started twice;
    ending a session that is not open changes nothing. *)
Theorem active_users_gauge_drift (calls : list call) (st : state) :
  drift (run calls st) = drift st + Z.of_nat (restarts calls st)
  /\ open_sessions (run calls fresh) <= ACTIVE_USERS (snd (run calls fresh))
  /\ (restarts calls fresh = 0%nat ->
      ACTIVE_USERS (snd (run calls fresh)) = open_sessions (run calls fresh))
  /\ (forall user_id : string,
        _active_sessions (fst st) !! user_id = None ->
        end_user_session user_id st = st)
  /\ (forall (user_id : string) (t t' : float),
        let st' := run [StartUserSession user_id t; StartUserSession user_id t';
                        EndUserSession user_id] fresh in
        open_sessions st' = 0 /\ ACTIVE_USERS (snd st') = 1).
Proof.
  pose proof (run_drift calls fresh) as Hfresh.
  change (drift fresh) with 0 in Hfresh. unfold drift in Hfresh.
  split; [apply run_drift|]. split; [lia|]. split; [lia|]. split.
  - intros user_id Hclosed. destruct st as [self reg]. cbn in Hclosed.
    unfold end_user_session. rewrite Hclosed.
    by rewrite bool_decide_eq_false_2 by (by intros [? ?]).
  - intros user_id t t'.
    pose proof (run_drift [StartUserSession user_id t; StartUserSession user_id t';
                           EndUserSession user_id] fresh) as Hrun.
    cbn zeta.
    assert (Hopen : open_sessions
                      (run [StartUserSession user_id t; StartUserSession user_id t';
                            EndUserSession user_id] fresh) = 0).
    { unfold open_sessions, run. cbn [fold_left step fresh init start_user_session fst
                                       _active_sessions].
      unfold end_user_session. cbn [_active_sessions].
      rewrite bool_decide_eq_true_2 by (rewrite lookup_insert_eq; by eexists).
      cbn [fst _active_sessions].
      rewrite insert_insert_eq, delete_insert_eq, delete_empty. done. }
    split; [exact Hopen|].
    change (drift fresh) with 0 in Hrun. unfold drift in Hrun.
    rewrite Hopen in Hrun.
    assert (Hre : restarts [StartUserSession user_id t; StartUserSession user_id t';
                            EndUserSession user_id] fresh = 1%nat).
    { cbn [restarts step fresh init start_user_session fst snd _active_sessions].
      rewrite lookup_empty.
      rewrite bool_decide_eq_false_2 by (by intros [? ?]).
      rewrite lookup_insert_eq.
      by rewrite bool_decide_eq_true_2 by (by eexists). }
    rewrite Hre in Hrun. lia.
Qed.

End Sessions.

(** ** Alerts and their callbacks *)

Section AlertCallbacks.
Import Py Eff system_monitor alert_spec.
Context {W : Type}.

Lemma state_eta (st : state W) :
  State (outside st) (log st) (errors_total st) (alerts_raised st) = st.
Proof. by destruct st. Qed.

Lemma for_each_callbacks (callbacks : list callback) (alert_type : string)
    (details : alert_details) (st : state W) :
  for_each callbacks
    (fun callback =>
       try_except (external (callback alert_type details)) None
         (fun e => logger ERROR ("アラートコールバックの実行に失敗: " ++ exc_str e)))
    st
  = (Return tt,
     State (after_callbacks callbacks alert_type details (outside st))
           (log st ++ map callback_error
                        (callback_failures callbacks alert_type details (outside st)))%list
           (errors_total st) (alerts_raised st)).
Proof.
  revert st. induction callbacks as [|cb callbacks IH]; intros st.
  - cbn. by rewrite app_nil_r, state_eta.
  - cbn [for_each callback_failures after_callbacks fold_left].
    unfold bind. rewrite try_except_Exception. unfold external.
    destruct (cb alert_type details (outside st)) as [[[]|e] w] eqn:Hcb.
    + rewrite IH. cbn [outside log errors_total alerts_raised snd]. done.
    + unfold logger at 1. cbn [outside log errors_total alerts_raised].
      rewrite IH. cbn [outside log errors_total alerts_raised snd map].
      by rewrite <- app_assoc.
Qed.

(** What [alert] does, whatever its callbacks do. *)
Lemma alert_run (self : SystemMonitor W) (alert_type : string)
    (details : alert_details) (st : state W) :
  alert self alert_type details st
  = (Return tt,
     State (after_callbacks (alert_callbacks self) alert_type details (outside st))
           (log st ++ LogRecord WARNING ("アラート発生: " ++ alert_type)
              :: map callback_error
                   (callback_failures (alert_callbacks self) alert_type details
                      (outside st)))%list
           (errors_total st)
           (alerts_raised st ++ [(alert_type, details)])%list).
Proof.
  unfold alert, bind, logger. rewrite for_each_callbacks.
  cbn [outside log errors_total alerts_raised]. by rewrite <- app_assoc.
Qed.

(** [alert] never raises, and a failing callback does not stop the ones
    registered after it: every callback is run, in the order of
    registration, on the world its predecessor has left, whether or not that
    one raised.  The log gains the warning of the alert and one error per
    failing callback, the trace of alerts gains the alert, and the error
    counter is left alone. *)
Theorem alert_runs_every_callback (self : SystemMonitor W) (alert_type : string)
    (details : alert_details) (st : state W) :
  exists st' : state W,
    alert self alert_type details st = (Return tt, st')
    /\ outside st'
       = fold_left (fun w cb => snd (cb alert_type details w)) (alert_callbacks self)
           (outside st)
    /\ log st'
       = (log st ++ LogRecord WARNING ("アラート発生: " ++ alert_type)
            :: map (fun e => LogRecord ERROR
                               ("アラートコールバックの実行に失敗: " ++ exc_str e))
                 (callback_failures (alert_callbacks self) alert_type details
                    (outside st)))%list
    /\ (length (callback_failures (alert_callbacks self) alert_type details (outside st))
        <= length (alert_callbacks self))%nat
    /\ errors_total st' = errors_total st
    /\ alerts_raised st' = (alerts_raised st ++ [(alert_type, details)])%list.
Proof.
  eexists. split; [apply alert_run|].
  cbn [outside log errors_total alerts_raised]. repeat split.
  generalize (outside st). induction (alert_callbacks self) as [|cb l IH]; intros w.
  - done.
  - cbn [callback_failures length].
    destruct (cb alert_type details w) as [[[]|e] w']; cbn [length];
      specialize (IH w'); lia.
Qed.

End AlertCallbacks.

(** ** The error counters of the monitor loop *)

Section MonitorErrors.
Import Py Eff system_monitor alert_spec.
Context {W : Type} {os : Psutil W}.










End MonitorErrors.

(** ** Log contexts *)

Section LogContexts.
Import Py logging_config.

Lemma enter_init (kwargs : gmap string pyval) (logger : extra_data) :
  __enter__ (init kwargs) logger
  = ({| extra := kwargs; _old_extra := default ∅ logger |},
     Some (kwargs ∪ default ∅ logger)).
Proof. by destruct logger. Qed.

Lemma exit_restores (kwargs old : gmap string pyval) (logger : extra_data) :
  is_Some logger ->
  __exit__ {| extra := kwargs; _old_extra := old |} logger
  = Return (if decide (old = ∅) then None else Some old).
Proof.
  intros [d ->]. unfold __exit__. cbn [_old_extra].
  destruct (decide (old = ∅)) as [->|Hne].
  - by rewrite decide_False by (by intros H).
  - by rewrite decide_True.
Qed.

Lemma exit_after_enter (kwargs : gmap string pyval) (logger inside : extra_data) :
  is_Some inside ->
  __exit__ {| extra := kwargs; _old_extra := default ∅ logger |} inside
  = Return (left_behind logger).
Proof.
  intros Hin. rewrite exit_restores by done. unfold left_behind.
  destruct logger as [d|]; cbn [default]; [done|].
  by rewrite decide_True.
Qed.

(** Entering a fresh log context puts its entries on the logger, over the
    ones that are there; leaving it gives the logger its old entries back,
    with one exception: a logger whose [extra_data] was an empty dict has
    lost the attribute afterwards. *)
Theorem log_context_round_trip (kwargs : gmap string pyval) (logger : extra_data) :
  exists (self : LogContext) (d : gmap string pyval),
    __enter__ (init kwargs) logger = (self, Some d)
    /\ (forall key : string,
          d !! key = match kwargs !! key with
                     | Some v => Some v
                     | None => logger ≫= (.!! key)
                     end)
    /\ (logger <> Some ∅ -> __exit__ self (Some d) = Return logger)
    /\ (logger = Some ∅ -> __exit__ self (Some d) = Return None).
Proof.
  eexists _, _. split; [apply enter_init|]. split; [|split].
  - intros key. unfold update. rewrite lookup_union.
    destruct (kwargs !! key) as [v|] eqn:Hk.
    + by destruct (default ∅ logger !! key).
    + destruct logger as [d|]; cbn; [by destruct (d !! key)|].
      by rewrite lookup_empty.
  - intros Hne. rewrite exit_after_enter by by eexists.
    unfold left_behind. destruct logger as [d|]; [|done].
    rewrite decide_False; [done|]. by intros ->.
  - intros ->. by rewrite exit_after_enter by by eexists.
Qed.

(** Two nested contexts on one logger.  Leaving them raises
    [AttributeError] exactly when the outer context has no entries and the
    logger had none either: the inner context then removes the attribute
    that the outer one goes on to delete.  In every other case the logger is
    left as by a single context. *)
Theorem log_context_nested (outer inner : gmap string pyval) (logger : extra_data) :
  (outer = ∅ /\ default ∅ logger = ∅ ->
   nested outer inner logger
   = Raise (Exception AttributeError
              "'Logger' object has no attribute 'extra_data'" None))
  /\ (~ (outer = ∅ /\ default ∅ logger = ∅) ->
      nested outer inner logger = Return (left_behind logger)).
Proof.
  unfold nested. rewrite !enter_init. cbn [from_option id].
  rewrite exit_restores by by eexists. unfold update. split.
  - intros [-> Hd]. rewrite Hd, (left_id_L ∅ (∪)).
    rewrite decide_True by done. cbn [result_bind].
    unfold __exit__. cbn [_old_extra].
    by rewrite decide_False by (by intros H).
  - intros Hne. rewrite decide_False.
    + cbn [result_bind]. by rewrite exit_after_enter by by eexists.
    + intros Hempty. apply Hne. split.
      * by apply map_positive_l in Hempty.
      * apply map_positive_l with (m1 := default ∅ logger) (m2 := outer).
        apply map_eq. intros key. apply (f_equal (.!! key)) in Hempty.
        rewrite lookup_union, lookup_empty in Hempty.
        rewrite lookup_union, lookup_empty.
        destruct (outer !! key), (default ∅ logger !! key); done.
Qed.

End LogContexts.

(** ** The two sources of space weather *)

Section WeatherSources.
Import Py safety_agent space_weather.

(** The space weather of the safety agent does not come from the weather
    tool and disagrees with it: for the agent's own readings the tool
    advises caution, not what the agent recommends; the agent's radiation
    level is none the tool can measure; and the agent's recommendation is no
    sentence the tool ever gives, whatever the readings. *)
Theorem monitor_space_weather_disagrees_with_tool :
  get_weather_recommendation
    (solar_activity monitor_space_weather) (radiation_level monitor_space_weather)
    (meteoroid_risk monitor_space_weather)
  = caution_recommendation
  /\ ~ producible (get_radiation_level init) (radiation_level monitor_space_weather)
  /\ (forall solar radiation meteoroid : string,
        get_weather_recommendation solar radiation meteoroid
        <> recommendation monitor_space_weather)
  /\ (forall (d1 d2 d3 : nat) (r : weather_report),
        get_full_weather_report init d1 d2 d3 = Return r ->
        report_recommendation r <> recommendation monitor_space_weather).
Proof.
  assert (Hnever : forall solar radiation meteoroid : string,
             get_weather_recommendation solar radiation meteoroid
             <> recommendation monitor_space_weather).
  { intros solar radiation meteoroid. unfold get_weather_recommendation.
    destruct (_ || _); [discriminate|]. by destruct (bool_decide _). }
  split; [reflexivity|]. split; [|split; [exact Hnever|]].
  - intros [draw Hdraw].
    destruct (random_choice_elem draw (activity_levels init)) as (s & Hs & Hin); [done|].
    unfold get_radiation_level in Hdraw. rewrite Hs in Hdraw.
    injection Hdraw as ->. revert Hin. cbn. rewrite !elem_of_cons, elem_of_nil.
    intros [H | [H | [H | [H | []]]]]; discriminate.
  - intros d1 d2 d3 r Hr. unfold get_full_weather_report in Hr.
    destruct (get_solar_activity init d1) as [solar|]; [|discriminate].
    destruct (get_radiation_level init d2) as [radiation|]; [|discriminate].
    destruct (get_meteoroid_risk init d3) as [meteoroid|]; [|discriminate].
    cbn [result_bind] in Hr. injection Hr as <-. apply Hnever.
Qed.

End WeatherSources.

(** ** Inquiries *)

Section Inquiries.
Import Py customer_service_agent.

(** The answer to an inquiry promises a reply within 1, 4 or 24 hours, and
    the priority alone decides which: one hour exactly for the priority
    "high", four for "medium", 24 for every other priority, known or not.
    The type of the inquiry chooses the greeting only, so that an emergency
    is answered within the hour only if it is also marked "high". *)
Theorem handle_inquiry_response_time (inquiry : CustomerInquiry) :
  exists (base_response : string) (response_time : Z),
    handle_inquiry inquiry
    = base_response ++ alert_notifier.newline ++ alert_notifier.newline
        ++ pretty response_time ++ "時間以内に詳細な回答を差し上げます。"
    /\ String.prefix "にゃー" base_response = true
    /\ (response_time = 1 <-> priority inquiry = "high")
    /\ (response_time = 4 <-> priority inquiry = "medium")
    /\ (response_time = 24 <->
        priority inquiry <> "high" /\ priority inquiry <> "medium")
    /\ (forall inquiry' : CustomerInquiry,
          priority inquiry' = priority inquiry ->
          exists base_response' : string,
            handle_inquiry inquiry'
            = base_response' ++ alert_notifier.newline ++ alert_notifier.newline
                ++ pretty response_time ++ "時間以内に詳細な回答を差し上げます。").
Proof.
  assert (Hsla : forall p : string,
             dict_get sla_hours p 24
             = if decide (p = "high") then 1
               else if decide (p = "medium") then 4 else 24).
  { intros p. unfold dict_get, sla_hours. repeat case_decide; subst; try reflexivity.
    cbn [list_to_map foldr uncurry fst snd].
    rewrite !lookup_insert_ne by congruence.
    destruct (decide (p = "low")) as [->|Hlow]; [by rewrite lookup_insert_eq|].
    rewrite lookup_insert_ne by congruence. by rewrite lookup_empty. }
  eexists _, _. split; [reflexivity|]. split; [|split; [|split; [|split]]].
  - unfold dict_get, response_templates.
    destruct (decide (inquiry_type inquiry = "general")) as [->|H1]; [reflexivity|].
    destruct (decide (inquiry_type inquiry = "booking")) as [->|H2]; [reflexivity|].
    destruct (decide (inquiry_type inquiry = "complaint")) as [->|H3]; [reflexivity|].
    destruct (decide (inquiry_type inquiry = "emergency")) as [->|H4]; [reflexivity|].
    destruct (decide (inquiry_type inquiry = "feedback")) as [->|H5]; [reflexivity|].
    cbn [list_to_map foldr uncurry fst snd].
    rewrite !lookup_insert_ne by congruence. by rewrite lookup_empty.
  - rewrite Hsla. repeat case_decide; split; intros; try done; try lia; congruence.
  - rewrite Hsla. repeat case_decide; split; intros; try done; try lia; congruence.
  - rewrite Hsla. repeat case_decide; split; intros; try done; try lia;
      try tauto; try congruence.
  - intros inquiry' Hp. eexists. unfold handle_inquiry. cbn zeta. by rewrite Hp.
Qed.

End Inquiries.

(** ** The severity of an alert *)

Section Severity.
Import Py Eff alert_notifier.
Context {W : Type} {net : Network W}.

Lemma ascii_lower_idem (c : ascii) : ascii_lower (ascii_lower c) = ascii_lower c.
Proof. by destruct c as [[] [] [] [] [] [] [] []]. Qed.

Lemma lower_idem (s : string) : lower (lower s) = lower s.
Proof.
  induction s as [|c s IH]; [done|].
  cbn [lower]. by rewrite ascii_lower_idem, IH.
Qed.

(** The severity of a broadcast reaches Slack only, and Slack reads it
    without regard to case: a notifier without a Slack webhook does the same
    whatever the severity, mail, LINE and Discord (always in red) included,
    and the Slack send does for a severity what it does for its lower
    case. *)
Theorem broadcast_severity_reaches_slack_only (self : AlertNotifier)
    (title message : string) :
  (forall (severity : string) (st : state W),
      send_slack_alert self title message severity st
      = send_slack_alert self title message (lower severity) st)
  /\ (truthy_str (slack_webhook self) = false ->
      forall (severity severity' : string) (email_recipients : option (list string))
             (st : state W),
        broadcast_alert self title message severity email_recipients st
        = broadcast_alert self title message severity' email_recipients st).
Proof.
  split.
  - intros severity st. unfold send_slack_alert, slack_request.
    by rewrite lower_idem.
  - intros Hslack severity severity' email_recipients st.
    unfold broadcast_alert. by rewrite Hslack.
Qed.

End Severity.

(** ** Receipts *)

Section Receipts.
Import Py Eff payment_processor receipt.

Example format_int_examples :
  format_int 1234567 = "1,234,567" /\ format_int (-1234) = "-1,234"
  /\ format_int 0 = "0" /\ format_int 999 = "999" /\ format_int 1000 = "1,000"
  /\ format_int 100000 = "100,000".
Proof. repeat split; reflexivity. Qed.

Section WithInterpreter.
Context {W : Type} {sdk : Stripe W} {tz : Localtime}.
Variable str_other : pyval -> string.
Variable format_float : float -> string.

(** Among the dicts that the payment methods return, a receipt can be
    written for the report of a successful payment only.  For that one
    [generate_receipt] returns the template with the id of the charge, the
    name of the customer and the amount of the charge, grouped by thousands.
    For the report of a failed payment and for the report of a refund it
    raises [KeyError] on the transaction id, which these dicts do not hold,
    and for the report of a failed refund it raises [KeyError] on the
    amount. *)
Theorem receipt_only_for_successful_payment (self : PaymentProcessor)
    (today : string) (customer_info : gmap string pyval) (name : pyval) :
  customer_info !! "name" = Some name ->
  (forall (amount : Z) (token customer_email booking_ref : string)
          (st st' : state W) (d : gmap string pyval),
      process_payment self amount token customer_email booking_ref st = (Return d, st') ->
      (exists (id : string) (charged : Z),
          d !! "success" = Some (PBool true)
          /\ d !! "transaction_id" = Some (PStr id)
          /\ d !! "amount" = Some (PInt charged)
          /\ generate_receipt str_other format_float today d customer_info
             = Return (receipt_template today id (py_str str_other name)
                         (format_int charged)))
      \/ (d !! "success" = Some (PBool false)
          /\ generate_receipt str_other format_float today d customer_info
             = Raise (Exception KeyError "transaction_id" None)))
  /\ (forall (transaction_id : string) (amount : option Z)
             (st st' : state W) (d : gmap string pyval),
        process_refund self transaction_id amount st = (Return d, st') ->
        (d !! "success" = Some (PBool true)
         /\ generate_receipt str_other format_float today d customer_info
            = Raise (Exception KeyError "transaction_id" None))
        \/ (d !! "success" = Some (PBool false)
            /\ generate_receipt str_other format_float today d customer_info
               = Raise (Exception KeyError "amount" None))).
Proof.
  intros Hname. split.
  - intros amount token customer_email booking_ref st st' d.
    unfold process_payment. rewrite try_except_class. unfold bind, external, lift.
    destruct (Charge_create _ (outside st)) as [[charge|e] w].
    + cbn [outside log errors_total alerts_raised].
      destruct (fromtimestamp (charge_created charge)) as [created|e].
      * intros [= <- <-]. left. exists (charge_id charge), (charge_amount charge).
        split; [done|]. split; [done|]. split; [done|].
        unfold generate_receipt, dict_getitem. rewrite Hname. reflexivity.
      * destruct (issubclass (exc_type e) StripeError); [|discriminate].
        intros [= <- <-]. right. split; [done|]. reflexivity.
    + destruct (issubclass (exc_type e) StripeError); [|discriminate].
      intros [= <- <-]. right. split; [done|]. reflexivity.
  - intros transaction_id amount st st' d.
    unfold process_refund. rewrite try_except_class. unfold bind, external, lift.
    destruct (Refund_create _ _ (outside st)) as [[refund|e] w].
    + cbn [outside log errors_total alerts_raised].
      destruct (fromtimestamp (refund_created refund)) as [created|e].
      * intros [= <- <-]. left. split; [done|]. reflexivity.
      * destruct (issubclass (exc_type e) StripeError); [|discriminate].
        intros [= <- <-]. right. split; [done|].
        unfold generate_receipt, dict_getitem. rewrite Hname. reflexivity.
    + destruct (issubclass (exc_type e) StripeError); [|discriminate].
      intros [= <- <-]. right. split; [done|].
      unfold generate_receipt, dict_getitem. rewrite Hname. reflexivity.
Qed.

End WithInterpreter.

Lemma receipt_only_for_successful_payment_witness :
  exists d : gmap string pyval,
    process_refund (sdk := payment_spec.declining_charge) (tz := payment_spec.utc)
      init "ch_1" None payment_spec.initial_state
    = (Return d, payment_spec.initial_state)
    /\ generate_receipt (fun _ => "") (fun _ => "") "2025年01月01日" d
         {["name" := PStr "宇宙猫太郎"]}
       = Raise (Exception KeyError "amount" None).
Proof.
  eexists. split; [reflexivity|].
  assert (Hname : ({["name" := PStr "宇宙猫太郎"]} : gmap string pyval) !! "name"
                  = Some (PStr "宇宙猫太郎")) by reflexivity.
  destruct (proj2 (receipt_only_for_successful_payment
                     (sdk := payment_spec.declining_charge) (tz := payment_spec.utc)
                     (fun _ => "") (fun _ => "") init "2025年01月01日"
                     {["name" := PStr "宇宙猫太郎"]} (PStr "宇宙猫太郎") Hname)
              "ch_1" None payment_spec.initial_state payment_spec.initial_state
              _ eq_refl) as [[Hsuccess _] | [_ Hreceipt]].
  - discriminate Hsuccess.
  - exact Hreceipt.
Defined.

End Receipts.

(** ** Routes *)

Section Routes.
Import Py binary64 training_simulator schedule_spec space_map space_route.

Lemma decimal_literals :
  decimal 8 1 = S754_finite false 7205759403792794 (-53)
  /\ decimal 11 1 = S754_finite false 4953959590107546 (-52)
  /\ decimal 1 1 = S754_finite false 7205759403792794 (-56)
  /\ decimal 2 1 = S754_finite false 7205759403792794 (-55)
  /\ decimal 85 2 = S754_finite false 7656119366529843 (-53).
Proof. repeat split; vm_compute; reflexivity. Qed.

(** [timedelta(hours=x)] on some floats: 123456.789 hours, halves of a
    microsecond (0.5 goes to 0, 1.5 and 2.5 to 2), a negative time, and the
    values that are refused. *)
Example timedelta_of_hours_values :
  timedelta_of_hours (decimal 123456789 3) = Return 444444440400000
  /\ timedelta_of_hours (SFdiv prec emax (literal 1 (-1)) (literal 3600000000 0))
     = Return 0
  /\ timedelta_of_hours (SFdiv prec emax (literal 3 (-1)) (literal 3600000000 0))
     = Return 2
  /\ timedelta_of_hours (SFdiv prec emax (literal 5 (-1)) (literal 3600000000 0))
     = Return 2
  /\ timedelta_of_hours (S754_finite true 8501348510880985 (-49))
     = Return (-54365142857)
  /\ timedelta_of_hours (S754_infinity false)
     = Raise (Exception OverflowError "cannot convert float infinity to integer" None)
  /\ timedelta_of_hours S754_nan
     = Raise (Exception ValueError "cannot convert float NaN to integer" None)
  /\ timedelta_of_hours (literal (10 ^ 30) 0)
     = Raise (Exception OverflowError "Python int too large to convert to C int" None).
Proof. repeat split; vm_compute; reflexivity. Qed.

Lemma celestial_bodies_lookup (destination : string) :
  destination ∉ destinations -> celestial_bodies init !! destination = None.
Proof.
  unfold destinations. rewrite !not_elem_of_cons. intros (H1 & H2 & H3 & _).
  unfold init. cbn [celestial_bodies list_to_map foldr uncurry fst snd].
  rewrite !lookup_insert_ne by congruence. apply lookup_empty.
Qed.

(** Runs the steps of [calculate_route] for the table entry of a
    destination, up to the arrival. *)
Ltac run_route destination km body :=
  unfold calculate_route;
  change (celestial_bodies init !! destination) with (Some body);
  cbn iota zeta; cbn [distance max_speed spacecraft_specs init];
  replace (truediv km 28000)
    with (Return (A := spec_float) (SFdiv prec emax (literal km 0) (literal 28000 0)))
    by reflexivity;
  cbn [result_bind];
  let hours :=
    eval vm_compute in
      (_optimize_route (SFdiv prec emax (literal km 0) (literal 28000 0)) destination) in
  replace (_optimize_route (SFdiv prec emax (literal km 0) (literal 28000 0)) destination)
    with hours by (vm_compute; reflexivity);
  let flight := eval vm_compute in (timedelta_of_hours hours) in
  replace (timedelta_of_hours hours) with flight by (vm_compute; reflexivity);
  let fuel_needed := eval vm_compute in (_calculate_fuel init km) in
  replace (_calculate_fuel init km) with fuel_needed by (vm_compute; reflexivity);
  cbn [result_bind];
  let us := eval vm_compute in (flight_microseconds destination) in
  change (flight_microseconds destination) with us.

(** The route to a destination of the table, up to the arrival. *)
Lemma calculate_route_known (destination : string) (departure_date : datetime) :
  destination ∈ destinations ->
  exists (hours : spec_float) (fuel_needed : fuel) (km : Z),
    calculate_route init destination departure_date
    = (arrival <- datetime_add departure_date (flight_microseconds destination) ;;
       Return {| route_destination := destination;
                 departure_time := departure_date;
                 arrival_time := arrival;
                 flight_duration_hours := hours;
                 distance_km := km;
                 route_type := _get_route_type destination;
                 waypoints := _generate_waypoints destination;
                 fuel_requirements := fuel_needed |})%result
    /\ timedelta_of_hours hours = Return (flight_microseconds destination)
    /\ SFltb (S754_zero false) hours = true
    /\ increasing (reserve fuel_needed) (main_fuel fuel_needed) (total fuel_needed)
       = true
    /\ _generate_waypoints destination <> [].
Proof.
  unfold destinations. rewrite !elem_of_cons, elem_of_nil.
  intros [-> | [-> | [-> | []]]]; eexists _, _, _; (split; [|split; [|split; [|split]]]).
  - run_route "moon" 384400
      {| distance := 384400; orbit_period := Float (decimal 2732 2) |}.
    destruct (datetime_add departure_date 54365142857); reflexivity.
  - vm_compute. reflexivity.
  - vm_compute. reflexivity.
  - vm_compute. reflexivity.
  - discriminate.
  - run_route "mars" 225000000
      {| distance := 225000000; orbit_period := Int 687 |}.
    destruct (datetime_add departure_date 23142857142857); reflexivity.
  - vm_compute. reflexivity.
  - vm_compute. reflexivity.
  - vm_compute. reflexivity.
  - discriminate.
  - run_route "iss" 408
      {| distance := 408; orbit_period := Float (decimal 625 4) |}.
    destruct (datetime_add departure_date 52457143); reflexivity.
  - vm_compute. reflexivity.
  - vm_compute. reflexivity.
  - vm_compute. reflexivity.
  - discriminate.
Qed.

(** A route is computed for the three destinations of the table, and for
    these only; every other destination is refused with [ValueError].  On
    binary64 floats the flight to a known destination takes 15 h 6 min
    5.142857 s (the Moon), 267 days 20 h 34 min 17.142857 s (Mars) or
    52.457143 s (the station), as the datetime library makes microseconds of
    the float hours; the route arrives that long after the departure, in its
    time zone, and when that lies beyond the year 9999 the call raises
    [OverflowError].  The route has a positive fuel reserve that is less than
    the main fuel, which is less than the total.  A destination that is both
    routed and in the price table of the booking agent is the Moon or Mars:
    the space station is priced under a name that cannot be routed. *)
Theorem calculate_route_destinations (destination : string) (departure_date : datetime) :
  in_range departure_date ->
  (destination ∈ destinations ->
   (wall departure_date + flight_microseconds destination <= max_wall ->
    exists r : route,
      calculate_route init destination departure_date = Return r
      /\ route_destination r = destination
      /\ departure_time r = departure_date
      /\ timedelta_of_hours (flight_duration_hours r)
         = Return (flight_microseconds destination)
      /\ arrival_time r
         = Datetime (wall departure_date + flight_microseconds destination)
                    (tzinfo departure_date)
      /\ SFltb (S754_zero false) (flight_duration_hours r) = true
      /\ increasing (reserve (fuel_requirements r)) (main_fuel (fuel_requirements r))
           (total (fuel_requirements r)) = true
      /\ waypoints r <> [])
   /\ (max_wall < wall departure_date + flight_microseconds destination ->
       calculate_route init destination departure_date
       = Raise (Exception OverflowError "date value out of range" None)))
  /\ (destination ∉ destinations ->
      calculate_route init destination departure_date
      = Raise (Exception ValueError ("未知の目的地です: " ++ destination) None))
  /\ (forall r : route,
        calculate_route init destination departure_date = Return r ->
        is_Some (booking_agent.base_prices !! destination) ->
        destination = "moon" \/ destination = "mars")
  /\ calculate_route init "space_station" departure_date
     = Raise (Exception ValueError "未知の目的地です: space_station" None)
  /\ booking_agent.base_prices !! "iss" = None.
Proof.
  intros [H0 Hmax].
  assert (Hflight : 0 < flight_microseconds destination)
    by (unfold flight_microseconds; repeat case_decide; lia).
  assert (Hunknown : destination ∉ destinations ->
            calculate_route init destination departure_date
            = Raise (Exception ValueError ("未知の目的地です: " ++ destination) None)).
  { intros Hno. unfold calculate_route. by rewrite celestial_bodies_lookup. }
  split; [|split; [exact Hunknown|split; [|split; [|reflexivity]]]].
  - intros Hin.
    destruct (calculate_route_known destination departure_date Hin)
      as (hours & fuel_needed & km & Hroute & Hhours & Hpos & Hfuel & Hway).
    rewrite Hroute. split.
    + intros Hfits. rewrite datetime_add_returns by lia. cbn [result_bind].
      eexists. split; [reflexivity|]. by cbn.
    + intros Hover. by rewrite datetime_add_raises by lia.
  - intros r Hr [price Hprice].
    destruct (decide (destination ∈ destinations)) as [Hin|Hno].
    + revert Hin Hprice. unfold destinations. rewrite !elem_of_cons, elem_of_nil.
      intros [-> | [-> | [-> | []]]] Hprice; [by left | by right |].
      vm_compute in Hprice. discriminate.
    + rewrite Hunknown in Hr by done. discriminate.
  - unfold calculate_route. by rewrite celestial_bodies_lookup by compute_done.
Qed.

Lemma calculate_route_destinations_witness :
  exists r : route,
    calculate_route init "moon" june_2025 = Return r
    /\ arrival_time r = Datetime (wall june_2025 + 54365142857) None.
Proof.
  assert (Hrange : in_range june_2025)
    by (unfold in_range, june_2025, max_wall; cbn [wall]; lia).
  assert (Hin : "moon" ∈ destinations) by (unfold destinations; apply elem_of_cons; by left).
  assert (Hfits : wall june_2025 + flight_microseconds "moon" <= max_wall)
    by (change (flight_microseconds "moon") with 54365142857;
        unfold june_2025, max_wall; cbn [wall]; lia).
  destruct (proj1 (proj1 (calculate_route_destinations "moon" june_2025 Hrange) Hin)
              Hfits) as (r & Hr & _ & _ & _ & Harrival & _).
  exists r. split; [exact Hr | exact Harrival].
Defined.

(** The flight times in hours: about 15.1 to the Moon, 6428.6 to Mars, and
    0.0146, less than a minute, to the station. *)
Example flight_duration_hours_values :
  _optimize_route (SFdiv prec emax (literal 384400 0) (literal 28000 0)) "moon"
  = S754_finite false 8501348510880985 (-49)
  /\ _optimize_route (SFdiv prec emax (literal 225000000 0) (literal 28000 0)) "mars"
     = S754_finite false 7068289035702857 (-40)
  /\ _optimize_route (SFdiv prec emax (literal 408 0) (literal 28000 0)) "iss"
     = S754_finite false 8399856676421314 (-59).
Proof. repeat split; vm_compute; reflexivity. Qed.

End Routes.

(** ** The first revision of the database *)

Section Migration.
Import migration_001.

Lemma create_table_done (name : string) (cols : list Column) (cons : list Constraint)
    (db : catalog) :
  db !! name = None ->
  (forall ref : string,
      ref ∈ references {| columns := cols; constraints := cons |} ->
      is_Some (db !! ref)) ->
  create_table name cols cons db
  = Done (<[name := {| columns := cols; constraints := cons |}]> db).
Proof.
  intros Hfree Hrefs. unfold create_table. rewrite Hfree.
  destruct (list_find _ _) as [[i ref]|] eqn:Hfind; [|done].
  apply list_find_Some in Hfind as (Hi & Hnone & _).
  apply list_elem_of_lookup_2, Hrefs in Hi as [t Ht]. congruence.
Qed.

Lemma drop_table_done (name : string) (db : catalog) :
  is_Some (db !! name) ->
  (forall (other : string) (t : table),
      db !! other = Some t -> other <> name -> name ∉ references t) ->
  drop_table name db = Done (delete name db).
Proof.
  intros [t Ht] Hrefs. unfold drop_table. rewrite Ht.
  rewrite bool_decide_eq_false_2; [done|].
  intros (other & t' & Hother & Hne & Hin). by apply (Hrefs other t' Hother Hne).
Qed.

Lemma drop_table_referred (name other : string) (t : table) (db : catalog) :
  is_Some (db !! name) -> db !! other = Some t -> other <> name ->
  name ∈ references t ->
  drop_table name db = Refused (DependentObjectsStillExist name).
Proof.
  intros [t' Ht'] Hother Hne Hin. unfold drop_table. rewrite Ht'.
  rewrite bool_decide_eq_true_2; [done|]. by exists other, t.
Qed.

Ltac revision_table :=
  unfold revision_tables; rewrite !elem_of_cons; auto 10.

Ltac free_name Hfree :=
  rewrite ?lookup_insert_ne by done; apply Hfree; revision_table.

Ltac not_referred Hnoref :=
  let other := fresh "other" in
  let t := fresh "t" in
  let Hlook := fresh "Hlook" in
  let Hne := fresh "Hne" in
  intros other t Hlook Hne;
  repeat (apply lookup_insert_Some in Hlook as [[<- <-] | [? Hlook]];
          [cbn; rewrite ?elem_of_cons, elem_of_nil; intuition congruence|]);
  apply (Hnoref _ _ _ Hlook); revision_table.

(** The revision can be applied and taken back.  On a database that has
    none of its five tables, and no table referring to them, [upgrade] is
    accepted statement by statement (every table is created after the table
    its foreign key refers to) and adds the five tables and nothing else;
    [downgrade] is then accepted as well (no table is dropped while another
    still refers to it) and gives the database back as it was.  The order of
    the drops is needed: after the upgrade the table of users cannot be
    dropped first.  A downgrade of a database without the tables is
    refused, and so is a second upgrade. *)
Theorem upgrade_downgrade_round_trip (db : catalog) :
  before_revision db ->
  exists db' : catalog,
    upgrade db = Done db'
    /\ (forall name : string, name ∈ revision_tables -> is_Some (db' !! name))
    /\ (forall name : string, name ∉ revision_tables -> db' !! name = db !! name)
    /\ downgrade db' = Done db
    /\ drop_table "users" db' = Refused (DependentObjectsStillExist "users")
    /\ upgrade db' = Refused (DuplicateTable "users")
    /\ downgrade db = Refused (UndefinedTable "payments").
Proof.
  intros [Hfree Hnoref]. unfold upgrade.
  rewrite create_table_done;
    [|free_name Hfree | cbn; intros ref Href; by apply elem_of_nil in Href].
  cbn [ddl_bind].
  rewrite create_table_done;
    [|free_name Hfree
     |cbn; intros ref ->%list_elem_of_singleton; rewrite lookup_insert_eq; by eexists].
  cbn [ddl_bind].
  rewrite create_table_done;
    [|free_name Hfree
     |cbn; intros ref ->%list_elem_of_singleton;
      rewrite lookup_insert_ne by done; rewrite lookup_insert_eq; by eexists].
  cbn [ddl_bind].
  rewrite create_table_done;
    [|free_name Hfree
     |cbn; intros ref ->%list_elem_of_singleton;
      rewrite !lookup_insert_ne by done; rewrite lookup_insert_eq; by eexists].
  cbn [ddl_bind].
  rewrite create_table_done;
    [|free_name Hfree
     |cbn; intros ref ->%list_elem_of_singleton;
      rewrite !lookup_insert_ne by done; rewrite lookup_insert_eq; by eexists].
  eexists. split; [reflexivity|].
  split; [|split; [|split; [|split; [|split]]]].
  - intros name. unfold revision_tables. rewrite !elem_of_cons, elem_of_nil.
    intros [-> | [-> | [-> | [-> | [-> | []]]]]];
      rewrite ?lookup_insert_ne by done; rewrite lookup_insert_eq; by eexists.
  - intros name. unfold revision_tables. rewrite !not_elem_of_cons.
    intros (H1 & H2 & H3 & H4 & H5 & _). by rewrite !lookup_insert_ne by done.
  - unfold downgrade.
    rewrite drop_table_done;
      [|rewrite lookup_insert_eq; by eexists | not_referred Hnoref].
    rewrite delete_insert_id by free_name Hfree. cbn [ddl_bind].
    rewrite drop_table_done;
      [|rewrite lookup_insert_eq; by eexists | not_referred Hnoref].
    rewrite delete_insert_id by free_name Hfree. cbn [ddl_bind].
    rewrite drop_table_done;
      [|rewrite lookup_insert_eq; by eexists | not_referred Hnoref].
    rewrite delete_insert_id by free_name Hfree. cbn [ddl_bind].
    rewrite drop_table_done;
      [|rewrite lookup_insert_eq; by eexists | not_referred Hnoref].
    rewrite delete_insert_id by free_name Hfree. cbn [ddl_bind].
    rewrite drop_table_done;
      [|rewrite lookup_insert_eq; by eexists | not_referred Hnoref].
    by rewrite delete_insert_id by free_name Hfree.
  - eapply (drop_table_referred "users" "bookings").
    + rewrite !lookup_insert_ne by done. rewrite lookup_insert_eq. by eexists.
    + rewrite !lookup_insert_ne by done. by rewrite lookup_insert_eq.
    + done.
    + cbn. apply list_elem_of_singleton. reflexivity.
  - unfold create_table at 1.
    rewrite !lookup_insert_ne by done. by rewrite lookup_insert_eq.
  - unfold downgrade, drop_table. rewrite Hfree by revision_table. done.
Qed.

Lemma upgrade_downgrade_round_trip_witness :
  exists db' : catalog,
    upgrade ∅ = Done db'
    /\ (forall name : string, name ∈ revision_tables -> is_Some (db' !! name))
    /\ (forall name : string, name ∉ revision_tables -> db' !! name = (∅ : catalog) !! name)
    /\ downgrade db' = Done ∅
    /\ drop_table "users" db' = Refused (DependentObjectsStillExist "users")
    /\ upgrade db' = Refused (DuplicateTable "users")
    /\ downgrade ∅ = Refused (UndefinedTable "payments").
Proof.
  apply (upgrade_downgrade_round_trip ∅). split.
  - intros name _. apply lookup_empty.
  - intros other t name Hother. by rewrite lookup_empty in Hother.
Defined.

End Migration.

(** ** What the price calculator never does *)

Section NeverRejects.
Import Py price_spec binary64.

Lemma of_int_raises (z : Z) (e : exception) :
  of_int z = Raise e -> exc_type e = OverflowError.
Proof.
  unfold of_int. destruct (binary_normalize prec emax z 0 false); try discriminate.
  by intros [= <-].
Qed.

(** [calculate_price] refuses no destination and no class.  A name that is
    in neither table is priced like the Moon in economy class, whatever it
    is; on binary64 floats the only exception the function can raise is the
    [OverflowError] of an integer too large for a float, never the
    [ValueError] that the test of the booking agent expects for the
    destination "invalid", and within the exact range it returns. *)
Theorem calculate_price_never_rejects
    (destination : string) (days : Z) (package_type : string) (passengers : Z) :
  (forall e : exception,
      binary64.calculate_price destination days package_type passengers = Raise e ->
      exc_type e = OverflowError)
  /\ (in_exact_range days passengers ->
      exists f : spec_float,
        binary64.calculate_price destination days package_type passengers = Return f)
  /\ (booking_agent.base_prices !! lower destination = None ->
      booking_agent.package_multipliers !! lower package_type = None ->
      booking_agent.calculate_price destination days package_type passengers
      = booking_agent.calculate_price "moon" days "economy" passengers).
Proof.
  split; [|split].
  - intros e. unfold binary64.calculate_price. cbn zeta.
    destruct (of_int (dict_get _ _ _)) as [base|e1] eqn:H1; cbn [result_bind];
      [|intros [= <-]; by apply of_int_raises in H1].
    destruct (of_int days) as [days'|e2] eqn:H2; cbn [result_bind];
      [|intros [= <-]; by apply of_int_raises in H2].
    destruct (of_int passengers) as [passengers'|e3] eqn:H3; cbn [result_bind];
      [discriminate|intros [= <-]; by apply of_int_raises in H3].
  - intros (Hd & Hp & Hbound).
    destruct (calculate_price_binary64_exact destination days package_type passengers
                Hd Hp Hbound) as (f & q & Hf & _).
    by exists f.
  - intros Hdest Hpkg. unfold booking_agent.calculate_price, dict_get.
    cbn zeta. by rewrite Hdest, Hpkg.
Qed.

(** The call of the test: the destination "invalid" costs 1 000 000. *)
Example calculate_price_invalid :
  binary64.calculate_price "invalid" 1 "economy" 1 = Return (literal 1000000 0)
  /\ booking_agent.base_prices !! lower "invalid" = None.
Proof. split; [vm_compute|]; reflexivity. Qed.

End NeverRejects.
